(** * The JDWP session controller of ART (runtime/jdwp/jdwp_main.cc)

    A shallow embedding of the option parser, of the common part of the
    network state (JdwpNetStateBase) and of the session controller
    (JdwpState), followed by the properties proved about them.

    Integers of the C++ code are values of [Z]; the places where the code
    converts between integer types or can wrap around are written out.
    Effects (logging, system calls, mutexes, condition variables, aborts of
    CHECK) go through the monad [M] below. *)

From Stdlib Require Import ZArith List String Ascii Bool Lia.
From Stdlib Require Import DecimalString.
From Stdlib Require DecimalPos DecimalN.
Import ListNotations.

Open Scope string_scope.
Open Scope list_scope.
Open Scope Z_scope.

(** ** Build configuration *)

(** The data model of the target: it fixes the width of [size_t],
    [ssize_t] and [unsigned long]. *)
Inductive DataModel := ILP32 | LP64.

Definition word_bits (d : DataModel) : Z :=
  match d with ILP32 => 32 | LP64 => 64 end.

Record BuildConfig := {
  ART_TARGET_ANDROID : bool;   (* the preprocessor symbol of the same name *)
  kIsDebugBuild : bool;        (* DCHECK is compiled in only when this holds *)
  data_model : DataModel
}.

Definition ULONG_MAX (cfg : BuildConfig) : Z := 2 ^ word_bits (data_model cfg) - 1.

(** Conversions between integer types, as C++ performs them. *)
Definition to_unsigned (bits v : Z) : Z := v mod 2 ^ bits.
Definition to_signed (bits v : Z) : Z :=
  (v + 2 ^ (bits - 1)) mod 2 ^ bits - 2 ^ (bits - 1).

Definition to_size_t (cfg : BuildConfig) (v : Z) : Z :=
  to_unsigned (word_bits (data_model cfg)) v.
Definition to_ssize_t (cfg : BuildConfig) (v : Z) : Z :=
  to_signed (word_bits (data_model cfg)) v.
Definition to_uint32 (v : Z) : Z := to_unsigned 32 v.
Definition to_int64 (v : Z) : Z := to_signed 64 v.

(** ** Events: what the code does to the outside world *)

Inductive LogSeverity := VERBOSE | INFO | WARNING | ERROR | FATAL.

Inductive MutexName :=
  socket_lock_ | thread_start_lock_ | attach_lock_ | jdwp_token_lock_ | shutdown_lock_.

Inductive CondName :=
  thread_start_cond_ | attach_cond_ | jdwp_token_cond_ | shutdown_cond_.

Inductive MemoryOrder := Relaxed | SequentiallyConsistent.

Record iovec := { iov_base : list Byte.byte; iov_len : Z }.

Inductive event :=
| EvLog (sev : LogSeverity) (msg : string)    (* LOG(sev) and VLOG(jdwp) *)
| EvPLog (sev : LogSeverity) (msg : string)   (* PLOG(sev): msg, then strerror(errno) *)
| EvLock (m : MutexName)
| EvUnlock (m : MutexName)
| EvBroadcast (c : CondName)
| EvAtomicLoad (order : MemoryOrder)          (* of last_activity_time_ms_ *)
| EvWrite (fd : Z) (buf : list Byte.byte) (count : Z)
| EvWritev (fd : Z) (iov : list iovec).

(** The events that are a write system call. *)
Definition is_write (e : event) : bool :=
  match e with
  | EvWrite _ _ _ | EvWritev _ _ => true
  | _ => false
  end.

Definition writes_of (t : list event) : list event := filter is_write t.

(** ** Strings, as std::string and as C strings *)

Definition NUL : ascii := "000"%char.

Fixpoint find (c : ascii) (s : string) : option nat :=
  match s with
  | EmptyString => None
  | String a s' =>
      if Ascii.eqb a c then Some O
      else match find c s' with
           | Some i => Some (S i)
           | None => None
           end
  end.

(** [s.substr(pos)] and [s.substr(0, n)], for [pos] and [n] within [s]. *)
Fixpoint substr_from (pos : nat) (s : string) : string :=
  match pos, s with
  | O, _ => s
  | S p, String _ s' => substr_from p s'
  | S _, EmptyString => EmptyString
  end.

Fixpoint substr_to (n : nat) (s : string) : string :=
  match n, s with
  | S m, String a s' => String a (substr_to m s')
  | _, _ => EmptyString
  end.

Definition empty (s : string) : bool :=
  match s with EmptyString => true | _ => false end.

(** [s.c_str()] seen as a C string: the characters before the first NUL. *)
Fixpoint c_str (s : string) : string :=
  match s with
  | EmptyString => EmptyString
  | String a s' => if Ascii.eqb a NUL then EmptyString else String a (c_str s')
  end.

(** [cs[i]] for a C string: the terminating NUL is read at its end. *)
Definition deref (cs : string) (i : nat) : ascii :=
  match String.get i cs with
  | Some a => a
  | None => NUL
  end.

Fixpoint no_nul (s : string) : bool :=
  match s with
  | EmptyString => true
  | String a s' => negb (Ascii.eqb a NUL) && no_nul s'
  end.

Definition isspace (c : ascii) : bool :=
  let n := N_of_ascii c in
  (N.eqb n 32 || (N.leb 9 n && N.leb n 13))%N%bool.

Definition isdigit (c : ascii) : bool :=
  let n := N_of_ascii c in (N.leb 48 n && N.leb n 57)%N%bool.

Definition digit_value (c : ascii) : Z := Z.of_N (N_of_ascii c) - 48.

(** *** strtoul(nptr, &end, 10)

    The C library function: optional white space, an optional sign, then
    decimal digits. The result is the value and the index [end] stops at.
    A magnitude above ULONG_MAX gives ULONG_MAX; a leading '-' negates the
    value as an unsigned long; with no digit at all [end] is [nptr]. *)

Fixpoint skip_spaces (s : string) : nat * string :=
  match s with
  | String a s' =>
      if isspace a then let '(n, r) := skip_spaces s' in (S n, r) else (O, s)
  | EmptyString => (O, s)
  end.

Definition skip_sign (s : string) : bool * nat * string :=
  match s with
  | String a s' =>
      if Ascii.eqb a "-"%char then (true, 1%nat, s')
      else if Ascii.eqb a "+"%char then (false, 1%nat, s')
      else (false, O, s)
  | EmptyString => (false, O, s)
  end.

(** The digit loop: [any] is 0 before the first digit, 1 after one, and
    -1 once the value has overflowed. *)
Fixpoint strtoul_digits (ulong_max : Z) (s : string) (acc any : Z) (n : nat)
  : Z * Z * nat :=
  match s with
  | String a s' =>
      if isdigit a then
        let d := digit_value a in
        if any <? 0 then strtoul_digits ulong_max s' acc any (S n)
        else if (ulong_max / 10 <? acc) ||
                ((acc =? ulong_max / 10) && (ulong_max mod 10 <? d))
        then strtoul_digits ulong_max s' ulong_max (-1) (S n)
        else strtoul_digits ulong_max s' (acc * 10 + d) 1 (S n)
      else (acc, any, n)
  | EmptyString => (acc, any, n)
  end.

Definition strtoul (ulong_max : Z) (nptr : string) : Z * nat :=
  let '(nspace, s1) := skip_spaces nptr in
  let '(neg, nsign, s2) := skip_sign s1 in
  let '(acc, any, ndigits) := strtoul_digits ulong_max s2 0 0 O in
  let acc := if neg && (0 <? any) then (- acc) mod (ulong_max + 1) else acc in
  (acc, if any =? 0 then O else (nspace + nsign + ndigits)%nat).

(** The numerals strtoul reads to their end: white space, a sign, and then
    one decimal digit or more and nothing else. *)
Fixpoint all_digits (s : string) : bool :=
  match s with
  | EmptyString => true
  | String a s' => isdigit a && all_digits s'
  end.


Definition is_numeral (s : string) : bool :=
  let '(_, s1) := skip_spaces s in
  let '(_, _, s2) := skip_sign s1 in
  negb (empty s2) && all_digits s2.


Fixpoint last_char (s : string) : option ascii :=
  match s with
  | EmptyString => None
  | String a EmptyString => Some a
  | String _ s' => last_char s'
  end.

(** ** The option record (JdwpOptions, jdwp.h) *)

Inductive JdwpTransportType :=
| kJdwpTransportNone
| kJdwpTransportUnknown
| kJdwpTransportSocket
| kJdwpTransportAndroidAdb.

Definition transport_eqb (a b : JdwpTransportType) : bool :=
  match a, b with
  | kJdwpTransportNone, kJdwpTransportNone
  | kJdwpTransportUnknown, kJdwpTransportUnknown
  | kJdwpTransportSocket, kJdwpTransportSocket
  | kJdwpTransportAndroidAdb, kJdwpTransportAndroidAdb => true
  | _, _ => false
  end.

Record JdwpOptions := {
  transport : JdwpTransportType;
  server : bool;
  suspend : bool;
  host : string;
  port : Z                      (* uint16_t *)
}.

Definition set_transport (o : JdwpOptions) (t : JdwpTransportType) :=
  {| transport := t; server := server o; suspend := suspend o;
     host := host o; port := port o |}.
Definition set_server (o : JdwpOptions) (b : bool) :=
  {| transport := transport o; server := b; suspend := suspend o;
     host := host o; port := port o |}.
Definition set_suspend (o : JdwpOptions) (b : bool) :=
  {| transport := transport o; server := server o; suspend := b;
     host := host o; port := port o |}.
Definition set_host (o : JdwpOptions) (h : string) :=
  {| transport := transport o; server := server o; suspend := suspend o;
     host := h; port := port o |}.
Definition set_port (o : JdwpOptions) (p : Z) :=
  {| transport := transport o; server := server o; suspend := suspend o;
     host := host o; port := p |}.

(** ** The option parser *)

(** The result of a parser function: its return value, the record it
    leaves in [*jdwp_options], and what it logged. *)
Definition parsed : Type := bool * JdwpOptions * list event.

(** The port field of an address: the whole value, or what follows the
    first colon. *)
Definition port_part (value : string) : string :=
  match find ":"%char value with
  | Some colon => substr_from (colon + 1) value
  | None => value
  end.

Definition ParseJdwpOption (cfg : BuildConfig) (name value : string)
    (jdwp_options : JdwpOptions) : parsed :=
  if String.eqb name "transport" then
    if String.eqb value "dt_socket" then
      (true, set_transport jdwp_options kJdwpTransportSocket, [])
    else if String.eqb value "dt_android_adb" then
      (true, set_transport jdwp_options kJdwpTransportAndroidAdb, [])
    else
      (false, set_transport jdwp_options kJdwpTransportUnknown,
       [EvLog ERROR ("JDWP transport not supported: " ++ value)%string])
  else if String.eqb name "server" then
    if String.eqb value "n" then (true, set_server jdwp_options false, [])
    else if String.eqb value "y" then (true, set_server jdwp_options true, [])
    else (false, jdwp_options,
          [EvLog ERROR "JDWP option 'server' must be 'y' or 'n'"])
  else if String.eqb name "suspend" then
    if String.eqb value "n" then (true, set_suspend jdwp_options false, [])
    else if String.eqb value "y" then (true, set_suspend jdwp_options true, [])
    else (false, jdwp_options,
          [EvLog ERROR "JDWP option 'suspend' must be 'y' or 'n'"])
  else if String.eqb name "address" then
    (* this is either <port> or <host>:<port> *)
    let o := set_host jdwp_options "" in
    let o := match find ":"%char value with
             | Some colon => set_host o (substr_to colon value)
             | None => o
             end in
    let port_string := port_part value in
    if empty port_string then
      (false, o, [EvLog ERROR ("JDWP address missing port: " ++ value)%string])
    else
      let '(port, end_) := strtoul (ULONG_MAX cfg) (c_str port_string) in
      if negb (Ascii.eqb (deref (c_str port_string) end_) NUL) || (65535 <? port)
      then (false, o,
            [EvLog ERROR ("JDWP address has junk in port field: " ++ value)%string])
      else (true, set_port o port, [])
  else if String.eqb name "launch" || String.eqb name "onthrow" || String.eqb name "oncaught"
          || String.eqb name "timeout" then
    (* valid but unsupported *)
    (true, jdwp_options,
     [EvLog INFO ("Ignoring JDWP option '" ++ name ++ "'='" ++ value ++ "'")%string])
  else
    (true, jdwp_options,
     [EvLog INFO ("Ignoring unrecognized JDWP option '" ++ name ++ "'='"
                  ++ value ++ "'")%string]).

(** The loop of ParseJdwpOptions over the pairs. *)
Fixpoint ParseJdwpOptions_pairs (cfg : BuildConfig) (options : string)
    (pairs : list string) (jdwp_options : JdwpOptions) : parsed :=
  match pairs with
  | [] => (true, jdwp_options, [])
  | jdwp_option :: rest =>
      match find "="%char jdwp_option with
      | None =>
          (false, jdwp_options,
           [EvLog ERROR ("Can't parse JDWP option '" ++ jdwp_option ++ "' in '"
                         ++ options ++ "'")%string])
      | Some equals_pos =>
          let '(parse_attempt, o, log) :=
            ParseJdwpOption cfg (substr_to equals_pos jdwp_option)
                            (substr_from (equals_pos + 1) jdwp_option)
                            jdwp_options in
          if negb parse_attempt then
            (* We fail to parse this JDWP option. *)
            (parse_attempt, o, log)
          else
            let '(b, o', log') := ParseJdwpOptions_pairs cfg options rest o in
            (b, o', log ++ log')
      end
  end.

Section Parser.
(** [Split] of utils.h is not part of this file: the parser is defined
    for any function that cuts the string into its pieces. *)
Variable Split : string -> ascii -> list string.
Variable cfg : BuildConfig.

Definition ParseJdwpOptions (options : string) (jdwp_options : JdwpOptions)
  : parsed :=
  let vlog := EvLog VERBOSE ("ParseJdwpOptions: " ++ options)%string in
  if String.eqb options "help" then
    (false, jdwp_options,
     [vlog; EvLog ERROR
        ("Example: -XjdwpOptions:transport=dt_socket,address=8000,server=y" ++ String "010"%char
         ("Example: -Xrunjdwp:transport=dt_socket,address=8000,server=y" ++ String "010"%char
         ("Example: -Xrunjdwp:transport=dt_socket,address=localhost:6500,server=n" ++ String "010"%char "")))%string])
  else
    let pairs := Split options ","%char in
    let '(ok, o, log) := ParseJdwpOptions_pairs cfg options pairs jdwp_options in
    if negb ok then (false, o, vlog :: log)
    else if transport_eqb (transport o) kJdwpTransportUnknown then
      (false, o,
       vlog :: log ++ [EvLog ERROR ("Must specify JDWP transport: " ++ options)%string])
    else
      let '(o, log) :=
        if ART_TARGET_ANDROID cfg && transport_eqb (transport o) kJdwpTransportNone
        then (set_transport o kJdwpTransportAndroidAdb,
              log ++ [EvLog WARNING
                        "no JDWP transport specified. Defaulting to dt_android_adb"])
        else (o, log) in
      if negb (server o) && (empty (host o) || (port o =? 0)) then
        (false, o,
         vlog :: log ++ [EvLog ERROR
            ("Must specify JDWP host and port when server=n: " ++ options)%string])
      else (true, o, vlog :: log).
End Parser.

(** The pieces of [s], after the characters [piece] of the piece being
    read: a separator ends the piece, and an empty piece is dropped. *)
Fixpoint Split_from (piece : string) (s : string) (sep : ascii) : list string :=
  match s with
  | EmptyString => if empty piece then [] else [piece]
  | String a s' =>
      if Ascii.eqb a sep then
        if empty piece then Split_from "" s' sep
        else piece :: Split_from "" s' sep
      else Split_from (piece ++ String a "")%string s' sep
  end.

(** Modelled from the spec: [Split] (utils.h), which ParseJdwpOptions calls
    and jdwp_main.cc does not define. The spec gives the option string as
    a comma-separated list of [name=value] pairs; the pieces are the
    maximal runs of characters other than the separator. *)
Definition Split (s : string) (sep : ascii) : list string :=
  Split_from "" s sep.

(** A record for the parser to start from: no transport chosen yet. *)
Definition default_options : JdwpOptions :=
  {| transport := kJdwpTransportNone; server := false; suspend := false;
     host := ""; port := 65535 |}.

(** ** The effects of the code *)

Record World := {
  trace : list event;   (* what happened so far, oldest first *)
  errno : Z
}.

(** A function returns in some world, or the process aborts (a failed
    CHECK, LOG(FATAL)). *)
Inductive outcome (A : Type) : Type :=
| Returned (a : A) (w : World)
| Aborted (w : World).
Arguments Returned {A} a w.
Arguments Aborted {A} w.

Definition M (A : Type) : Type := World -> outcome A.

Definition ret {A : Type} (a : A) : M A := fun w => Returned a w.

Definition bind {A B : Type} (m : M A) (k : A -> M B) : M B :=
  fun w => match m w with
           | Returned a w' => k a w'
           | Aborted w' => Aborted w'
           end.

Declare Scope jdwp_scope.
Delimit Scope jdwp_scope with jdwp.
Notation "x <- m ;; k" := (bind m (fun x => k))
  (at level 61, m at next level, right associativity) : jdwp_scope.
Notation "' pat <- m ;; k" := (bind m (fun x => match x with pat => k end))
  (at level 61, pat pattern, m at next level, right associativity) : jdwp_scope.
Notation "m ;; k" := (bind m (fun _ => k))
  (at level 61, right associativity) : jdwp_scope.
Open Scope jdwp_scope.

Definition emit (e : event) : M unit :=
  fun w => Returned tt {| trace := trace w ++ [e]; errno := errno w |}.

Definition abort {A : Type} : M A := fun w => Aborted w.

Definition set_errno (v : Z) : M unit :=
  fun w => Returned tt {| trace := trace w; errno := v |}.

Definition LOG (sev : LogSeverity) (msg : string) : M unit := emit (EvLog sev msg).
Definition VLOG (msg : string) : M unit := emit (EvLog VERBOSE msg).
Definition PLOG (sev : LogSeverity) (msg : string) : M unit := emit (EvPLog sev msg).

Definition CHECK (cond : bool) (msg : string) : M unit :=
  if cond then ret tt else (LOG FATAL msg ;; abort).

Definition DCHECK (cfg : BuildConfig) (cond : bool) (msg : string) : M unit :=
  if kIsDebugBuild cfg then CHECK cond msg else ret tt.

(** The kernel answers a system call with its result and the errno it
    leaves on failure; the answer may depend on all that happened before. *)
Definition Kernel : Type := list event -> Z * Z.

(** [TEMP_FAILURE_RETRY(call)]: the call, repeated while it is interrupted;
    the event is the call and the result is the one that ends the
    repetition. *)
Definition TEMP_FAILURE_RETRY (kernel : Kernel) (call : event) : M Z :=
  fun w =>
    let t := trace w ++ [call] in
    let '(r, e) := kernel t in
    Returned r {| trace := t; errno := if r =? -1 then e else errno w |}.

Definition string_of_Z (z : Z) : string := NilZero.string_of_int (Z.to_int z).

Definition char_of_Z (z : Z) : string :=
  String (ascii_of_N (Z.to_N (z mod 256))) "".

(** ** JdwpNetStateBase *)

Definition ExpandBuf : Type := list Byte.byte.
Definition expandBufGetLength (b : ExpandBuf) : Z := Z.of_nat (List.length b).
Definition expandBufGetBuffer (b : ExpandBuf) : list Byte.byte := b.

(** Modelled from the spec: [kMagicHandshake] (jdwp_priv.h), the 14-byte
    ASCII handshake of a JDWP session. *)
Definition kMagicHandshake : string := "JDWP-Handshake".
(** Modelled from the spec: [kMagicHandshakeLen] (jdwp_priv.h), the length
    of the handshake, 14. *)
Definition kMagicHandshakeLen : Z := Z.of_nat (String.length kMagicHandshake).

Definition byte_at (p : list Byte.byte) (i : nat) : Z :=
  Z.of_N (Byte.to_N (nth i p Byte.x00)).

(** Modelled from the spec: [Get4BE] (jdwp_bits.h), the 4-byte big-endian
    number at the start of a buffer. *)
Definition Get4BE (p : list Byte.byte) : Z :=
  Z.lor (Z.lor (Z.lor (Z.shiftl (byte_at p 0) 24) (Z.shiftl (byte_at p 1) 16))
               (Z.shiftl (byte_at p 2) 8))
        (byte_at p 3).

Record JdwpNetStateBase := {
  clientSock : Z;                    (* int; active connection to debugger *)
  wake_pipe_ : Z * Z;
  input_buffer_ : list Byte.byte;    (* uint8_t[], of fixed capacity *)
  input_count_ : Z;                  (* size_t *)
  awaiting_handshake_ : bool
}.

Definition set_input (ns : JdwpNetStateBase) (buf : list Byte.byte) (n : Z) :=
  {| clientSock := clientSock ns; wake_pipe_ := wake_pipe_ ns;
     input_buffer_ := buf; input_count_ := n;
     awaiting_handshake_ := awaiting_handshake_ ns |}.
Definition set_input_count (ns : JdwpNetStateBase) (n : Z) :=
  set_input ns (input_buffer_ ns) n.

(** The constructor; [buffer] is the content the array starts with. *)
Definition JdwpNetStateBase_new (buffer : list Byte.byte) : JdwpNetStateBase :=
  {| clientSock := -1; wake_pipe_ := (-1, -1);
     input_buffer_ := buffer; input_count_ := 0;
     awaiting_handshake_ := false |}.

(** [memmove(buf + dst, buf + src, n)] within one array, for ranges that
    lie inside it. *)
Definition memmove (buf : list Byte.byte) (dst src n : nat) : list Byte.byte :=
  firstn dst buf ++ firstn n (skipn src buf) ++ skipn (dst + n) buf.

Definition ConsumeBytes (count : Z) (ns : JdwpNetStateBase) : M JdwpNetStateBase :=
  CHECK (0 <? count) "Check failed: count > 0U" ;;
  CHECK (count <=? input_count_ ns) "Check failed: count <= input_count_" ;;
  if count =? input_count_ ns then
    ret (set_input_count ns 0)
  else
    ret (set_input ns
           (memmove (input_buffer_ ns) 0 (Z.to_nat count)
                    (Z.to_nat (input_count_ ns - count)))
           (input_count_ ns - count)).

Definition HaveFullPacket (ns : JdwpNetStateBase) : bool :=
  if awaiting_handshake_ ns then
    kMagicHandshakeLen <=? input_count_ ns
  else if input_count_ ns <? 4 then
    false
  else
    let length := Get4BE (input_buffer_ ns) in
    length <=? input_count_ ns.

Definition IsAwaitingHandshake (ns : JdwpNetStateBase) : bool :=
  awaiting_handshake_ ns.

Definition NetState_IsConnected (ns : JdwpNetStateBase) : bool :=
  0 <=? clientSock ns.

Section NetStateIO.
Variable cfg : BuildConfig.
Variable kernel : Kernel.

(** Write a packet of [length] bytes. Grabs a mutex to assure atomicity. *)
Definition WritePacket (ns : JdwpNetStateBase) (pReply : ExpandBuf) (length : Z)
  : M Z :=
  DCHECK cfg (length <=? expandBufGetLength pReply)
         "Check failed: length <= expandBufGetLength(pReply)" ;;
  if negb (NetState_IsConnected ns) then
    LOG WARNING "Connection with debugger is closed" ;;
    ret (-1)
  else
    emit (EvLock socket_lock_) ;;
    r <- TEMP_FAILURE_RETRY kernel
           (EvWrite (clientSock ns) (expandBufGetBuffer pReply) length) ;;
    emit (EvUnlock socket_lock_) ;;
    ret r.

(** The caller holds [socket_lock_]. *)
Definition WriteBufferedPacketLocked (ns : JdwpNetStateBase) (iov : list iovec)
  : M Z :=
  DCHECK cfg (NetState_IsConnected ns) "Connection with debugger is closed" ;;
  TEMP_FAILURE_RETRY kernel (EvWritev (clientSock ns) iov).

(** Write a buffered packet. Grabs a mutex to assure atomicity. *)
Definition WriteBufferedPacket (ns : JdwpNetStateBase) (iov : list iovec)
  : M Z :=
  emit (EvLock socket_lock_) ;;
  r <- WriteBufferedPacketLocked ns iov ;;
  emit (EvUnlock socket_lock_) ;;
  ret r.
End NetStateIO.

(** ** JdwpState, the session controller *)

Record JdwpState := {
  options_ : JdwpOptions;
  debug_thread_started_ : bool;
  debug_thread_id_ : Z;                 (* ObjectId *)
  run : bool;
  netState : option JdwpNetStateBase;   (* [None] is the null pointer *)
  last_activity_time_ms_ : Z;           (* Atomic<int64_t> *)
  request_serial_ : Z;                  (* uint32_t *)
  event_serial_ : Z;                    (* uint32_t *)
  jdwp_token_owner_thread_id_ : Z;      (* ObjectId *)
  ddm_is_active_ : bool;
  should_exit_ : bool;
  exit_status_ : Z;
  processing_request_ : bool
}.

Definition set_netState (st : JdwpState) (ns : option JdwpNetStateBase) :=
  {| options_ := options_ st; debug_thread_started_ := debug_thread_started_ st;
     debug_thread_id_ := debug_thread_id_ st; run := run st; netState := ns;
     last_activity_time_ms_ := last_activity_time_ms_ st;
     request_serial_ := request_serial_ st; event_serial_ := event_serial_ st;
     jdwp_token_owner_thread_id_ := jdwp_token_owner_thread_id_ st;
     ddm_is_active_ := ddm_is_active_ st; should_exit_ := should_exit_ st;
     exit_status_ := exit_status_ st;
     processing_request_ := processing_request_ st |}.
Definition set_request_serial (st : JdwpState) (v : Z) :=
  {| options_ := options_ st; debug_thread_started_ := debug_thread_started_ st;
     debug_thread_id_ := debug_thread_id_ st; run := run st;
     netState := netState st;
     last_activity_time_ms_ := last_activity_time_ms_ st;
     request_serial_ := v; event_serial_ := event_serial_ st;
     jdwp_token_owner_thread_id_ := jdwp_token_owner_thread_id_ st;
     ddm_is_active_ := ddm_is_active_ st; should_exit_ := should_exit_ st;
     exit_status_ := exit_status_ st;
     processing_request_ := processing_request_ st |}.
Definition set_event_serial (st : JdwpState) (v : Z) :=
  {| options_ := options_ st; debug_thread_started_ := debug_thread_started_ st;
     debug_thread_id_ := debug_thread_id_ st; run := run st;
     netState := netState st;
     last_activity_time_ms_ := last_activity_time_ms_ st;
     request_serial_ := request_serial_ st; event_serial_ := v;
     jdwp_token_owner_thread_id_ := jdwp_token_owner_thread_id_ st;
     ddm_is_active_ := ddm_is_active_ st; should_exit_ := should_exit_ st;
     exit_status_ := exit_status_ st;
     processing_request_ := processing_request_ st |}.
Definition set_jdwp_token_owner (st : JdwpState) (v : Z) :=
  {| options_ := options_ st; debug_thread_started_ := debug_thread_started_ st;
     debug_thread_id_ := debug_thread_id_ st; run := run st;
     netState := netState st;
     last_activity_time_ms_ := last_activity_time_ms_ st;
     request_serial_ := request_serial_ st; event_serial_ := event_serial_ st;
     jdwp_token_owner_thread_id_ := v;
     ddm_is_active_ := ddm_is_active_ st; should_exit_ := should_exit_ st;
     exit_status_ := exit_status_ st;
     processing_request_ := processing_request_ st |}.
Definition set_processing_request (st : JdwpState) (b : bool) :=
  {| options_ := options_ st; debug_thread_started_ := debug_thread_started_ st;
     debug_thread_id_ := debug_thread_id_ st; run := run st;
     netState := netState st;
     last_activity_time_ms_ := last_activity_time_ms_ st;
     request_serial_ := request_serial_ st; event_serial_ := event_serial_ st;
     jdwp_token_owner_thread_id_ := jdwp_token_owner_thread_id_ st;
     ddm_is_active_ := ddm_is_active_ st; should_exit_ := should_exit_ st;
     exit_status_ := exit_status_ st;
     processing_request_ := b |}.
Definition set_exit (st : JdwpState) (b : bool) (status : Z) :=
  {| options_ := options_ st; debug_thread_started_ := debug_thread_started_ st;
     debug_thread_id_ := debug_thread_id_ st; run := run st;
     netState := netState st;
     last_activity_time_ms_ := last_activity_time_ms_ st;
     request_serial_ := request_serial_ st; event_serial_ := event_serial_ st;
     jdwp_token_owner_thread_id_ := jdwp_token_owner_thread_id_ st;
     ddm_is_active_ := ddm_is_active_ st; should_exit_ := b;
     exit_status_ := status;
     processing_request_ := processing_request_ st |}.

(** The constructor [JdwpState::JdwpState(options)]. *)
Definition JdwpState_new (options : JdwpOptions) : JdwpState :=
  {| options_ := options;
     debug_thread_started_ := false;
     debug_thread_id_ := 0;
     run := false;
     netState := None;
     last_activity_time_ms_ := 0;
     request_serial_ := 268435456;      (* 0x10000000 *)
     event_serial_ := 536870912;        (* 0x20000000 *)
     jdwp_token_owner_thread_id_ := 0;
     ddm_is_active_ := false;
     should_exit_ := false;
     exit_status_ := 0;
     processing_request_ := false |}.

Definition IsConnected (st : JdwpState) : bool :=
  match netState st with
  | None => false
  | Some ns => NetState_IsConnected ns
  end.

(** Are we talking to a debugger? *)
Definition IsActive (st : JdwpState) : bool := IsConnected st.

(** Get the next "request" serial number. *)
Definition NextRequestSerial (st : JdwpState) : Z * JdwpState :=
  (request_serial_ st, set_request_serial st (to_uint32 (request_serial_ st + 1))).

(** Get the next "event" serial number. *)
Definition NextEventSerial (st : JdwpState) : Z * JdwpState :=
  (event_serial_ st, set_event_serial st (to_uint32 (event_serial_ st + 1))).

(** The value returned by call number [k] (from 0) in a run of successive
    calls, and the state that call leaves. *)
Definition request_serial_calls (k : N) (st : JdwpState) : Z * JdwpState :=
  N.iter k (fun r => NextRequestSerial (snd r)) (NextRequestSerial st).

Definition event_serial_calls (k : N) (st : JdwpState) : Z * JdwpState :=
  N.iter k (fun r => NextEventSerial (snd r)) (NextEventSerial st).

Definition ExitAfterReplying (exit_status : Z) (st : JdwpState) : M JdwpState :=
  LOG WARNING ("Debugger told VM to exit with status " ++ string_of_Z exit_status)%string ;;
  ret (set_exit st true exit_status).

(** Modelled from the spec: [JDWP::Request] (jdwp_request.cc), a view over
    the input buffer and the number of bytes it holds. *)
Record Request := {
  request_bytes : list Byte.byte;
  request_available : Z
}.
(** Modelled from the spec: [Request::GetLength], the length field a JDWP
    packet begins with, which covers the packet itself. *)
Definition Request_GetLength (r : Request) : Z := Get4BE (request_bytes r).

(** Modelled from the spec: [ReleaseJdwpTokenForCommand] (jdwp_event.cc),
    which clears the owner of the token and broadcasts [jdwp_token_cond_]. *)
Definition ReleaseJdwpTokenForCommand (st : JdwpState) : M JdwpState :=
  emit (EvBroadcast jdwp_token_cond_) ;;
  ret (set_jdwp_token_owner st 0).

Section Controller.
Variable cfg : BuildConfig.
Variable kernel : Kernel.

Definition SendBufferedRequest (type : Z) (iov : list iovec) (st : JdwpState)
  : M JdwpState :=
  if negb (IsConnected st) then
    (* Can happen with some DDMS events. *)
    VLOG "Not sending JDWP packet: no debugger attached!" ;;
    ret st
  else
    let expected :=
      fold_left (fun acc v => to_size_t cfg (acc + iov_len v)) iov 0 in
    set_errno 0 ;;
    match netState st with
    | None => abort               (* excluded by IsConnected *)
    | Some ns =>
        actual <- WriteBufferedPacket cfg kernel ns iov ;;
        (if negb (to_size_t cfg actual =? expected) then
           PLOG ERROR
             ("Failed to send JDWP packet "
              ++ char_of_Z (Z.shiftr type 24) ++ char_of_Z (Z.shiftr type 16)
              ++ char_of_Z (Z.shiftr type 8) ++ char_of_Z type
              ++ " to debugger (" ++ string_of_Z actual ++ " of "
              ++ string_of_Z expected ++ ")")%string
         else ret tt) ;;
        ret st
    end.

Definition SendRequest (pReq : ExpandBuf) (st : JdwpState) : M JdwpState :=
  if negb (IsConnected st) then
    (* Can happen with some DDMS events. *)
    VLOG "Not sending JDWP packet: no debugger attached!" ;;
    ret st
  else
    set_errno 0 ;;
    match netState st with
    | None => abort               (* excluded by IsConnected *)
    | Some ns =>
        actual <- WritePacket cfg kernel ns pReq (expandBufGetLength pReq) ;;
        (if negb (to_size_t cfg actual =? expandBufGetLength pReq) then
           PLOG ERROR
             ("Failed to send JDWP packet to debugger ("
              ++ string_of_Z actual ++ " of "
              ++ string_of_Z (expandBufGetLength pReq) ++ ")")%string
         else ret tt) ;;
        ret st
    end.

(** [ProcessRequest] (jdwp_handler.cc) decodes and runs the command: it
    is given the request and the empty reply buffer, and gives the length
    of the reply, [skip_reply], the reply buffer and the state it leaves. *)
Variable ProcessRequest :
  Request -> ExpandBuf -> JdwpState -> M (Z * bool * ExpandBuf * JdwpState).

(** The part of HandlePacket that sends the reply: the value of [cc]. *)
Definition HandlePacket_reply (ns : JdwpNetStateBase) (pReply : ExpandBuf)
    (replyLength : Z) (skip_reply : bool) : M Z :=
  if negb skip_reply then
    WritePacket cfg kernel ns pReply replyLength
  else
    DCHECK cfg (replyLength =? 0) "Check failed: replyLength == 0U" ;;
    ret 0.

(** Returns "false" if we encounter a connection-fatal error. *)
Definition HandlePacket (st : JdwpState) : M (bool * JdwpState) :=
  emit (EvLock shutdown_lock_) ;;
  let st := set_processing_request st true in
  emit (EvUnlock shutdown_lock_) ;;
  CHECK (match netState st with Some _ => true | None => false end)
        "Connection has been closed" ;;
  match netState st with
  | None => abort
  | Some netStateBase =>
      let request := {| request_bytes := input_buffer_ netStateBase;
                        request_available := input_count_ netStateBase |} in
      let pReply : ExpandBuf := [] in                     (* expandBufAlloc() *)
      '(replyLength, skip_reply, pReply, st) <-
          ProcessRequest request pReply st ;;
      (* [netStateBase] points to the object [netState] points to *)
      match netState st with
      | None => abort
      | Some netStateBase =>
          cc <- HandlePacket_reply netStateBase pReply replyLength skip_reply ;;
          (* expandBufFree(pReply) *)
          (* We processed this request and sent its reply so we can
             release the JDWP token. *)
          st <- ReleaseJdwpTokenForCommand st ;;
          if negb (cc =? to_ssize_t cfg replyLength) then
            PLOG ERROR "Failed sending reply to debugger" ;;
            ret (false, st)
          else
            match netState st with
            | None => abort
            | Some netStateBase =>
                ns' <- ConsumeBytes (Request_GetLength request) netStateBase ;;
                let st := set_netState st (Some ns') in
                emit (EvLock shutdown_lock_) ;;
                let st := set_processing_request st false in
                emit (EvBroadcast shutdown_cond_) ;;
                emit (EvUnlock shutdown_lock_) ;;
                ret (true, st)
            end
      end
  end.

(** [Dbg::IsDebuggerActive()] and [MilliTime()], read from the world. *)
Variable Dbg_IsDebuggerActive : World -> bool.
Variable MilliTime : World -> Z.          (* uint64_t *)

(** Return the time, in milliseconds, since the last debugger activity. *)
Definition LastDebuggerActivity (st : JdwpState) : M Z :=
  fun w0 =>
  (if negb (Dbg_IsDebuggerActive w0) then
     LOG WARNING "no active debugger" ;;
     ret (-1)
   else
     emit (EvAtomicLoad SequentiallyConsistent) ;;
     let last := last_activity_time_ms_ st in
     (* initializing or in the middle of something? *)
     if last =? 0 then
       VLOG "+++ last=busy" ;;
       ret 0
     else
       (* now get the current time *)
       fun w1 =>
       let now := to_int64 (MilliTime w1) in
       (CHECK (last <=? now) "Check failed: now >= last" ;;
        VLOG ("+++ debugger interval=" ++ string_of_Z (to_int64 (now - last)))%string ;;
        ret (to_int64 (now - last))) w1) w0.
End Controller.

(** ** Concrete states used in the examples below *)

Definition release_build : BuildConfig :=
  {| ART_TARGET_ANDROID := true; kIsDebugBuild := false; data_model := LP64 |}.

Definition debug_build : BuildConfig :=
  {| ART_TARGET_ANDROID := true; kIsDebugBuild := true; data_model := LP64 |}.

Definition world0 : World := {| trace := []; errno := 0 |}.

(** A kernel where every write fails with EBADF. *)
Definition kernel_ebadf : Kernel := fun _ => (-1, 9).

(** A kernel that writes all the bytes it is asked to write. *)
Definition kernel_complete : Kernel :=
  fun t => match last t (EvLock socket_lock_) with
           | EvWrite _ _ count => (count, 0)
           | EvWritev _ iov => (fold_left (fun acc v => acc + iov_len v) iov 0, 0)
           | _ => (0, 0)
           end.

(** The world a computation ends in. *)
Definition final_world {A : Type} (r : outcome A) : World :=
  match r with
  | Returned _ w => w
  | Aborted w => w
  end.

Definition log_event (e : event) (w : World) : World :=
  {| trace := trace w ++ [e]; errno := errno w |}.

(** The 11-byte packet [00 00 00 0B 00 00 00 01 00 01 02]. *)
Definition packet11 : list Byte.byte :=
  [Byte.x00; Byte.x00; Byte.x00; Byte.x0b; Byte.x00; Byte.x00; Byte.x00;
   Byte.x01; Byte.x00; Byte.x01; Byte.x02].

Definition connected_net : JdwpNetStateBase :=
  {| clientSock := 7; wake_pipe_ := (3, 4);
     input_buffer_ := packet11 ++ repeat Byte.x00 5; input_count_ := 11;
     awaiting_handshake_ := false |}.

Definition connected_state : JdwpState :=
  set_netState (JdwpState_new default_options) (Some connected_net).

(** The record after the host part of an address has been stored. *)
Definition address_host (value : string) (o : JdwpOptions) : JdwpOptions :=
  match find ":"%char value with
  | Some colon => set_host (set_host o "") (substr_to colon value)
  | None => set_host o ""
  end.

(** The largest value of [ssize_t]. *)
Definition SSIZE_MAX (cfg : BuildConfig) : Z := 2 ^ (word_bits (data_model cfg) - 1) - 1.

(** The events of the block that ends HandlePacket. *)
Definition request_done (w : World) : World :=
  {| trace := trace w ++ [EvLock shutdown_lock_; EvBroadcast shutdown_cond_;
                          EvUnlock shutdown_lock_];
     errno := errno w |}.

(** A request handler that answers every request with the 11 bytes of
    [packet11] and leaves the controller as it is. *)
Definition reply11 (request : Request) (pReply : ExpandBuf) (st : JdwpState)
  : M (Z * bool * ExpandBuf * JdwpState) :=
  ret (11, false, packet11, st).

(** ** The rest of the file: equality of records *)

(** Modelled from the spec: [JdwpLocation] (jdwp.h), with the fields
    class_id, method_id, dex_pc and type_tag. *)
Record JdwpLocation := {
  type_tag : Z;     (* JdwpTypeTag *)
  class_id : Z;     (* RefTypeId *)
  method_id : Z;    (* MethodId *)
  dex_pc : Z        (* uint64_t *)
}.

(** [operator==] and [operator!=] on JdwpLocation. *)
Definition JdwpLocation_eq (lhs rhs : JdwpLocation) : bool :=
  (dex_pc lhs =? dex_pc rhs) && (method_id lhs =? method_id rhs) &&
  (class_id lhs =? class_id rhs) && (type_tag lhs =? type_tag rhs).

Definition JdwpLocation_ne (lhs rhs : JdwpLocation) : bool :=
  negb (JdwpLocation_eq lhs rhs).

(** [operator==] on JdwpOptions; [same_object] is the test [&lhs == &rhs]
    of the two references. *)
Definition JdwpOptions_eq (same_object : bool) (lhs rhs : JdwpOptions) : bool :=
  if same_object then true
  else
    transport_eqb (transport lhs) (transport rhs) &&
    Bool.eqb (server lhs) (server rhs) &&
    Bool.eqb (suspend lhs) (suspend rhs) &&
    String.eqb (host lhs) (host rhs) &&
    (port lhs =? port rhs).

(** ** The rest of JdwpNetStateBase *)

Definition SetAwaitingHandshake (new_state : bool) (ns : JdwpNetStateBase)
  : JdwpNetStateBase :=
  {| clientSock := clientSock ns; wake_pipe_ := wake_pipe_ ns;
     input_buffer_ := input_buffer_ ns; input_count_ := input_count_ ns;
     awaiting_handshake_ := new_state |}.

(** ** Notions used to state the properties *)

(** The invariant of the input buffer: the count is within the array. *)
Definition buffer_ok (ns : JdwpNetStateBase) : Prop :=
  0 <= input_count_ ns <= Z.of_nat (List.length (input_buffer_ ns)).

(** The bytes of the buffer that are valid: its first [input_count_]. *)
Definition pending (ns : JdwpNetStateBase) : list Byte.byte :=
  firstn (Z.to_nat (input_count_ ns)) (input_buffer_ ns).

(** A trace respects [socket_lock_] when the lock is taken only while
    free, released only while held, free at the end, and every write
    happens while it is held. *)
Fixpoint socket_lock_respected (held : bool) (t : list event) : bool :=
  match t with
  | [] => negb held
  | EvLock socket_lock_ :: t' => negb held && socket_lock_respected true t'
  | EvUnlock socket_lock_ :: t' => held && socket_lock_respected false t'
  | EvWrite _ _ _ :: t' => held && socket_lock_respected held t'
  | EvWritev _ _ :: t' => held && socket_lock_respected held t'
  | _ :: t' => socket_lock_respected held t'
  end.

(** The value of a decimal numeral, most significant digit first, after
    the digits that gave [acc]. *)
Fixpoint decimal_acc (d : Decimal.uint) (acc : Z) : Z :=
  match d with
  | Decimal.Nil => acc
  | Decimal.D0 l => decimal_acc l (acc * 10 + 0)
  | Decimal.D1 l => decimal_acc l (acc * 10 + 1)
  | Decimal.D2 l => decimal_acc l (acc * 10 + 2)
  | Decimal.D3 l => decimal_acc l (acc * 10 + 3)
  | Decimal.D4 l => decimal_acc l (acc * 10 + 4)
  | Decimal.D5 l => decimal_acc l (acc * 10 + 5)
  | Decimal.D6 l => decimal_acc l (acc * 10 + 6)
  | Decimal.D7 l => decimal_acc l (acc * 10 + 7)
  | Decimal.D8 l => decimal_acc l (acc * 10 + 8)
  | Decimal.D9 l => decimal_acc l (acc * 10 + 9)
  end.

(** A request handler that asks for no reply to be sent. *)
Definition no_reply (request : Request) (pReply : ExpandBuf) (st : JdwpState)
  : M (Z * bool * ExpandBuf * JdwpState) :=
  ret (0, true, pReply, st).

(** A net state that has received the handshake and, behind it, the
    packet [packet11]. *)
Definition handshake_net : JdwpNetStateBase :=
  {| clientSock := 7; wake_pipe_ := (3, 4);
     input_buffer_ := list_byte_of_string kMagicHandshake ++ packet11
                      ++ repeat Byte.x00 7;
     input_count_ := 25;
     awaiting_handshake_ := true |}.

(** A connected net state whose buffer holds 11 bytes that begin with a
    length field of 0. *)
Definition zero_length_net : JdwpNetStateBase :=
  {| clientSock := 7; wake_pipe_ := (3, 4);
     input_buffer_ := repeat Byte.x00 16; input_count_ := 11;
     awaiting_handshake_ := false |}.

Definition zero_length_state : JdwpState :=
  set_netState (JdwpState_new default_options) (Some zero_length_net).

(** The names ParseJdwpOption gives a meaning to. *)
Definition is_known_name (name : string) : bool :=
  String.eqb name "transport" || String.eqb name "server" ||
  String.eqb name "suspend" || String.eqb name "address".

Fixpoint has_char (c : ascii) (s : string) : bool :=
  match s with
  | EmptyString => false
  | String a s' => Ascii.eqb a c || has_char c s'
  end.

(** ** The JDWP thread and the end of Create *)

Definition set_debug_thread_started (st : JdwpState) (b : bool) :=
  {| options_ := options_ st; debug_thread_started_ := b;
     debug_thread_id_ := debug_thread_id_ st; run := run st;
     netState := netState st;
     last_activity_time_ms_ := last_activity_time_ms_ st;
     request_serial_ := request_serial_ st; event_serial_ := event_serial_ st;
     jdwp_token_owner_thread_id_ := jdwp_token_owner_thread_id_ st;
     ddm_is_active_ := ddm_is_active_ st; should_exit_ := should_exit_ st;
     exit_status_ := exit_status_ st;
     processing_request_ := processing_request_ st |}.
Definition set_debug_thread_id (st : JdwpState) (id : Z) :=
  {| options_ := options_ st; debug_thread_started_ := debug_thread_started_ st;
     debug_thread_id_ := id; run := run st;
     netState := netState st;
     last_activity_time_ms_ := last_activity_time_ms_ st;
     request_serial_ := request_serial_ st; event_serial_ := event_serial_ st;
     jdwp_token_owner_thread_id_ := jdwp_token_owner_thread_id_ st;
     ddm_is_active_ := ddm_is_active_ st; should_exit_ := should_exit_ st;
     exit_status_ := exit_status_ st;
     processing_request_ := processing_request_ st |}.
Definition set_run (st : JdwpState) (b : bool) :=
  {| options_ := options_ st; debug_thread_started_ := debug_thread_started_ st;
     debug_thread_id_ := debug_thread_id_ st; run := b;
     netState := netState st;
     last_activity_time_ms_ := last_activity_time_ms_ st;
     request_serial_ := request_serial_ st; event_serial_ := event_serial_ st;
     jdwp_token_owner_thread_id_ := jdwp_token_owner_thread_id_ st;
     ddm_is_active_ := ddm_is_active_ st; should_exit_ := should_exit_ st;
     exit_status_ := exit_status_ st;
     processing_request_ := processing_request_ st |}.
Definition set_ddm_is_active (st : JdwpState) (b : bool) :=
  {| options_ := options_ st; debug_thread_started_ := debug_thread_started_ st;
     debug_thread_id_ := debug_thread_id_ st; run := run st;
     netState := netState st;
     last_activity_time_ms_ := last_activity_time_ms_ st;
     request_serial_ := request_serial_ st; event_serial_ := event_serial_ st;
     jdwp_token_owner_thread_id_ := jdwp_token_owner_thread_id_ st;
     ddm_is_active_ := b; should_exit_ := should_exit_ st;
     exit_status_ := exit_status_ st;
     processing_request_ := processing_request_ st |}.

(** [static_cast<ObjectId>(-1)], the value debug_thread_id_ takes when
    Establish fails: ObjectId is an unsigned 64-bit integer. *)
Definition kAttachFailed : Z := to_unsigned 64 (-1).

(** Close a connection from a debugger (which may have already dropped
    us). Only called from the JDWP thread. The call of close(2) itself is
    not among the events, which record the writes. *)
Definition Close (ns : JdwpNetStateBase) : M JdwpNetStateBase :=
  if clientSock ns <? 0 then ret ns
  else
    VLOG ("+++ closing JDWP connection on fd " ++ string_of_Z (clientSock ns))%string ;;
    ret {| clientSock := -1; wake_pipe_ := wake_pipe_ ns;
           input_buffer_ := input_buffer_ ns; input_count_ := input_count_ ns;
           awaiting_handshake_ := awaiting_handshake_ ns |}.

(** Reset all session-related state. [UnregisterAll] and the event list,
    which the CHECK after it finds empty, belong to jdwp_event.cc. *)
Definition ResetState (cfg : BuildConfig) (st : JdwpState) : M JdwpState :=
  if negb (jdwp_token_owner_thread_id_ st =? 0) then
    LOG WARNING "Resetting state while event in progress" ;;
    DCHECK cfg false "Check failed: false" ;;
    ret st
  else ret st.

(** What the JDWP thread calls and this file does not define: the
    transport (Accept, Establish, ProcessIncoming) and the debugger
    (Dbg::IsDisposed, Dbg::GetThreadSelfId). Each answer may depend on the
    number of calls made before it. Accept and Establish work on the net
    state; ProcessIncoming also handles packets, on the controller. *)
Record Collaborators := {
  Accept : nat -> JdwpNetStateBase -> bool * JdwpNetStateBase;
  Establish : nat -> JdwpOptions -> JdwpNetStateBase -> bool * JdwpNetStateBase;
  ProcessIncoming : nat -> JdwpState -> bool * JdwpState;
  Dbg_IsDisposed : nat -> bool;
  Dbg_GetThreadSelfId : nat -> Z
}.

(** A point of a run of the JDWP thread: the controller as another thread
    finds it there, and the event that led to it, if any. *)
Record snapshot := {
  snap_event : option event;
  snap_state : JdwpState
}.

Record Worker := {
  wk_state : JdwpState;
  wk_tick : nat;                 (* the calls of collaborators so far *)
  wk_history : list snapshot     (* oldest first *)
}.

Definition step (st' : JdwpState) (e : option event) (wk : Worker) : Worker :=
  {| wk_state := st'; wk_tick := wk_tick wk;
     wk_history := wk_history wk ++ [{| snap_event := e; snap_state := st' |}] |}.

Definition assign (st' : JdwpState) (wk : Worker) : Worker := step st' None wk.

Definition signal (e : event) (wk : Worker) : Worker := step (wk_state wk) (Some e) wk.

Definition tick (wk : Worker) : Worker :=
  {| wk_state := wk_state wk; wk_tick := S (wk_tick wk);
     wk_history := wk_history wk |}.

Definition log_steps (t : list event) (wk : Worker) : Worker :=
  fold_left (fun wk' e => signal e wk') t wk.

Inductive run_end :=
| RunFinished                    (* the loop was left *)
| ProcessExited (status : Z)     (* exit(exit_status_) *)
| RunAborted                     (* a failed check, or no net state *)
| RunOutOfFuel.

Section JdwpThread.
Variable env : Collaborators.
Variable cfg : BuildConfig.

(** The inner loop of Run: process requests until the debugger drops. *)
Fixpoint Run_requests (fuel : nat) (first : bool) (wk : Worker)
  : run_end * Worker :=
  match fuel with
  | O => (RunOutOfFuel, wk)
  | S fuel' =>
      if Dbg_IsDisposed env (wk_tick wk) then (RunFinished, tick wk)
      else
        let wk := tick wk in
        let '(ok, st1) := ProcessIncoming env (wk_tick wk) (wk_state wk) in
        let wk := assign st1 (tick wk) in
        if negb ok then
          (* blocking read *)
          (RunFinished, wk)
        else if should_exit_ st1 then
          (ProcessExited (exit_status_ st1), wk)
        else
          match netState st1 with
          | None => (RunAborted, wk)
          | Some ns =>
              if first && negb (IsAwaitingHandshake ns) then
                (* handshake worked, tell the interpreter that we're active *)
                (* set thread ID; requires object registry to be active *)
                let id := Dbg_GetThreadSelfId env (wk_tick wk) in
                let wk := assign (set_debug_thread_id st1 id) (tick wk) in
                (* wake anybody who's waiting for us *)
                let wk := signal (EvLock attach_lock_) wk in
                let wk := signal (EvBroadcast attach_cond_) wk in
                let wk := signal (EvUnlock attach_lock_) wk in
                Run_requests fuel' false wk
              else Run_requests fuel' first wk
          end
  end.

(** The outer loop of Run: one connection after the other in server mode,
    one connection otherwise. *)
Fixpoint Run_connections (fuel : nat) (wk : Worker) : run_end * Worker :=
  match fuel with
  | O => (RunOutOfFuel, wk)
  | S fuel' =>
      let st := wk_state wk in
      if negb (run st) then (RunFinished, wk)
      else
        match netState st with
        | None => (RunAborted, wk)
        | Some ns =>
            let '(ok, ns1) :=
              if server (options_ st) then Accept env (wk_tick wk) ns
              else Establish env (wk_tick wk) (options_ st) ns in
            let wk := assign (set_netState st (Some ns1)) (tick wk) in
            if negb ok then
              if server (options_ st) then (RunFinished, wk)
              else
                (* wake anybody who was waiting for us to succeed *)
                let wk := signal (EvLock attach_lock_) wk in
                let wk := assign (set_debug_thread_id (wk_state wk) kAttachFailed) wk in
                let wk := signal (EvBroadcast attach_cond_) wk in
                let wk := signal (EvUnlock attach_lock_) wk in
                (RunFinished, wk)
            else
              (* prep debug code to handle the new connection: Dbg::Connected() *)
              let '(e, wk) := Run_requests fuel' true wk in
              match e with
              | RunFinished =>
                  match netState (wk_state wk) with
                  | None => (RunAborted, wk)
                  | Some ns2 =>
                      match Close ns2 {| trace := []; errno := 0 |} with
                      | Aborted _ => (RunAborted, wk)
                      | Returned ns3 wc =>
                          let wk := log_steps (trace wc) wk in
                          let wk := assign (set_netState (wk_state wk) (Some ns3)) wk in
                          let wk :=
                            if ddm_is_active_ (wk_state wk)
                            then assign (set_ddm_is_active (wk_state wk) false) wk
                            else wk in
                          match ResetState cfg (wk_state wk) {| trace := []; errno := 0 |} with
                          | Aborted wr => (RunAborted, log_steps (trace wr) wk)
                          | Returned st' wr =>
                              let wk := assign st' (log_steps (trace wr) wk) in
                              (* Dbg::Disconnected(); Dbg::UndoDebuggerSuspensions() *)
                              (* if we connected out, this was a one-shot deal *)
                              let wk :=
                                if negb (server (options_ (wk_state wk)))
                                then assign (set_run (wk_state wk) false) wk
                                else wk in
                              Run_connections fuel' wk
                          end
                      end
                  end
              | _ => (e, wk)
              end
        end
  end.

(** Run, from its entry to the end of its loop. The checks of the state
    of the runtime thread, and its attaching and detaching, are the
    runtime's. *)
Definition Run (fuel : nat) (st : JdwpState) : run_end * Worker :=
  let wk := {| wk_state := st; wk_tick := O; wk_history := [] |} in
  let wk := signal (EvLog VERBOSE "JDWP: thread running") wk in
  (* Finish initializing, then notify the creating thread that we're running. *)
  let wk := assign (set_run (wk_state wk) true) wk in
  let wk := signal (EvLock thread_start_lock_) wk in
  let wk := assign (set_debug_thread_started (wk_state wk) true) wk in
  let wk := signal (EvBroadcast thread_start_cond_) wk in
  let wk := signal (EvUnlock thread_start_lock_) wk in
  let '(e, wk) := Run_connections fuel wk in
  match e with
  | RunFinished =>
      (e, signal (EvLog VERBOSE "JDWP: thread detaching and exiting...") wk)
  | _ => (e, wk)
  end.
End JdwpThread.

Definition MutexName_eqb (a b : MutexName) : bool :=
  match a, b with
  | socket_lock_, socket_lock_
  | thread_start_lock_, thread_start_lock_
  | attach_lock_, attach_lock_
  | jdwp_token_lock_, jdwp_token_lock_
  | shutdown_lock_, shutdown_lock_ => true
  | _, _ => false
  end.

(** Whether the JDWP thread holds mutex [m] at the end of a history. *)
Definition holds (m : MutexName) (h : list snapshot) : bool :=
  fold_left
    (fun held s =>
       match snap_event s with
       | Some (EvLock m') => if MutexName_eqb m m' then true else held
       | Some (EvUnlock m') => if MutexName_eqb m m' then false else held
       | _ => held
       end) h false.

(** The end of Create for suspend=y, for a caller that runs beside the
    JDWP thread whose history is [h]. Under attach_lock_ the caller waits
    while debug_thread_id_ is 0: it leaves the wait at a point [i] where
    the JDWP thread does not hold attach_lock_ and the id is not 0. It then
    tests IsActive(), at a point [j] not before [i], and returns the
    controller or nothing. The result is the id seen and what Create
    returns; [None] when the caller cannot be at these points. *)
Definition Create_wait (h : list snapshot) (i j : nat)
  : option (Z * option JdwpState) :=
  match nth_error h i, nth_error h j with
  | Some si, Some sj =>
      if (i <=? j)%nat && negb (holds attach_lock_ (firstn (S i) h))
         && negb (debug_thread_id_ (snap_state si) =? 0)
      then Some (debug_thread_id_ (snap_state si),
                 if IsActive (snap_state sj) then Some (snap_state sj) else None)
      else None
  | _, _ => None
  end.

(** The values the JDWP thread gives debug_thread_id_: the failure value
    or an answer of Dbg::GetThreadSelfId. *)
Definition attach_id (env : Collaborators) (id : Z) : Prop :=
  id = kAttachFailed \/ exists t, id = Dbg_GetThreadSelfId env t.

Definition id_ok (env : Collaborators) (st : JdwpState) : Prop :=
  debug_thread_id_ st = 0 \/ attach_id env (debug_thread_id_ st).

Definition snapshot_ok (env : Collaborators) (s : snapshot) : Prop :=
  id_ok env (snap_state s) /\
  (snap_event s = Some (EvBroadcast attach_cond_) ->
   debug_thread_id_ (snap_state s) <> 0).

Definition worker_ok (env : Collaborators) (wk : Worker) : Prop :=
  id_ok env (wk_state wk) /\ Forall (snapshot_ok env) (wk_history wk).

(** A transport that connects out at once, reads the handshake on its
    first ProcessIncoming, and finds the connection dropped on the next. *)
Definition dropping_transport : Collaborators :=
  {| Accept := fun _ ns => (false, ns);
     Establish := fun _ _ ns =>
       (true, {| clientSock := 7; wake_pipe_ := wake_pipe_ ns;
                 input_buffer_ := input_buffer_ ns; input_count_ := 0;
                 awaiting_handshake_ := true |});
     ProcessIncoming := fun _ st =>
       match netState st with
       | Some ns =>
           if awaiting_handshake_ ns
           then (true, set_netState st (Some (SetAwaitingHandshake false ns)))
           else (false, st)
       | None => (false, st)
       end;
     Dbg_IsDisposed := fun _ => false;
     Dbg_GetThreadSelfId := fun _ => 1 |}.


Definition server_options : JdwpOptions :=
  {| transport := kJdwpTransportSocket; server := true; suspend := true;
     host := ""; port := 8000 |}.

(** The controller as Create leaves it to the JDWP thread: constructed,
    with the net state of the transport. *)
Definition created (options : JdwpOptions) : JdwpState :=
  set_netState (JdwpState_new options) (Some (JdwpNetStateBase_new [])).

(** * Properties *)

(** ** Framing: Get4BE and HaveFullPacket *)

Example Get4BE_packet11 : Get4BE packet11 = 11.
Proof. reflexivity. Qed.

Lemma byte_at_range (p : list Byte.byte) (i : nat) : 0 <= byte_at p i < 256.
Proof.
  unfold byte_at.
  pose proof (Byte.to_N_bounded (nth i p Byte.x00)) as Hb.
  lia.
Qed.

Lemma land_mul_pow2_small (a b k : Z) :
  0 <= k -> 0 <= b < 2 ^ k -> Z.land (a * 2 ^ k) b = 0.
Proof.
  intros Hk Hb.
  apply Z.bits_inj'; intros n Hn.
  rewrite Z.land_spec, Z.bits_0.
  destruct (Z.ltb_spec n k) as [Hlt|Hge].
  - rewrite Z.mul_pow2_bits_low by lia. reflexivity.
  - destruct (Z.eq_dec b 0) as [->|Hne].
    + rewrite Z.bits_0. apply Bool.andb_false_r.
    + rewrite (Z.bits_above_log2 b n); [apply Bool.andb_false_r | lia |].
      apply Z.lt_le_trans with k; [|lia].
      apply Z.log2_lt_pow2; lia.
Qed.

Lemma lor_mul_pow2_add (a b k : Z) :
  0 <= k -> 0 <= b < 2 ^ k -> Z.lor (a * 2 ^ k) b = a * 2 ^ k + b.
Proof.
  intros Hk Hb.
  pose proof (land_mul_pow2_small a b k Hk Hb) as Hland.
  rewrite (Z.add_nocarry_lxor _ _ Hland).
  symmetry. apply Z.lxor_lor. exact Hland.
Qed.

(** Get4BE is the big-endian value of the first four bytes. *)
Lemma Get4BE_value (p : list Byte.byte) :
  Get4BE p =
  byte_at p 0 * 2 ^ 24 + byte_at p 1 * 2 ^ 16 + byte_at p 2 * 2 ^ 8 + byte_at p 3.
Proof.
  unfold Get4BE.
  pose proof (byte_at_range p 0) as H0.
  pose proof (byte_at_range p 1) as H1.
  pose proof (byte_at_range p 2) as H2.
  pose proof (byte_at_range p 3) as H3.
  rewrite !Z.shiftl_mul_pow2 by lia.
  rewrite (lor_mul_pow2_add (byte_at p 0) (byte_at p 1 * 2 ^ 16) 24) by lia.
  replace (byte_at p 0 * 2 ^ 24 + byte_at p 1 * 2 ^ 16)
    with ((byte_at p 0 * 2 ^ 8 + byte_at p 1) * 2 ^ 16) by lia.
  rewrite (lor_mul_pow2_add _ (byte_at p 2 * 2 ^ 8) 16) by lia.
  replace ((byte_at p 0 * 2 ^ 8 + byte_at p 1) * 2 ^ 16 + byte_at p 2 * 2 ^ 8)
    with ((byte_at p 0 * 2 ^ 16 + byte_at p 1 * 2 ^ 8 + byte_at p 2) * 2 ^ 8) by lia.
  rewrite (lor_mul_pow2_add _ (byte_at p 3) 8) by lia.
  lia.
Qed.

Lemma Get4BE_range (p : list Byte.byte) : 0 <= Get4BE p < 2 ^ 32.
Proof.
  rewrite Get4BE_value.
  pose proof (byte_at_range p 0).
  pose proof (byte_at_range p 1).
  pose proof (byte_at_range p 2).
  pose proof (byte_at_range p 3).
  lia.
Qed.

(** C4. HaveFullPacket is true exactly when, during the handshake, at least
    14 bytes are buffered and, after it, at least 4 bytes and at least as
    many as the big-endian length the buffer starts with. *)
Theorem HaveFullPacket_iff (ns : JdwpNetStateBase) :
  HaveFullPacket ns = true <->
  if awaiting_handshake_ ns
  then 14 <= input_count_ ns
  else 4 <= input_count_ ns /\ Get4BE (input_buffer_ ns) <= input_count_ ns.
Proof.
  unfold HaveFullPacket.
  destruct (awaiting_handshake_ ns).
  - change kMagicHandshakeLen with 14. apply Z.leb_le.
  - destruct (Z.ltb_spec (input_count_ ns) 4) as [Hlt|Hge].
    + split; [discriminate | lia].
    + rewrite Z.leb_le. split; [intros H; split; assumption | intros [_ H]; exact H].
Qed.

(** ** ConsumeBytes *)

Lemma memmove_front (buf : list Byte.byte) (src n : nat) :
  (src + n <= List.length buf)%nat ->
  firstn n (memmove buf 0 src n) = firstn n (skipn src buf).
Proof.
  intros Hlen. unfold memmove. simpl.
  rewrite firstn_app.
  rewrite firstn_firstn, Nat.min_id.
  rewrite length_firstn, length_skipn.
  replace (n - Nat.min n (List.length buf - src))%nat with O by lia.
  simpl. apply app_nil_r.
Qed.

Lemma memmove_length (buf : list Byte.byte) (src n : nat) :
  (src + n <= List.length buf)%nat ->
  List.length (memmove buf 0 src n) = List.length buf.
Proof.
  intros Hlen. unfold memmove. simpl.
  rewrite length_app, length_firstn, !length_skipn. lia.
Qed.

(** C5. For 0 < n <= input_count, ConsumeBytes(n) returns, leaves
    input_count - n as the count and the bytes n .. input_count of the old
    buffer at the start of the new one; when n is the whole count, the
    count becomes 0 and the buffer is not touched. *)
Theorem ConsumeBytes_keeps_suffix (n : Z) (ns : JdwpNetStateBase) (w : World) :
  0 < n <= input_count_ ns ->
  input_count_ ns <= Z.of_nat (List.length (input_buffer_ ns)) ->
  exists ns',
    ConsumeBytes n ns w = Returned ns' w /\
    input_count_ ns' = input_count_ ns - n /\
    firstn (Z.to_nat (input_count_ ns')) (input_buffer_ ns') =
      firstn (Z.to_nat (input_count_ ns - n))
             (skipn (Z.to_nat n) (input_buffer_ ns)) /\
    (n = input_count_ ns ->
       input_count_ ns' = 0 /\ input_buffer_ ns' = input_buffer_ ns) /\
    List.length (input_buffer_ ns') = List.length (input_buffer_ ns) /\
    clientSock ns' = clientSock ns /\
    wake_pipe_ ns' = wake_pipe_ ns /\
    awaiting_handshake_ ns' = awaiting_handshake_ ns.
Proof.
  intros [Hpos Hle] Hcap.
  unfold ConsumeBytes, bind, CHECK.
  destruct (Z.ltb_spec 0 n) as [_|Hbad]; [|lia].
  destruct (Z.leb_spec n (input_count_ ns)) as [_|Hbad]; [|lia].
  unfold ret.
  destruct (Z.eqb_spec n (input_count_ ns)) as [Heq|Hne].
  - exists (set_input_count ns 0). simpl.
    repeat split; try lia.
    replace (input_count_ ns - n) with 0 by lia. reflexivity.
  - eexists. split; [reflexivity|]. simpl.
    repeat split; try lia.
    + apply memmove_front. lia.
    + apply memmove_length. lia.
Qed.

Lemma ConsumeBytes_keeps_suffix_witness :
  exists ns',
    ConsumeBytes 4 connected_net world0 = Returned ns' world0 /\
    input_count_ ns' = 7 /\
    firstn 7 (input_buffer_ ns') = skipn 4 packet11.
Proof.
  destruct (ConsumeBytes_keeps_suffix 4 connected_net world0) as [ns' H].
  - simpl. lia.
  - simpl. lia.
  - exists ns'. destruct H as (Hrun & Hcount & Hbuf & _).
    split; [exact Hrun|]. split; [exact Hcount|].
    rewrite Hcount in Hbuf. exact Hbuf.
Defined.

Example ConsumeBytes_whole_packet :
  ConsumeBytes 11 connected_net world0 = Returned (set_input_count connected_net 0) world0.
Proof. reflexivity. Qed.

(** ** Serial numbers *)

Lemma request_serial_calls_succ (k : N) (st : JdwpState) :
  request_serial_calls (N.succ k) st =
  NextRequestSerial (snd (request_serial_calls k st)).
Proof. unfold request_serial_calls. rewrite N.iter_succ. reflexivity. Qed.

Lemma event_serial_calls_succ (k : N) (st : JdwpState) :
  event_serial_calls (N.succ k) st =
  NextEventSerial (snd (event_serial_calls k st)).
Proof. unfold event_serial_calls. rewrite N.iter_succ. reflexivity. Qed.

(** Call number [k] returns the counter advanced [k] times modulo 2^32 and
    leaves it advanced once more. *)
Lemma request_serial_calls_value (k : N) (st : JdwpState) :
  0 <= request_serial_ st < 2 ^ 32 ->
  fst (request_serial_calls k st) = (request_serial_ st + Z.of_N k) mod 2 ^ 32 /\
  request_serial_ (snd (request_serial_calls k st)) =
    (request_serial_ st + Z.of_N k + 1) mod 2 ^ 32.
Proof.
  intros Hrange.
  induction k as [|k [IHv IHs]] using N.peano_ind.
  - unfold request_serial_calls, NextRequestSerial, to_uint32, to_unsigned. simpl.
    rewrite Z.add_0_r. split; [|reflexivity].
    symmetry. apply Z.mod_small. exact Hrange.
  - rewrite request_serial_calls_succ.
    unfold NextRequestSerial at 1 2. simpl.
    rewrite IHs. unfold to_uint32, to_unsigned.
    rewrite N2Z.inj_succ. split.
    + f_equal. lia.
    + rewrite Zplus_mod_idemp_l. f_equal. lia.
Qed.

Lemma event_serial_calls_value (k : N) (st : JdwpState) :
  0 <= event_serial_ st < 2 ^ 32 ->
  fst (event_serial_calls k st) = (event_serial_ st + Z.of_N k) mod 2 ^ 32 /\
  event_serial_ (snd (event_serial_calls k st)) =
    (event_serial_ st + Z.of_N k + 1) mod 2 ^ 32.
Proof.
  intros Hrange.
  induction k as [|k [IHv IHs]] using N.peano_ind.
  - unfold event_serial_calls, NextEventSerial, to_uint32, to_unsigned. simpl.
    rewrite Z.add_0_r. split; [|reflexivity].
    symmetry. apply Z.mod_small. exact Hrange.
  - rewrite event_serial_calls_succ.
    unfold NextEventSerial at 1 2. simpl.
    rewrite IHs. unfold to_uint32, to_unsigned.
    rewrite N2Z.inj_succ. split.
    + f_equal. lia.
    + rewrite Zplus_mod_idemp_l. f_equal. lia.
Qed.

(** C7, as stated, fails: the counter is a uint32_t, and the call after the
    one that returns 0xFFFFFFFF returns 0. *)
Lemma request_serial_wraps :
  fst (request_serial_calls 4026531839 (JdwpState_new default_options)) = 4294967295 /\
  fst (request_serial_calls 4026531840 (JdwpState_new default_options)) = 0.
Proof.
  assert (Hr : 0 <= request_serial_ (JdwpState_new default_options) < 2 ^ 32)
    by (simpl; lia).
  split.
  - rewrite (proj1 (request_serial_calls_value 4026531839 _ Hr)). reflexivity.
  - rewrite (proj1 (request_serial_calls_value 4026531840 _ Hr)). reflexivity.
Qed.

(** C7, amended. The first call of NextRequestSerial returns 0x10000000 and
    the first call of NextEventSerial 0x20000000; each call returns the
    counter and increments it modulo 2^32, so call number k returns the
    initial value plus k modulo 2^32; the values increase strictly as long
    as the counter has not passed 0xFFFFFFFF. *)
Theorem serials_increase_until_wrap (options : JdwpOptions) (k : N) :
  let st := JdwpState_new options in
  NextRequestSerial st = (268435456, set_request_serial st 268435457) /\
  NextEventSerial st = (536870912, set_event_serial st 536870913) /\
  fst (request_serial_calls k st) = (268435456 + Z.of_N k) mod 2 ^ 32 /\
  fst (event_serial_calls k st) = (536870912 + Z.of_N k) mod 2 ^ 32 /\
  ((k < 4026531839)%N ->
     fst (request_serial_calls k st) < fst (request_serial_calls (N.succ k) st)) /\
  ((k < 3758096383)%N ->
     fst (event_serial_calls k st) < fst (event_serial_calls (N.succ k) st)).
Proof.
  intros st.
  assert (Hr : 0 <= request_serial_ st < 2 ^ 32) by (simpl; lia).
  assert (He : 0 <= event_serial_ st < 2 ^ 32) by (simpl; lia).
  split; [reflexivity|]. split; [reflexivity|].
  split; [apply (request_serial_calls_value k st Hr)|].
  split; [apply (event_serial_calls_value k st He)|].
  split; intros Hk.
  - rewrite (proj1 (request_serial_calls_value k st Hr)).
    rewrite (proj1 (request_serial_calls_value (N.succ k) st Hr)).
    change (request_serial_ st) with 268435456.
    rewrite N2Z.inj_succ.
    rewrite (Z.mod_small (268435456 + Z.of_N k)) by lia.
    rewrite (Z.mod_small (268435456 + Z.succ (Z.of_N k))) by lia.
    lia.
  - rewrite (proj1 (event_serial_calls_value k st He)).
    rewrite (proj1 (event_serial_calls_value (N.succ k) st He)).
    change (event_serial_ st) with 536870912.
    rewrite N2Z.inj_succ.
    rewrite (Z.mod_small (536870912 + Z.of_N k)) by lia.
    rewrite (Z.mod_small (536870912 + Z.succ (Z.of_N k))) by lia.
    lia.
Qed.

Lemma serials_increase_until_wrap_witness :
  fst (request_serial_calls 2 (JdwpState_new default_options))
    < fst (request_serial_calls 3 (JdwpState_new default_options)) /\
  fst (event_serial_calls 2 (JdwpState_new default_options))
    < fst (event_serial_calls 3 (JdwpState_new default_options)).
Proof.
  pose proof (serials_increase_until_wrap default_options 2) as H.
  destruct H as (_ & _ & _ & _ & Hreq & Hev).
  split; [apply Hreq | apply Hev]; reflexivity.
Defined.

(** ** Writing while disconnected *)

Lemma writes_of_app (t u : list event) :
  writes_of (t ++ u) = writes_of t ++ writes_of u.
Proof. unfold writes_of. apply filter_app. Qed.

Lemma writes_of_log (e : event) (w : World) :
  is_write e = false -> writes_of (trace (log_event e w)) = writes_of (trace w).
Proof.
  intros He. unfold log_event. simpl.
  rewrite writes_of_app. unfold writes_of at 2. simpl. rewrite He.
  apply app_nil_r.
Qed.

(** A disconnected WritePacket logs a warning and returns -1, unless the
    debug-build check of its length aborts it first. *)
Lemma WritePacket_disconnected (cfg : BuildConfig) (kernel : Kernel)
    (ns : JdwpNetStateBase) (pReply : ExpandBuf) (length : Z) (w : World) :
  clientSock ns < 0 ->
  WritePacket cfg kernel ns pReply length w =
    (if kIsDebugBuild cfg && negb (length <=? expandBufGetLength pReply)
     then Aborted (log_event (EvLog FATAL
            "Check failed: length <= expandBufGetLength(pReply)") w)
     else Returned (-1)
            (log_event (EvLog WARNING "Connection with debugger is closed") w)).
Proof.
  intros Hfd.
  unfold WritePacket, DCHECK, CHECK, NetState_IsConnected.
  destruct (Z.leb_spec 0 (clientSock ns)) as [Hbad|_]; [lia|].
  destruct (kIsDebugBuild cfg); simpl.
  - destruct (length <=? expandBufGetLength pReply); reflexivity.
  - reflexivity.
Qed.

Lemma SendBufferedRequest_disconnected (cfg : BuildConfig) (kernel : Kernel)
    (type : Z) (iov : list iovec) (st : JdwpState) (w : World) :
  IsConnected st = false ->
  SendBufferedRequest cfg kernel type iov st w =
    Returned st
      (log_event (EvLog VERBOSE "Not sending JDWP packet: no debugger attached!") w).
Proof.
  intros Hc. unfold SendBufferedRequest. rewrite Hc. reflexivity.
Qed.

Lemma SendRequest_disconnected (cfg : BuildConfig) (kernel : Kernel)
    (pReq : ExpandBuf) (st : JdwpState) (w : World) :
  IsConnected st = false ->
  SendRequest cfg kernel pReq st w =
    Returned st
      (log_event (EvLog VERBOSE "Not sending JDWP packet: no debugger attached!") w).
Proof.
  intros Hc. unfold SendRequest. rewrite Hc. reflexivity.
Qed.

(** C1, as stated, fails for WriteBufferedPacket: in a build without DCHECK
    it takes the lock and calls writev on the descriptor -1. *)
Lemma WriteBufferedPacket_disconnected_writes :
  let ns := JdwpNetStateBase_new [] in
  let iov := [{| iov_base := packet11; iov_len := 11 |}] in
  NetState_IsConnected ns = false /\
  WriteBufferedPacket release_build kernel_ebadf ns iov world0 =
    Returned (-1)
      {| trace := [EvLock socket_lock_; EvWritev (-1) iov; EvUnlock socket_lock_];
         errno := 9 |}.
Proof. split; reflexivity. Qed.

(** C1, amended. While the client socket is the disconnected sentinel
    (clientSock < 0): WritePacket issues no write, and returns -1 when its
    length is within the buffer; SendBufferedRequest, which is how the
    controller reaches WriteBufferedPacket, returns before calling it.
    WriteBufferedPacket itself only asserts the connection in a debug build,
    where it aborts before the write; in a build without DCHECK it calls
    writev on the descriptor it holds. *)
Theorem no_write_while_disconnected (cfg : BuildConfig) (kernel : Kernel)
    (ns : JdwpNetStateBase) (pReply : ExpandBuf) (length : Z)
    (iov : list iovec) (w : World) :
  clientSock ns < 0 ->
  writes_of (trace (final_world (WritePacket cfg kernel ns pReply length w)))
    = writes_of (trace w) /\
  (length <= expandBufGetLength pReply ->
     WritePacket cfg kernel ns pReply length w =
       Returned (-1)
         (log_event (EvLog WARNING "Connection with debugger is closed") w)) /\
  (forall (st : JdwpState) (type : Z),
     netState st = Some ns ->
     SendBufferedRequest cfg kernel type iov st w =
       Returned st
         (log_event (EvLog VERBOSE "Not sending JDWP packet: no debugger attached!") w)) /\
  (kIsDebugBuild cfg = true ->
     WriteBufferedPacket cfg kernel ns iov w =
       Aborted (log_event (EvLog FATAL "Connection with debugger is closed")
                          (log_event (EvLock socket_lock_) w))) /\
  (kIsDebugBuild cfg = false ->
     trace (final_world (WriteBufferedPacket cfg kernel ns iov w)) =
       trace w ++ [EvLock socket_lock_; EvWritev (clientSock ns) iov;
                   EvUnlock socket_lock_]).
Proof.
  intros Hfd.
  assert (Hnc : NetState_IsConnected ns = false).
  { unfold NetState_IsConnected. apply Z.leb_gt. exact Hfd. }
  split; [|split; [|split; [|split]]].
  - rewrite WritePacket_disconnected by exact Hfd.
    destruct (kIsDebugBuild cfg && negb (length <=? expandBufGetLength pReply));
      simpl; apply writes_of_log; reflexivity.
  - intros Hlen. rewrite WritePacket_disconnected by exact Hfd.
    destruct (Z.leb_spec length (expandBufGetLength pReply)) as [_|Hbad]; [|lia].
    rewrite andb_false_r. reflexivity.
  - intros st type Hns. apply SendBufferedRequest_disconnected.
    unfold IsConnected. rewrite Hns. exact Hnc.
  - intros Hdbg.
    unfold WriteBufferedPacket, WriteBufferedPacketLocked, DCHECK, CHECK.
    rewrite Hdbg, Hnc. reflexivity.
  - intros Hrel.
    unfold WriteBufferedPacket, WriteBufferedPacketLocked, DCHECK.
    rewrite Hrel.
    unfold bind, emit, ret, TEMP_FAILURE_RETRY. simpl.
    destruct (kernel _) as [r e]. simpl.
    rewrite <- !app_assoc. reflexivity.
Qed.

Lemma no_write_while_disconnected_witness :
  WritePacket debug_build kernel_complete (JdwpNetStateBase_new []) packet11 11 world0 =
    Returned (-1)
      (log_event (EvLog WARNING "Connection with debugger is closed") world0).
Proof.
  apply (no_write_while_disconnected debug_build kernel_complete
           (JdwpNetStateBase_new []) packet11 11 [] world0).
  - reflexivity.
  - unfold expandBufGetLength, packet11. simpl. lia.
Defined.

(** ** Sending with no debugger attached *)

(** C10. When IsConnected() is false, SendRequest and SendBufferedRequest
    return after a verbose log line: no write is issued, errno is not
    touched, nothing is reported to the caller and the controller is left
    as it was. *)
Theorem send_without_connection (cfg : BuildConfig) (kernel : Kernel)
    (pReq : ExpandBuf) (type : Z) (iov : list iovec) (st : JdwpState) (w : World) :
  IsConnected st = false ->
  exists w',
    SendRequest cfg kernel pReq st w = Returned st w' /\
    SendBufferedRequest cfg kernel type iov st w = Returned st w' /\
    writes_of (trace w') = writes_of (trace w) /\
    errno w' = errno w /\
    trace w' = trace w ++
      [EvLog VERBOSE "Not sending JDWP packet: no debugger attached!"].
Proof.
  intros Hc.
  exists (log_event (EvLog VERBOSE "Not sending JDWP packet: no debugger attached!") w).
  split; [apply SendRequest_disconnected; exact Hc|].
  split; [apply SendBufferedRequest_disconnected; exact Hc|].
  split; [apply writes_of_log; reflexivity|].
  split; reflexivity.
Qed.

Lemma send_without_connection_witness :
  exists w',
    SendRequest release_build kernel_complete packet11
                (JdwpState_new default_options) world0
      = Returned (JdwpState_new default_options) w' /\
    writes_of (trace w') = [].
Proof.
  destruct (send_without_connection release_build kernel_complete packet11 0 []
              (JdwpState_new default_options) world0) as [w' H].
  - reflexivity.
  - exists w'. destruct H as (Hreq & _ & Hwr & _).
    split; [exact Hreq | exact Hwr].
Defined.

(** When a debugger is connected the same calls do write. *)
Example SendRequest_connected_writes :
  SendRequest release_build kernel_complete packet11 connected_state world0 =
    Returned connected_state
      {| trace := [EvLock socket_lock_; EvWrite 7 packet11 11; EvUnlock socket_lock_];
         errno := 0 |}.
Proof. reflexivity. Qed.

(** ** LastDebuggerActivity *)

Lemma to_int64_small (v : Z) : - 2 ^ 63 <= v < 2 ^ 63 -> to_int64 v = v.
Proof.
  intros Hv. unfold to_int64, to_signed.
  change (64 - 1) with 63.
  rewrite Z.mod_small; lia.
Qed.

(** C8. LastDebuggerActivity returns -1 when no debugger is active; when
    one is, it loads last_activity_time_ms_ with sequentially consistent
    ordering, and returns 0 if that is 0 and otherwise the current
    MilliTime() minus it. *)
Theorem LastDebuggerActivity_result (Dbg_IsDebuggerActive : World -> bool)
    (MilliTime : World -> Z) (st : JdwpState) (w : World) :
  let last := last_activity_time_ms_ st in
  let w1 := log_event (EvAtomicLoad SequentiallyConsistent) w in
  (Dbg_IsDebuggerActive w = false ->
     LastDebuggerActivity Dbg_IsDebuggerActive MilliTime st w =
       Returned (-1) (log_event (EvLog WARNING "no active debugger") w)) /\
  (Dbg_IsDebuggerActive w = true -> last = 0 ->
     LastDebuggerActivity Dbg_IsDebuggerActive MilliTime st w =
       Returned 0 (log_event (EvLog VERBOSE "+++ last=busy") w1)) /\
  (Dbg_IsDebuggerActive w = true -> last <> 0 ->
     0 <= MilliTime w1 < 2 ^ 63 -> last <= MilliTime w1 ->
     MilliTime w1 - last < 2 ^ 63 ->
     LastDebuggerActivity Dbg_IsDebuggerActive MilliTime st w =
       Returned (MilliTime w1 - last)
         (log_event (EvLog VERBOSE ("+++ debugger interval="
                                    ++ string_of_Z (MilliTime w1 - last))%string)
                    w1)).
Proof.
  intros last w1. unfold LastDebuggerActivity.
  split; [|split].
  - intros Hact. rewrite Hact. reflexivity.
  - intros Hact Hzero. rewrite Hact. simpl.
    unfold bind at 1. unfold emit at 1. fold w1. fold last.
    rewrite Hzero. reflexivity.
  - intros Hact Hnz Hnow Hle Hdiff. rewrite Hact. simpl.
    unfold bind at 1. unfold emit at 1. fold w1. fold last.
    destruct (Z.eqb_spec last 0) as [Hbad|_]; [contradiction|].
    change {| trace := trace w ++ [EvAtomicLoad SequentiallyConsistent];
              errno := errno w |} with w1.
    rewrite (to_int64_small (MilliTime w1)) by lia.
    rewrite to_int64_small by lia.
    unfold CHECK.
    destruct (Z.leb_spec last (MilliTime w1)) as [_|Hbad]; [|lia].
    reflexivity.
Qed.

Lemma LastDebuggerActivity_result_witness :
    LastDebuggerActivity (fun _ => true) (fun _ => 5000)
      {| options_ := default_options; debug_thread_started_ := true;
         debug_thread_id_ := 1; run := true; netState := Some connected_net;
         last_activity_time_ms_ := 2000; request_serial_ := 268435456;
         event_serial_ := 536870912; jdwp_token_owner_thread_id_ := 0;
         ddm_is_active_ := false; should_exit_ := false; exit_status_ := 0;
         processing_request_ := false |} world0
    = Returned (5000 - 2000)
        {| trace := [EvAtomicLoad SequentiallyConsistent;
                     EvLog VERBOSE "+++ debugger interval=3000"];
           errno := 0 |}.
Proof.
  refine (proj2 (proj2 (LastDebuggerActivity_result (fun _ => true) (fun _ => 5000)
                          _ world0)) _ _ _ _ _).
  - reflexivity.
  - simpl. discriminate.
  - lia.
  - simpl. lia.
  - simpl. lia.
Defined.

Example LastDebuggerActivity_no_debugger :
  LastDebuggerActivity (fun _ => false) (fun _ => 5000) connected_state world0 =
    Returned (-1) (log_event (EvLog WARNING "no active debugger") world0).
Proof. reflexivity. Qed.

(** ** The option parser *)

Lemma transport_eqb_eq (a b : JdwpTransportType) :
  transport_eqb a b = true <-> a = b.
Proof. destruct a, b; simpl; split; congruence. Qed.

Lemma empty_spec (s : string) : empty s = true <-> s = "".
Proof. destruct s; simpl; split; congruence. Qed.

(** C2. Whatever record ParseJdwpOptions starts from, when it returns true
    the record it leaves has a transport other than Unknown and, if server
    is false, a non-empty host and a non-zero port. *)
Theorem ParseJdwpOptions_accepted (Split : string -> ascii -> list string)
    (cfg : BuildConfig) (s : string) (o o' : JdwpOptions) (log : list event) :
  ParseJdwpOptions Split cfg s o = (true, o', log) ->
  transport o' <> kJdwpTransportUnknown /\
  (server o' = false -> host o' <> "" /\ port o' <> 0).
Proof.
  unfold ParseJdwpOptions.
  destruct (String.eqb s "help"); [discriminate|].
  destruct (ParseJdwpOptions_pairs cfg s (Split s ","%char) o) as [[ok o1] log1].
  destruct ok; simpl; [|discriminate].
  destruct (transport_eqb (transport o1) kJdwpTransportUnknown) eqn:Hunknown;
    [discriminate|].
  assert (Hfinal : forall o2 log2,
    transport o2 <> kJdwpTransportUnknown ->
    (if negb (server o2) && (empty (host o2) || (port o2 =? 0))
     then (false, o2,
           EvLog VERBOSE ("ParseJdwpOptions: " ++ s)%string
             :: log2 ++ [EvLog ERROR
                 ("Must specify JDWP host and port when server=n: " ++ s)%string])
     else (true, o2, EvLog VERBOSE ("ParseJdwpOptions: " ++ s)%string :: log2))
      = (true, o', log) ->
    transport o' <> kJdwpTransportUnknown /\
    (server o' = false -> host o' <> "" /\ port o' <> 0)).
  { intros o2 log2 Ht.
    destruct (negb (server o2) && (empty (host o2) || (port o2 =? 0))) eqn:Hcheck;
      [discriminate|].
    intros Heq. injection Heq as <- _.
    split; [exact Ht|].
    intros Hserver. rewrite Hserver in Hcheck. simpl in Hcheck.
    apply orb_false_iff in Hcheck as [Hhost Hport].
    split.
    - intros Hempty. apply empty_spec in Hempty. congruence.
    - apply Z.eqb_neq. exact Hport. }
  assert (Ht1 : transport o1 <> kJdwpTransportUnknown).
  { intros Heq. apply transport_eqb_eq in Heq. congruence. }
  destruct (ART_TARGET_ANDROID cfg && transport_eqb (transport o1) kJdwpTransportNone).
  - apply Hfinal. simpl. discriminate.
  - apply Hfinal. exact Ht1.
Qed.

Lemma ParseJdwpOptions_accepted_witness :
  let o' := {| transport := kJdwpTransportSocket; server := false; suspend := true;
               host := "localhost"; port := 6500 |} in
  transport o' <> kJdwpTransportUnknown /\
  (server o' = false -> host o' <> "" /\ port o' <> 0).
Proof.
  apply (ParseJdwpOptions_accepted Split release_build
           "transport=dt_socket,address=localhost:6500,server=n,suspend=y"
           default_options _
           [EvLog VERBOSE "ParseJdwpOptions: transport=dt_socket,address=localhost:6500,server=n,suspend=y"]).
  vm_compute. reflexivity.
Defined.

(** The scenarios S1 to S3 of the option parser. *)
Example ParseJdwpOptions_server :
  fst (ParseJdwpOptions Split release_build
         "transport=dt_socket,address=8000,server=y,suspend=n" default_options)
  = (true, {| transport := kJdwpTransportSocket; server := true; suspend := false;
              host := ""; port := 8000 |}).
Proof. vm_compute. reflexivity. Qed.

Example ParseJdwpOptions_client_without_host :
  fst (fst (ParseJdwpOptions Split release_build
              "transport=dt_socket,address=6500,server=n" default_options))
  = false.
Proof. vm_compute. reflexivity. Qed.

(** *** What strtoul accepts *)

Lemma c_str_no_nul (s : string) : no_nul s = true -> c_str s = s.
Proof.
  induction s as [|a s IH]; simpl; [reflexivity|].
  intros H. apply andb_true_iff in H as [Ha Hs].
  destruct (Ascii.eqb a NUL); [discriminate|].
  rewrite IH by exact Hs. reflexivity.
Qed.

Lemma no_nul_substr_from (n : nat) (s : string) :
  no_nul s = true -> no_nul (substr_from n s) = true.
Proof.
  revert s. induction n as [|n IH]; intros s H; [destruct s; exact H|].
  destruct s as [|a s]; [reflexivity|].
  simpl in *. apply andb_true_iff in H as [_ Hs]. apply IH. exact Hs.
Qed.

Lemma no_nul_port_part (value : string) :
  no_nul value = true -> no_nul (port_part value) = true.
Proof.
  intros H. unfold port_part.
  destruct (find ":"%char value); [apply no_nul_substr_from|]; exact H.
Qed.



Lemma skip_spaces_get (s r : string) (n : nat) :
  skip_spaces s = (n, r) ->
  (forall i, String.get (n + i) s = String.get i r) /\
  (no_nul s = true -> no_nul r = true) /\
  (r <> "" -> last_char s = last_char r).
Proof.
  revert n r. induction s as [|a s IH]; intros n r H; simpl in H.
  - injection H as <- <-. repeat split; auto.
  - destruct (isspace a).
    + destruct (skip_spaces s) as [n' r'] eqn:Hs.
      injection H as <- <-.
      destruct (IH n' r' eq_refl) as (Hget & Hnul & Hlast).
      repeat split.
      * intros i. simpl. apply Hget.
      * intros Hn. simpl in Hn. apply andb_true_iff in Hn as [_ Hn]. auto.
      * intros Hr. rewrite <- (Hlast Hr). simpl.
        destruct s as [|b s]; [|reflexivity].
        simpl in Hs. injection Hs as _ <-. contradiction.
    + injection H as <- <-. repeat split; auto.
Qed.

Lemma skip_sign_get (s r : string) (neg : bool) (n : nat) :
  skip_sign s = (neg, n, r) ->
  (forall i, String.get (n + i) s = String.get i r) /\
  (no_nul s = true -> no_nul r = true) /\
  (r <> "" -> last_char s = last_char r).
Proof.
  unfold skip_sign. destruct s as [|a s].
  - intros H. injection H as _ <- <-. repeat split; auto.
  - assert (Htail : (forall i, String.get (1 + i) (String a s) = String.get i s) /\
                    (no_nul (String a s) = true -> no_nul s = true) /\
                    (s <> "" -> last_char (String a s) = last_char s)).
    { repeat split.
      - intros Hn. simpl in Hn. apply andb_true_iff in Hn as [_ Hn]. exact Hn.
      - intros Hs. destruct s; [contradiction|reflexivity]. }
    destruct (Ascii.eqb a "-"%char); [|destruct (Ascii.eqb a "+"%char)];
      intros H; injection H as _ <- <-; try exact Htail.
    repeat split; auto.
Qed.



Lemma all_digits_last (s : string) :
  s <> "" -> all_digits s = true ->
  exists c, last_char s = Some c /\ isdigit c = true.
Proof.
  induction s as [|a s IH]; intros Hne Hall; [contradiction|].
  simpl in Hall. apply andb_true_iff in Hall as [Ha Hs].
  destruct s as [|b s].
  - exists a. split; [reflexivity | exact Ha].
  - destruct IH as (c & Hc & Hd); [discriminate | exact Hs |].
    exists c. split; [exact Hc | exact Hd].
Qed.


Lemma is_numeral_last (s : string) :
  is_numeral s = true -> exists c, last_char s = Some c /\ isdigit c = true.
Proof.
  unfold is_numeral.
  destruct (skip_spaces s) as [nspace s1] eqn:Hsp.
  destruct (skip_sign s1) as [[neg nsign] s2] eqn:Hsg.
  intros H. apply andb_true_iff in H as [Hne Hall].
  assert (Hs2 : s2 <> "") by (destruct s2; [discriminate | discriminate]).
  destruct (skip_spaces_get _ _ _ Hsp) as (_ & _ & Hlast1).
  destruct (skip_sign_get _ _ _ _ Hsg) as (_ & _ & Hlast2).
  assert (Hs1 : s1 <> "").
  { intros ->. simpl in Hsg. injection Hsg as _ _ <-. contradiction. }
  rewrite (Hlast1 Hs1), (Hlast2 Hs2).
  apply all_digits_last; assumption.
Qed.

Lemma isspace_not_digit (a : ascii) : isspace a = true -> isdigit a = false.
Proof.
  unfold isspace, isdigit. intros H.
  apply orb_true_iff in H as [H|H].
  - apply N.eqb_eq in H. rewrite H. reflexivity.
  - apply andb_true_iff in H as [_ H]. apply N.leb_le in H.
    apply andb_false_iff. left. apply N.leb_gt. lia.
Qed.



(** *** The address option *)

Lemma ParseJdwpOption_address (cfg : BuildConfig) (value : string) (o : JdwpOptions) :
  no_nul value = true ->
  ParseJdwpOption cfg "address" value o =
    if empty (port_part value) then
      (false, address_host value o,
       [EvLog ERROR ("JDWP address missing port: " ++ value)%string])
    else if negb (Ascii.eqb (deref (port_part value)
                               (snd (strtoul (ULONG_MAX cfg) (port_part value)))) NUL)
            || (65535 <? fst (strtoul (ULONG_MAX cfg) (port_part value)))
    then (false, address_host value o,
          [EvLog ERROR ("JDWP address has junk in port field: " ++ value)%string])
    else (true, set_port (address_host value o)
                  (fst (strtoul (ULONG_MAX cfg) (port_part value))), []).
Proof.
  intros Hnul.
  unfold ParseJdwpOption, address_host. simpl String.eqb. cbv iota.
  rewrite (c_str_no_nul (port_part value)) by (apply no_nul_port_part; exact Hnul).
  destruct (empty (port_part value)); [reflexivity|].
  destruct (strtoul (ULONG_MAX cfg) (port_part value)) as [port end_].
  reflexivity.
Qed.


(** The bound on the value and the empty port part. *)
Example ParseJdwpOption_address_rejected :
  fst (fst (ParseJdwpOption release_build "address" "65536" default_options)) = false /\
  fst (fst (ParseJdwpOption release_build "address" "host:" default_options)) = false.
Proof. repeat split; vm_compute; reflexivity. Qed.

(** ** HandlePacket *)

Lemma to_ssize_t_small (cfg : BuildConfig) (v : Z) :
  0 <= v <= SSIZE_MAX cfg -> to_ssize_t cfg v = v.
Proof.
  unfold SSIZE_MAX, to_ssize_t, to_signed.
  destruct (data_model cfg); simpl word_bits; intros Hv;
    rewrite Z.mod_small; lia.
Qed.

(** The scenario S5, after the handshake: the 11-byte packet is handled,
    its reply written, and ConsumeBytes(11) leaves input_count_ = 0. *)
Example HandlePacket_packet11 :
  HandlePacket release_build kernel_complete reply11 connected_state world0 =
    Returned (true, set_netState (JdwpState_new default_options)
                      (Some (set_input_count connected_net 0)))
      {| trace := [EvLock shutdown_lock_; EvUnlock shutdown_lock_;
                   EvLock socket_lock_; EvWrite 7 packet11 11; EvUnlock socket_lock_;
                   EvBroadcast jdwp_token_cond_;
                   EvLock shutdown_lock_; EvBroadcast shutdown_cond_;
                   EvUnlock shutdown_lock_];
         errno := 0 |}.
Proof. reflexivity. Qed.

(** A failed write of the reply: false is returned, the packet stays in
    the buffer and processing_request_ stays set. *)
Example HandlePacket_write_fails :
  HandlePacket release_build kernel_ebadf reply11 connected_state world0 =
    Returned (false, set_processing_request connected_state true)
      {| trace := [EvLock shutdown_lock_; EvUnlock shutdown_lock_;
                   EvLock socket_lock_; EvWrite 7 packet11 11; EvUnlock socket_lock_;
                   EvBroadcast jdwp_token_cond_;
                   EvPLog ERROR "Failed sending reply to debugger"];
         errno := 9 |}.
Proof. reflexivity. Qed.

(** * Further properties of the option parser *)

Lemma ParseJdwpOption_fields (cfg : BuildConfig) (name value : string)
    (o : JdwpOptions) :
  let o' := snd (fst (ParseJdwpOption cfg name value o)) in
  (name <> "transport" -> transport o' = transport o) /\
  (name <> "server" -> server o' = server o) /\
  (name <> "suspend" -> suspend o' = suspend o) /\
  (name <> "address" -> host o' = host o /\ port o' = port o).
Proof.
  unfold ParseJdwpOption.
  destruct (String.eqb_spec name "transport") as [->|Ht].
  - repeat split; try congruence;
      destruct (String.eqb value "dt_socket");
      try destruct (String.eqb value "dt_android_adb"); reflexivity.
  - destruct (String.eqb_spec name "server") as [->|Hs].
    + repeat split; try congruence;
        destruct (String.eqb value "n"); try destruct (String.eqb value "y");
        reflexivity.
    + destruct (String.eqb_spec name "suspend") as [->|Hp].
      * repeat split; try congruence;
          destruct (String.eqb value "n"); try destruct (String.eqb value "y");
          reflexivity.
      * destruct (String.eqb_spec name "address") as [->|Ha].
        -- assert (Hkeep : forall o1 : JdwpOptions,
                     transport o1 = transport o -> server o1 = server o ->
                     suspend o1 = suspend o ->
                     let o' := snd (fst
                       (if empty (port_part value)
                        then (false, o1,
                              [EvLog ERROR ("JDWP address missing port: " ++ value)%string])
                        else
                          let '(port, end_) :=
                            strtoul (ULONG_MAX cfg) (c_str (port_part value)) in
                          if negb (Ascii.eqb (deref (c_str (port_part value)) end_) NUL)
                             || (65535 <? port)
                          then (false, o1,
                                [EvLog ERROR
                                   ("JDWP address has junk in port field: " ++ value)%string])
                          else (true, set_port o1 port, []))) in
                     transport o' = transport o /\ server o' = server o /\
                     suspend o' = suspend o).
           { intros o1 H1 H2 H3.
             destruct (empty (port_part value)); [simpl; auto|].
             destruct (strtoul (ULONG_MAX cfg) (c_str (port_part value))) as [p e].
             destruct (negb (Ascii.eqb (deref (c_str (port_part value)) e) NUL)
                       || (65535 <? p)); simpl; auto. }
           destruct (find ":"%char value) as [colon|];
             (edestruct Hkeep as (H1 & H2 & H3);
              [| | | repeat split; [intros _; exact H1 | intros _; exact H2
                                   | intros _; exact H3 | congruence | congruence]]);
             reflexivity.
        -- destruct (String.eqb name "launch" || String.eqb name "onthrow"
                     || String.eqb name "oncaught" || String.eqb name "timeout");
             simpl; repeat split; reflexivity.
Qed.

(** X1. An option changes only the fields it names: transport, server and
    suspend their own field, address the host and the port, and any other
    name nothing. *)
Theorem ParseJdwpOption_frame (cfg : BuildConfig) (name value : string)
    (o : JdwpOptions) :
  let o' := snd (fst (ParseJdwpOption cfg name value o)) in
  (name <> "transport" -> transport o' = transport o) /\
  (name <> "server" -> server o' = server o) /\
  (name <> "suspend" -> suspend o' = suspend o) /\
  (name <> "address" -> host o' = host o /\ port o' = port o).
Proof. exact (ParseJdwpOption_fields cfg name value o). Qed.

Lemma ParseJdwpOption_frame_witness :
  server (snd (fst (ParseJdwpOption release_build "address" "localhost:8000"
                      default_options))) = server default_options.
Proof.
  apply (ParseJdwpOption_frame release_build "address" "localhost:8000" default_options).
  discriminate.
Defined.

(** X2. A name other than transport, server, suspend and address is never
    an error: the option is accepted, the record is left as it is and one
    line is logged with severity INFO. *)
Theorem ParseJdwpOption_other_names (cfg : BuildConfig) (name value : string)
    (o : JdwpOptions) :
  is_known_name name = false ->
  exists msg, ParseJdwpOption cfg name value o = (true, o, [EvLog INFO msg]).
Proof.
  unfold is_known_name, ParseJdwpOption. intros H.
  apply orb_false_iff in H as [H Ha].
  apply orb_false_iff in H as [H Hp].
  apply orb_false_iff in H as [Ht Hs].
  rewrite Ht, Hs, Hp, Ha.
  destruct (String.eqb name "launch" || String.eqb name "onthrow"
            || String.eqb name "oncaught" || String.eqb name "timeout");
    eexists; reflexivity.
Qed.

Lemma ParseJdwpOption_other_names_witness :
  exists msg,
    ParseJdwpOption release_build "timeout" "5000" default_options =
      (true, default_options, [EvLog INFO msg]).
Proof.
  apply (ParseJdwpOption_other_names release_build "timeout" "5000" default_options).
  reflexivity.
Defined.

(** X3. The values an option accepts: transport only dt_socket and
    dt_android_adb, server and suspend only y and n. *)
Theorem ParseJdwpOption_value_domains (cfg : BuildConfig) (value : string)
    (o : JdwpOptions) :
  (fst (fst (ParseJdwpOption cfg "transport" value o)) = true <->
     value = "dt_socket" \/ value = "dt_android_adb") /\
  (fst (fst (ParseJdwpOption cfg "server" value o)) = true <->
     value = "y" \/ value = "n") /\
  (fst (fst (ParseJdwpOption cfg "suspend" value o)) = true <->
     value = "y" \/ value = "n") /\
  (fst (fst (ParseJdwpOption cfg "transport" value o)) = false ->
     transport (snd (fst (ParseJdwpOption cfg "transport" value o)))
       = kJdwpTransportUnknown).
Proof.
  unfold ParseJdwpOption. simpl String.eqb. cbv iota.
  split; [|split; [|split]].
  - destruct (String.eqb_spec value "dt_socket") as [->|H1]; simpl.
    + split; auto.
    + destruct (String.eqb_spec value "dt_android_adb") as [->|H2]; simpl.
      * split; auto.
      * split; [discriminate | intros [H|H]; contradiction].
  - destruct (String.eqb_spec value "n") as [->|H1]; simpl.
    + split; auto.
    + destruct (String.eqb_spec value "y") as [->|H2]; simpl.
      * split; auto.
      * split; [discriminate | intros [H|H]; contradiction].
  - destruct (String.eqb_spec value "n") as [->|H1]; simpl.
    + split; auto.
    + destruct (String.eqb_spec value "y") as [->|H2]; simpl.
      * split; auto.
      * split; [discriminate | intros [H|H]; contradiction].
  - destruct (String.eqb value "dt_socket"); [discriminate|].
    destruct (String.eqb value "dt_android_adb"); [discriminate|].
    reflexivity.
Qed.

Lemma ParseJdwpOption_value_domains_witness :
  transport (snd (fst (ParseJdwpOption release_build "transport" "dt_shmem"
                         default_options))) = kJdwpTransportUnknown.
Proof.
  apply (ParseJdwpOption_value_domains release_build "dt_shmem" default_options).
  reflexivity.
Defined.

(** The loop over the pairs stops at the first pair that fails. *)
Lemma ParseJdwpOptions_pairs_app (cfg : BuildConfig) (options : string)
    (l1 l2 : list string) (o : JdwpOptions) :
  ParseJdwpOptions_pairs cfg options (l1 ++ l2) o =
    let '(b1, o1, log1) := ParseJdwpOptions_pairs cfg options l1 o in
    if b1 then
      let '(b2, o2, log2) := ParseJdwpOptions_pairs cfg options l2 o1 in
      (b2, o2, log1 ++ log2)
    else (false, o1, log1).
Proof.
  revert o. induction l1 as [|p l1 IH]; intros o; simpl.
  - destruct (ParseJdwpOptions_pairs cfg options l2 o) as [[b2 o2] log2].
    reflexivity.
  - destruct (find "="%char p) as [pos|]; [|reflexivity].
    destruct (ParseJdwpOption cfg (substr_to pos p) (substr_from (pos + 1) p) o)
      as [[b o1] log].
    destruct b; simpl; [|reflexivity].
    rewrite IH.
    destruct (ParseJdwpOptions_pairs cfg options l1 o1) as [[b1 o1'] log1].
    destruct b1.
    + destruct (ParseJdwpOptions_pairs cfg options l2 o1') as [[b2 o2] log2].
      rewrite app_assoc. reflexivity.
    + reflexivity.
Qed.

Lemma ParseJdwpOptions_pairs_accepted (cfg : BuildConfig) (options : string)
    (pairs : list string) (o o' : JdwpOptions) (log : list event) :
  ParseJdwpOptions_pairs cfg options pairs o = (true, o', log) ->
  Forall (fun p => has_char "="%char p = true) pairs.
Proof.
  revert o log. induction pairs as [|p pairs IH]; intros o log H; [constructor|].
  simpl in H.
  destruct (find "="%char p) as [pos|] eqn:Hfind; [|discriminate].
  destruct (ParseJdwpOption cfg (substr_to pos p) (substr_from (pos + 1) p) o)
    as [[b o1] log1].
  destruct b; simpl in H; [|discriminate].
  destruct (ParseJdwpOptions_pairs cfg options pairs o1) as [[b2 o2] log2] eqn:Hrest.
  injection H as -> -> _.
  constructor; [|eapply IH; exact Hrest].
  clear -Hfind. revert pos Hfind.
  induction p as [|a p IHp]; intros pos Hfind; [discriminate|].
  simpl in *. destruct (Ascii.eqb a "="%char); [reflexivity|].
  destruct (find "="%char p) as [i|]; [|discriminate].
  simpl. eapply IHp. reflexivity.
Qed.

(** X4. What ParseJdwpOptions accepts is not the string "help", and each
    of its pieces has an '=' in it. *)
Theorem ParseJdwpOptions_accepts_pairs (Split : string -> ascii -> list string)
    (cfg : BuildConfig) (s : string) (o o' : JdwpOptions) (log : list event) :
  ParseJdwpOptions Split cfg s o = (true, o', log) ->
  s <> "help" /\
  Forall (fun p => has_char "="%char p = true) (Split s ","%char).
Proof.
  unfold ParseJdwpOptions.
  destruct (String.eqb_spec s "help") as [->|Hne]; [discriminate|].
  destruct (ParseJdwpOptions_pairs cfg s (Split s ","%char) o) as [[ok o1] log1] eqn:Hp.
  destruct ok; simpl; [|discriminate].
  intros _. split; [exact Hne|].
  eapply ParseJdwpOptions_pairs_accepted. exact Hp.
Qed.

Lemma ParseJdwpOptions_accepts_pairs_witness :
  Forall (fun p => has_char "="%char p = true)
         (Split "transport=dt_socket,address=8000,server=y" ","%char).
Proof.
  eapply (ParseJdwpOptions_accepts_pairs Split release_build
            "transport=dt_socket,address=8000,server=y" default_options).
  vm_compute. reflexivity.
Defined.

(** X5. The options of a list are applied from left to right, each to the
    record the one before left; the first that fails ends the parse, and
    what follows it is not looked at. *)
Theorem ParseJdwpOptions_pairs_sequence (cfg : BuildConfig) (options : string)
    (l1 l2 : list string) (o o1 : JdwpOptions) (log1 : list event) :
  (ParseJdwpOptions_pairs cfg options l1 o = (false, o1, log1) ->
     ParseJdwpOptions_pairs cfg options (l1 ++ l2) o = (false, o1, log1)) /\
  (ParseJdwpOptions_pairs cfg options l1 o = (true, o1, log1) ->
     ParseJdwpOptions_pairs cfg options (l1 ++ l2) o =
       (fst (fst (ParseJdwpOptions_pairs cfg options l2 o1)),
        snd (fst (ParseJdwpOptions_pairs cfg options l2 o1)),
        log1 ++ snd (ParseJdwpOptions_pairs cfg options l2 o1))).
Proof.
  split; intros H; rewrite ParseJdwpOptions_pairs_app, H.
  - reflexivity.
  - destruct (ParseJdwpOptions_pairs cfg options l2 o1) as [[b2 o2] log2].
    reflexivity.
Qed.

Lemma ParseJdwpOptions_pairs_sequence_witness :
  fst (fst (ParseJdwpOptions_pairs release_build ""
              (["server=maybe"] ++ ["transport=dt_socket"]) default_options))
  = false.
Proof.
  rewrite (proj1 (ParseJdwpOptions_pairs_sequence release_build ""
                    ["server=maybe"] ["transport=dt_socket"] default_options
                    default_options
                    [EvLog ERROR "JDWP option 'server' must be 'y' or 'n'"])
             eq_refl).
  reflexivity.
Defined.

(** *** The range of the port *)

Lemma isdigit_value (a : ascii) : isdigit a = true -> 0 <= digit_value a <= 9.
Proof.
  unfold isdigit, digit_value. intros H.
  apply andb_true_iff in H as [H1 H2].
  apply N.leb_le in H1. apply N.leb_le in H2. lia.
Qed.

(** The test of the digit loop for overflow fails when the next value is
    within [m]. *)
Lemma strtoul_no_overflow (m acc k : Z) :
  0 <= k -> acc * 10 + k <= m ->
  (m / 10 <? acc) || ((acc =? m / 10) && (m mod 10 <? k)) = false.
Proof.
  intros Hk Hle.
  pose proof (Z.div_mod m 10 ltac:(lia)) as Hdm.
  pose proof (Z.mod_pos_bound m 10 ltac:(lia)) as Hmod.
  apply orb_false_iff. split.
  - apply Z.ltb_ge. lia.
  - destruct (Z.eqb_spec acc (m / 10)) as [->|Hne]; [|reflexivity].
    simpl. apply Z.ltb_ge. lia.
Qed.

Lemma strtoul_overflow_bound (m acc k : Z) :
  0 <= k <= 9 -> 0 <= acc ->
  (m / 10 <? acc) || ((acc =? m / 10) && (m mod 10 <? k)) = false ->
  0 <= acc * 10 + k <= m.
Proof.
  intros Hk Hacc H.
  pose proof (Z.div_mod m 10 ltac:(lia)) as Hdm.
  pose proof (Z.mod_pos_bound m 10 ltac:(lia)) as Hmod.
  apply orb_false_iff in H as [H1 H2].
  apply Z.ltb_ge in H1.
  destruct (Z.eqb_spec acc (m / 10)) as [Heq|Hne].
  - simpl in H2. apply Z.ltb_ge in H2. lia.
  - lia.
Qed.

Lemma strtoul_digits_range (m : Z) (s : string) :
  0 <= m ->
  forall acc any n acc' any' n',
    0 <= acc <= m ->
    strtoul_digits m s acc any n = (acc', any', n') ->
    0 <= acc' <= m.
Proof.
  intros Hm.
  induction s as [|a s IH]; intros acc any n acc' any' n' Hacc H; simpl in H.
  - injection H as <- _ _. exact Hacc.
  - destruct (isdigit a) eqn:Hd.
    + destruct (any <? 0).
      * eapply IH; [|exact H]. exact Hacc.
      * destruct ((m / 10 <? acc) || ((acc =? m / 10) && (m mod 10 <? digit_value a)))
          eqn:Hov.
        -- eapply IH; [|exact H]. lia.
        -- eapply IH; [|exact H].
           apply strtoul_overflow_bound; [apply isdigit_value; exact Hd | lia | exact Hov].
    + injection H as <- _ _. exact Hacc.
Qed.

(** The value strtoul returns is an unsigned long. *)
Lemma strtoul_range (m : Z) (s : string) : 0 <= m -> 0 <= fst (strtoul m s) <= m.
Proof.
  intros Hm. unfold strtoul.
  destruct (skip_spaces s) as [nspace s1].
  destruct (skip_sign s1) as [[neg nsign] s2].
  destruct (strtoul_digits m s2 0 0 0) as [[acc any] nd] eqn:Hd.
  pose proof (strtoul_digits_range m s2 Hm 0 0 O acc any nd ltac:(lia) Hd) as Hacc.
  simpl.
  destruct (neg && (0 <? any)); [|exact Hacc].
  pose proof (Z.mod_pos_bound (- acc) (m + 1) ltac:(lia)). lia.
Qed.

Lemma ULONG_MAX_large (cfg : BuildConfig) : 65535 <= ULONG_MAX cfg.
Proof. unfold ULONG_MAX. destruct (data_model cfg); simpl; lia. Qed.

Lemma ParseJdwpOption_port_range (cfg : BuildConfig) (name value : string)
    (o : JdwpOptions) :
  0 <= port o <= 65535 ->
  0 <= port (snd (fst (ParseJdwpOption cfg name value o))) <= 65535.
Proof.
  intros Hport.
  destruct (String.eqb_spec name "address") as [->|Hne].
  - unfold ParseJdwpOption. simpl String.eqb. cbv iota.
    assert (Hhost : 0 <= port (match find ":"%char value with
                               | Some colon => set_host (set_host o "") (substr_to colon value)
                               | None => set_host o ""
                               end) <= 65535).
    { destruct (find ":"%char value); exact Hport. }
    destruct (empty (port_part value)); [exact Hhost|].
    pose proof (strtoul_range (ULONG_MAX cfg) (c_str (port_part value))
                  ltac:(pose proof (ULONG_MAX_large cfg); lia)) as Hr.
    destruct (strtoul (ULONG_MAX cfg) (c_str (port_part value))) as [p e].
    simpl in Hr.
    destruct (negb (Ascii.eqb (deref (c_str (port_part value)) e) NUL)); simpl;
      [exact Hhost|].
    destruct (Z.ltb_spec 65535 p); simpl; [exact Hhost | lia].
  - destruct (ParseJdwpOption_fields cfg name value o) as (_ & _ & _ & H).
    destruct (H Hne) as [_ Hp]. rewrite Hp. exact Hport.
Qed.

Lemma ParseJdwpOptions_pairs_port_range (cfg : BuildConfig) (options : string)
    (pairs : list string) (o : JdwpOptions) :
  0 <= port o <= 65535 ->
  0 <= port (snd (fst (ParseJdwpOptions_pairs cfg options pairs o))) <= 65535.
Proof.
  revert o. induction pairs as [|p pairs IH]; intros o Hport; simpl; [exact Hport|].
  destruct (find "="%char p) as [pos|]; [|exact Hport].
  pose proof (ParseJdwpOption_port_range cfg (substr_to pos p)
                (substr_from (pos + 1) p) o Hport) as Hstep.
  destruct (ParseJdwpOption cfg (substr_to pos p) (substr_from (pos + 1) p) o)
    as [[b o1] log].
  simpl in Hstep.
  destruct b; simpl; [|exact Hstep].
  specialize (IH o1 Hstep).
  destruct (ParseJdwpOptions_pairs cfg options pairs o1) as [[b2 o2] log2].
  exact IH.
Qed.

(** X6. The port of the record stays a uint16_t: if it is one before
    ParseJdwpOptions, it is one after, whether the string is accepted or
    not, so that storing the result of strtoul in the field never cuts it. *)
Theorem ParseJdwpOptions_port_range (Split : string -> ascii -> list string)
    (cfg : BuildConfig) (s : string) (o : JdwpOptions) :
  0 <= port o <= 65535 ->
  0 <= port (snd (fst (ParseJdwpOptions Split cfg s o))) <= 65535.
Proof.
  intros Hport. unfold ParseJdwpOptions.
  destruct (String.eqb s "help"); [exact Hport|].
  pose proof (ParseJdwpOptions_pairs_port_range cfg s (Split s ","%char) o Hport) as Hp.
  destruct (ParseJdwpOptions_pairs cfg s (Split s ","%char) o) as [[ok o1] log1].
  simpl in Hp.
  destruct ok; simpl; [|exact Hp].
  destruct (transport_eqb (transport o1) kJdwpTransportUnknown); [exact Hp|].
  destruct (ART_TARGET_ANDROID cfg && transport_eqb (transport o1) kJdwpTransportNone).
  - destruct (negb (server (set_transport o1 kJdwpTransportAndroidAdb))
              && (empty (host (set_transport o1 kJdwpTransportAndroidAdb))
                  || (port (set_transport o1 kJdwpTransportAndroidAdb) =? 0)));
      exact Hp.
  - destruct (negb (server o1) && (empty (host o1) || (port o1 =? 0))); exact Hp.
Qed.

Lemma ParseJdwpOptions_port_range_witness :
  0 <= port (snd (fst (ParseJdwpOptions Split release_build
                         "transport=dt_socket,address=-18446744073709551615,server=y"
                         default_options))) <= 65535.
Proof.
  apply (ParseJdwpOptions_port_range Split release_build).
  simpl. lia.
Defined.

(** *** Decimal ports *)

Lemma decimal_acc_ge (d : Decimal.uint) (acc : Z) : 0 <= acc -> acc <= decimal_acc d acc.
Proof.
  revert acc. induction d; intros acc Hacc; simpl; try lia;
    (eapply Z.le_trans; [|apply IHd; lia]; lia).
Qed.

Lemma decimal_acc_pos (d : Decimal.uint) (p : positive) :
  decimal_acc d (Z.pos p) = Z.pos (Pos.of_uint_acc d p).
Proof.
  revert p. induction d; intros p; cbn [decimal_acc Pos.of_uint_acc];
    try reflexivity; rewrite <- IHd; f_equal; lia.
Qed.

(** [decimal_acc] from 0 is the value the standard library gives a
    decimal numeral. *)
Lemma decimal_acc_of_uint (d : Decimal.uint) :
  decimal_acc d 0 = Z.of_N (N.of_uint d).
Proof.
  unfold N.of_uint.
  induction d; cbn [decimal_acc Pos.of_uint]; try reflexivity; try exact IHd;
    apply (decimal_acc_pos d).
Qed.

Lemma get_at_length (s : string) : String.get (String.length s) s = None.
Proof. induction s as [|a s IH]; simpl; [reflexivity | exact IH]. Qed.

Lemma strtoul_digits_step (m : Z) (a : ascii) (s : string) (acc any : Z)
    (n : nat) (k : Z) :
  isdigit a = true -> digit_value a = k -> 0 <= any -> acc * 10 + k <= m ->
  strtoul_digits m (String a s) acc any n =
    strtoul_digits m s (acc * 10 + k) 1 (S n).
Proof.
  intros Hd Hk Hany Hle. cbn [strtoul_digits]. rewrite Hd, Hk.
  destruct (Z.ltb_spec any 0) as [Hbad|_]; [lia|].
  rewrite strtoul_no_overflow; [reflexivity | | exact Hle].
  rewrite <- Hk. apply isdigit_value. exact Hd.
Qed.

(** On a decimal numeral the digit loop computes its value and counts its
    digits, as long as the value is an unsigned long. *)
Lemma strtoul_digits_decimal (m : Z) (d : Decimal.uint) :
  forall acc any n,
    0 <= acc -> 0 <= any -> decimal_acc d acc <= m ->
    strtoul_digits m (NilEmpty.string_of_uint d) acc any n =
      (decimal_acc d acc,
       match d with Decimal.Nil => any | _ => 1 end,
       (n + String.length (NilEmpty.string_of_uint d))%nat).
Proof.
  induction d; intros acc any n Hacc Hany Hle;
    [simpl; rewrite Nat.add_0_r; reflexivity | ..];
    cbn [NilEmpty.string_of_uint decimal_acc String.length];
    cbn [decimal_acc] in Hle;
    (erewrite strtoul_digits_step;
     [| reflexivity | vm_compute; reflexivity | exact Hany
      | eapply Z.le_trans; [apply decimal_acc_ge; lia | exact Hle]]);
    (rewrite IHd; [| lia | lia | exact Hle]);
    (f_equal; [f_equal; destruct d; reflexivity | lia]).
Qed.

Lemma isdigit_not_char (a c : ascii) :
  isdigit a = true -> isdigit c = false -> Ascii.eqb a c = false.
Proof.
  intros Ha Hc. destruct (Ascii.eqb_spec a c) as [->|_]; [congruence | reflexivity].
Qed.

Lemma isdigit_not_space (a : ascii) : isdigit a = true -> isspace a = false.
Proof.
  intros Ha. destruct (isspace a) eqn:Hs; [|reflexivity].
  rewrite (isspace_not_digit a Hs) in Ha. discriminate.
Qed.

Lemma string_of_uint_digits (d : Decimal.uint) :
  all_digits (NilEmpty.string_of_uint d) = true.
Proof. induction d; simpl; try reflexivity; exact IHd. Qed.

Lemma all_digits_chars (s : string) :
  all_digits s = true -> no_nul s = true /\ find ":"%char s = None.
Proof.
  induction s as [|a s IH]; simpl; intros H; [split; reflexivity|].
  apply andb_true_iff in H as [Ha Hs].
  destruct (IH Hs) as [Hn Hf].
  rewrite (isdigit_not_char a NUL Ha eq_refl), (isdigit_not_char a ":"%char Ha eq_refl).
  rewrite Hn, Hf. split; reflexivity.
Qed.

(** strtoul reads a decimal numeral to its end and gives its value. *)
Lemma strtoul_decimal (m : Z) (d : Decimal.uint) :
  d <> Decimal.Nil -> decimal_acc d 0 <= m ->
  strtoul m (NilEmpty.string_of_uint d) =
    (decimal_acc d 0, String.length (NilEmpty.string_of_uint d)).
Proof.
  intros Hnil Hle. unfold strtoul.
  pose proof (string_of_uint_digits d) as Hall.
  pose proof (strtoul_digits_decimal m d 0 0 O ltac:(lia) ltac:(lia) Hle) as Hrun.
  destruct (NilEmpty.string_of_uint d) as [|a s] eqn:Hs.
  - destruct d; simpl in Hs; try discriminate. contradiction.
  - simpl in Hall. apply andb_true_iff in Hall as [Ha _].
    cbn [skip_spaces]. rewrite (isdigit_not_space a Ha).
    cbn [skip_sign].
    rewrite (isdigit_not_char a "-"%char Ha eq_refl),
            (isdigit_not_char a "+"%char Ha eq_refl).
    rewrite Hrun. simpl andb. cbv iota.
    destruct d; try contradiction; reflexivity.
Qed.

Lemma find_after_host (h rest : string) :
  has_char ":"%char h = false ->
  find ":"%char (h ++ String ":"%char rest) = Some (String.length h) /\
  substr_to (String.length h) (h ++ String ":"%char rest) = h /\
  substr_from (String.length h + 1) (h ++ String ":"%char rest) = rest.
Proof.
  induction h as [|a h IH]; simpl; intros H.
  - repeat split.
  - apply orb_false_iff in H as [Ha Hh].
    destruct (IH Hh) as (Hf & Ht & Hs).
    rewrite Ha, Hf, Ht, Hs. repeat split.
Qed.

Lemma ParseJdwpOption_address_decimal (cfg : BuildConfig) (d : Decimal.uint)
    (value : string) (o o1 : JdwpOptions) :
  d <> Decimal.Nil -> (N.of_uint d <= 65535)%N ->
  port_part value = NilEmpty.string_of_uint d ->
  o1 = match find ":"%char value with
       | Some colon => set_host (set_host o "") (substr_to colon value)
       | None => set_host o ""
       end ->
  ParseJdwpOption cfg "address" value o =
    (true, set_port o1 (Z.of_N (N.of_uint d)), []).
Proof.
  intros Hnil Hle Hport ->.
  unfold ParseJdwpOption. simpl String.eqb. cbv iota.
  rewrite Hport.
  destruct (all_digits_chars _ (string_of_uint_digits d)) as [Hnul _].
  rewrite (c_str_no_nul _ Hnul).
  assert (Hval : decimal_acc d 0 <= 65535).
  { rewrite decimal_acc_of_uint. lia. }
  rewrite (strtoul_decimal (ULONG_MAX cfg) d Hnil)
    by (pose proof (ULONG_MAX_large cfg); lia).
  destruct (NilEmpty.string_of_uint d) as [|a s] eqn:Hs.
  - destruct d; simpl in Hs; try discriminate. contradiction.
  - cbn [empty]. unfold deref. rewrite get_at_length.
    destruct (Z.ltb_spec 65535 (decimal_acc d 0)) as [Hbad|_]; [lia|].
    simpl. rewrite decimal_acc_of_uint. reflexivity.
Qed.

(** X7. A decimal numeral of at most 65535, with or without leading
    zeros, is accepted as the address and gives the port of that value and
    an empty host; after a host without a colon and a colon, it gives that
    host and that port. In particular the decimal print of each n up to
    65535 is read back as n. *)
Theorem address_decimal_accepted (cfg : BuildConfig) (h : string)
    (d : Decimal.uint) (n : N) (o : JdwpOptions) :
  d <> Decimal.Nil -> (N.of_uint d <= 65535)%N -> (n <= 65535)%N ->
  has_char ":"%char h = false ->
  ParseJdwpOption cfg "address" (NilEmpty.string_of_uint d) o =
    (true, set_port (set_host o "") (Z.of_N (N.of_uint d)), []) /\
  ParseJdwpOption cfg "address" (h ++ String ":"%char (NilEmpty.string_of_uint d)) o =
    (true, set_port (set_host (set_host o "") h) (Z.of_N (N.of_uint d)), []) /\
  ParseJdwpOption cfg "address"
      (h ++ String ":"%char (NilZero.string_of_uint (N.to_uint n))) o =
    (true, set_port (set_host (set_host o "") h) (Z.of_N n), []).
Proof.
  intros Hnil Hle Hn Hh.
  assert (Hhost : forall d', d' <> Decimal.Nil -> (N.of_uint d' <= 65535)%N ->
            ParseJdwpOption cfg "address"
              (h ++ String ":"%char (NilEmpty.string_of_uint d')) o =
            (true, set_port (set_host (set_host o "") h) (Z.of_N (N.of_uint d')), [])).
  { intros d' Hnil' Hle'.
    destruct (find_after_host h (NilEmpty.string_of_uint d') Hh) as (Hf & Ht & Hs).
    apply ParseJdwpOption_address_decimal; [exact Hnil' | exact Hle' | |].
    - unfold port_part. rewrite Hf. exact Hs.
    - rewrite Hf, Ht. reflexivity. }
  split; [|split].
  - destruct (all_digits_chars _ (string_of_uint_digits d)) as [_ Hfind].
    apply ParseJdwpOption_address_decimal; [exact Hnil | exact Hle | |].
    + unfold port_part. rewrite Hfind. reflexivity.
    + rewrite Hfind. reflexivity.
  - apply Hhost; assumption.
  - assert (Hnn : N.to_uint n <> Decimal.Nil).
    { destruct n as [|p]; [discriminate|].
      apply DecimalPos.Unsigned.to_uint_nonnil. }
    assert (Hz : NilZero.string_of_uint (N.to_uint n)
                 = NilEmpty.string_of_uint (N.to_uint n)).
    { unfold NilZero.string_of_uint.
      destruct (N.to_uint n); [contradiction | reflexivity ..]. }
    rewrite Hz.
    rewrite <- (DecimalN.Unsigned.of_to n) at 2.
    apply Hhost; [exact Hnn|].
    rewrite DecimalN.Unsigned.of_to. exact Hn.
Qed.

Lemma address_decimal_accepted_witness :
  ParseJdwpOption release_build "address" "localhost:0080" default_options =
    (true, set_port (set_host (set_host default_options "") "localhost") 80, []).
Proof.
  refine (proj1 (proj2 (address_decimal_accepted release_build "localhost"
                          (Decimal.D0 (Decimal.D0 (Decimal.D8 (Decimal.D0 Decimal.Nil))))
                          80 default_options _ _ _ _)));
    try reflexivity; try discriminate.
Defined.

(** * Further properties of the input buffer *)

(** X8. For a given buffer and handshake state, HaveFullPacket is monotone
    in the count: once a full packet is buffered, more bytes keep it so. *)
Theorem HaveFullPacket_monotone (ns : JdwpNetStateBase) (n : Z) :
  input_count_ ns <= n ->
  HaveFullPacket ns = true ->
  HaveFullPacket (set_input_count ns n) = true.
Proof.
  unfold HaveFullPacket, set_input_count, set_input. simpl.
  intros Hle.
  destruct (awaiting_handshake_ ns).
  - rewrite !Z.leb_le. lia.
  - destruct (Z.ltb_spec (input_count_ ns) 4) as [_|H4]; [discriminate|].
    destruct (Z.ltb_spec n 4) as [Hbad|_]; [lia|].
    rewrite !Z.leb_le. lia.
Qed.

Lemma HaveFullPacket_monotone_witness :
  HaveFullPacket (set_input_count connected_net 16) = true.
Proof.
  apply (HaveFullPacket_monotone connected_net 16).
  - simpl. lia.
  - reflexivity.
Defined.

(** X9. With nothing buffered there is no full packet, during the handshake
    and after it: so for a state just constructed, and for a state whose
    bytes have all been consumed. *)
Theorem HaveFullPacket_empty (ns ns' : JdwpNetStateBase) (buffer : list Byte.byte)
    (w w' : World) :
  (input_count_ ns = 0 -> HaveFullPacket ns = false) /\
  HaveFullPacket (JdwpNetStateBase_new buffer) = false /\
  (ConsumeBytes (input_count_ ns) ns w = Returned ns' w' ->
     HaveFullPacket ns' = false).
Proof.
  assert (Hempty : forall s, input_count_ s = 0 -> HaveFullPacket s = false).
  { intros s H. unfold HaveFullPacket. rewrite H.
    destruct (awaiting_handshake_ s); reflexivity. }
  split; [apply Hempty|]. split; [apply Hempty; reflexivity|].
  unfold ConsumeBytes, bind, CHECK, ret.
  destruct (0 <? input_count_ ns); [|discriminate].
  rewrite Z.leb_refl, Z.eqb_refl.
  intros H. injection H as <- _. apply Hempty. reflexivity.
Qed.

Lemma HaveFullPacket_empty_witness :
  HaveFullPacket (set_input_count connected_net 0) = false.
Proof.
  apply (proj2 (proj2 (HaveFullPacket_empty connected_net _ [] world0 world0))).
  reflexivity.
Defined.

(** X10. ConsumeBytes checks its argument: a count of 0, or a count above
    the bytes buffered, aborts with a fatal log line and nothing else. *)
Theorem ConsumeBytes_bad_count (n : Z) (ns : JdwpNetStateBase) (w : World) :
  n <= 0 \/ input_count_ ns < n ->
  exists msg, ConsumeBytes n ns w = Aborted (log_event (EvLog FATAL msg) w).
Proof.
  intros Hbad. unfold ConsumeBytes, bind, CHECK.
  destruct (Z.ltb_spec 0 n) as [Hpos|Hnonpos].
  - destruct (Z.leb_spec n (input_count_ ns)) as [Hle|Hgt]; [lia|].
    eexists. reflexivity.
  - eexists. reflexivity.
Qed.

Lemma ConsumeBytes_bad_count_witness :
  exists msg,
    ConsumeBytes 12 connected_net world0 = Aborted (log_event (EvLog FATAL msg) world0).
Proof.
  apply (ConsumeBytes_bad_count 12 connected_net world0).
  right. simpl. lia.
Defined.

(** What ConsumeBytes does when it returns, in terms of the valid bytes. *)
Lemma ConsumeBytes_pending (n : Z) (ns ns' : JdwpNetStateBase) (w w' : World) :
  buffer_ok ns ->
  ConsumeBytes n ns w = Returned ns' w' ->
  w' = w /\ 0 < n <= input_count_ ns /\
  input_count_ ns' = input_count_ ns - n /\
  List.length (input_buffer_ ns') = List.length (input_buffer_ ns) /\
  pending ns' = skipn (Z.to_nat n) (pending ns).
Proof.
  intros [Hlo Hhi]. unfold ConsumeBytes, bind, CHECK, ret.
  destruct (Z.ltb_spec 0 n) as [Hpos|_]; [|discriminate].
  destruct (Z.leb_spec n (input_count_ ns)) as [Hle|_]; [|discriminate].
  unfold pending.
  destruct (Z.eqb_spec n (input_count_ ns)) as [Heq|Hne];
    intros H; injection H as <- <-; simpl.
  - repeat split; try lia.
    rewrite Heq, skipn_all2; [reflexivity|].
    rewrite length_firstn. lia.
  - repeat split; try lia.
    + apply memmove_length. lia.
    + rewrite memmove_front by lia.
      rewrite firstn_skipn_comm. f_equal. f_equal. lia.
Qed.

(** X11. ConsumeBytes keeps the buffer well formed: when the count is
    within the array and the call returns, the world is as before, the
    array has its length, the count has dropped by n > 0 and is still
    within the array, and the valid bytes are the former valid bytes
    without their first n. *)
Theorem ConsumeBytes_invariant (n : Z) (ns ns' : JdwpNetStateBase) (w w' : World) :
  buffer_ok ns ->
  ConsumeBytes n ns w = Returned ns' w' ->
  buffer_ok ns' /\
  w' = w /\
  input_count_ ns' < input_count_ ns /\
  List.length (input_buffer_ ns') = List.length (input_buffer_ ns) /\
  pending ns = firstn (Z.to_nat n) (pending ns) ++ pending ns'.
Proof.
  intros Hok Hrun.
  destruct (ConsumeBytes_pending n ns ns' w w' Hok Hrun)
    as (Hw & Hn & Hcount & Hlen & Hpend).
  destruct Hok as [Hlo Hhi].
  split; [unfold buffer_ok; lia|].
  split; [exact Hw|]. split; [lia|]. split; [exact Hlen|].
  rewrite Hpend. symmetry. apply firstn_skipn.
Qed.

Lemma ConsumeBytes_invariant_witness :
  buffer_ok (set_input_count connected_net 0).
Proof.
  apply (ConsumeBytes_invariant 11 connected_net _ world0 world0).
  - unfold buffer_ok. simpl. lia.
  - reflexivity.
Defined.

(** X12. Consuming a bytes and then b bytes leaves the count and the valid
    bytes that consuming a + b bytes at once leaves. *)
Theorem ConsumeBytes_twice (a b : Z) (ns : JdwpNetStateBase) (w : World) :
  buffer_ok ns -> 0 < a -> 0 < b -> a + b <= input_count_ ns ->
  exists ns1 ns2 ns12,
    ConsumeBytes a ns w = Returned ns1 w /\
    ConsumeBytes b ns1 w = Returned ns2 w /\
    ConsumeBytes (a + b) ns w = Returned ns12 w /\
    input_count_ ns2 = input_count_ ns12 /\
    pending ns2 = pending ns12.
Proof.
  intros Hok Ha Hb Hab.
  assert (Hruns : forall n s, 0 < n <= input_count_ s ->
            exists s', ConsumeBytes n s w = Returned s' w).
  { intros n s [Hn1 Hn2]. unfold ConsumeBytes, bind, CHECK, ret.
    destruct (Z.ltb_spec 0 n) as [_|Hbad]; [|lia].
    destruct (Z.leb_spec n (input_count_ s)) as [_|Hbad]; [|lia].
    destruct (n =? input_count_ s); eexists; reflexivity. }
  destruct (Hruns a ns ltac:(lia)) as [ns1 H1].
  destruct (ConsumeBytes_pending a ns ns1 w w Hok H1) as (_ & _ & Hc1 & Hl1 & Hp1).
  assert (Hok1 : buffer_ok ns1).
  { destruct Hok. unfold buffer_ok. lia. }
  destruct (Hruns b ns1 ltac:(lia)) as [ns2 H2].
  destruct (ConsumeBytes_pending b ns1 ns2 w w Hok1 H2) as (_ & _ & Hc2 & _ & Hp2).
  destruct (Hruns (a + b) ns ltac:(lia)) as [ns12 H12].
  destruct (ConsumeBytes_pending (a + b) ns ns12 w w Hok H12) as (_ & _ & Hc12 & _ & Hp12).
  exists ns1, ns2, ns12.
  split; [exact H1|]. split; [exact H2|]. split; [exact H12|].
  split; [lia|].
  rewrite Hp2, Hp1, Hp12, skipn_skipn. f_equal. lia.
Qed.

Lemma ConsumeBytes_twice_witness :
  exists ns1 ns2 ns12,
    ConsumeBytes 4 connected_net world0 = Returned ns1 world0 /\
    ConsumeBytes 7 ns1 world0 = Returned ns2 world0 /\
    ConsumeBytes (4 + 7) connected_net world0 = Returned ns12 world0 /\
    input_count_ ns2 = input_count_ ns12 /\
    pending ns2 = pending ns12.
Proof.
  apply (ConsumeBytes_twice 4 7 connected_net world0).
  - unfold buffer_ok. simpl. lia.
  - lia.
  - lia.
  - simpl. lia.
Defined.

(** X13. After the handshake, when HaveFullPacket holds, the length the
    buffer starts with is within the count: ConsumeBytes of that length
    returns and leaves what follows the packet, unless the length field is
    0, in which case ConsumeBytes aborts. *)
Theorem full_packet_consumed (ns : JdwpNetStateBase) (w : World) :
  buffer_ok ns ->
  awaiting_handshake_ ns = false ->
  HaveFullPacket ns = true ->
  let len := Get4BE (input_buffer_ ns) in
  (0 < len ->
     exists ns',
       ConsumeBytes len ns w = Returned ns' w /\
       input_count_ ns' = input_count_ ns - len /\
       pending ns' = skipn (Z.to_nat len) (pending ns)) /\
  (len = 0 ->
     ConsumeBytes len ns w =
       Aborted (log_event (EvLog FATAL "Check failed: count > 0U") w)).
Proof.
  intros Hok Hhs Hfull len.
  unfold HaveFullPacket in Hfull. rewrite Hhs in Hfull.
  destruct (Z.ltb_spec (input_count_ ns) 4) as [_|H4]; [discriminate|].
  apply Z.leb_le in Hfull. fold len in Hfull.
  split.
  - intros Hpos.
    assert (Hrun : exists ns', ConsumeBytes len ns w = Returned ns' w).
    { unfold ConsumeBytes, bind, CHECK, ret.
      destruct (Z.ltb_spec 0 len) as [_|Hbad]; [|lia].
      destruct (Z.leb_spec len (input_count_ ns)) as [_|Hbad]; [|lia].
      destruct (len =? input_count_ ns); eexists; reflexivity. }
    destruct Hrun as [ns' Hrun]. exists ns'.
    destruct (ConsumeBytes_pending len ns ns' w w Hok Hrun) as (_ & _ & Hc & _ & Hp).
    split; [exact Hrun|]. split; [exact Hc | exact Hp].
  - intros Hzero. rewrite Hzero. reflexivity.
Qed.

Lemma full_packet_consumed_witness :
  exists ns',
    ConsumeBytes (Get4BE (input_buffer_ connected_net)) connected_net world0
      = Returned ns' world0 /\
    input_count_ ns' = 11 - 11.
Proof.
  destruct (proj1 (full_packet_consumed connected_net world0
                     ltac:(unfold buffer_ok; simpl; lia) eq_refl eq_refl))
    as (ns' & Hrun & Hc & _).
  - reflexivity.
  - exists ns'. split; [exact Hrun | exact Hc].
Defined.

(** * Further properties of the write paths *)

(** What WritePacket adds to the trace when it returns. *)
Lemma WritePacket_trace (cfg : BuildConfig) (kernel : Kernel)
    (ns : JdwpNetStateBase) (pReply : ExpandBuf) (length r : Z) (w w' : World) :
  WritePacket cfg kernel ns pReply length w = Returned r w' ->
  (NetState_IsConnected ns = false /\ r = -1 /\
   w' = log_event (EvLog WARNING "Connection with debugger is closed") w) \/
  (NetState_IsConnected ns = true /\
   r = fst (kernel (trace w ++ [EvLock socket_lock_;
                                EvWrite (clientSock ns) pReply length])) /\
   trace w' = trace w ++ [EvLock socket_lock_;
                          EvWrite (clientSock ns) pReply length;
                          EvUnlock socket_lock_]).
Proof.
  unfold WritePacket, DCHECK, CHECK.
  assert (Hbody :
    (if negb (NetState_IsConnected ns)
     then LOG WARNING "Connection with debugger is closed";; ret (-1)
     else emit (EvLock socket_lock_);;
          r0 <- TEMP_FAILURE_RETRY kernel
                  (EvWrite (clientSock ns) (expandBufGetBuffer pReply) length);;
          emit (EvUnlock socket_lock_);; ret r0) w = Returned r w' ->
    (NetState_IsConnected ns = false /\ r = -1 /\
     w' = log_event (EvLog WARNING "Connection with debugger is closed") w) \/
    (NetState_IsConnected ns = true /\
     r = fst (kernel (trace w ++ [EvLock socket_lock_;
                                  EvWrite (clientSock ns) pReply length])) /\
     trace w' = trace w ++ [EvLock socket_lock_;
                            EvWrite (clientSock ns) pReply length;
                            EvUnlock socket_lock_])).
  { destruct (NetState_IsConnected ns); simpl.
    - unfold bind, emit, ret, TEMP_FAILURE_RETRY, expandBufGetBuffer. simpl.
      rewrite <- app_assoc. simpl.
      destruct (kernel (trace w ++ [EvLock socket_lock_;
                                    EvWrite (clientSock ns) pReply length]))
        as [r0 e0].
      intros H. injection H as <- <-. right. simpl.
      rewrite <- app_assoc. auto.
    - intros H. injection H as <- <-. left. auto. }
  destruct (kIsDebugBuild cfg); [|exact Hbody].
  destruct (length <=? expandBufGetLength pReply); [exact Hbody|].
  discriminate.
Qed.

Lemma WriteBufferedPacket_trace (cfg : BuildConfig) (kernel : Kernel)
    (ns : JdwpNetStateBase) (iov : list iovec) (r : Z) (w w' : World) :
  WriteBufferedPacket cfg kernel ns iov w = Returned r w' ->
  r = fst (kernel (trace w ++ [EvLock socket_lock_; EvWritev (clientSock ns) iov])) /\
  trace w' = trace w ++ [EvLock socket_lock_; EvWritev (clientSock ns) iov;
                         EvUnlock socket_lock_] /\
  (kIsDebugBuild cfg = true -> NetState_IsConnected ns = true).
Proof.
  unfold WriteBufferedPacket, WriteBufferedPacketLocked, DCHECK, CHECK.
  assert (Hbody :
    (emit (EvLock socket_lock_);;
     r0 <- (ret tt;; TEMP_FAILURE_RETRY kernel (EvWritev (clientSock ns) iov));;
     emit (EvUnlock socket_lock_);; ret r0) w = Returned r w' ->
    r = fst (kernel (trace w ++ [EvLock socket_lock_; EvWritev (clientSock ns) iov])) /\
    trace w' = trace w ++ [EvLock socket_lock_; EvWritev (clientSock ns) iov;
                           EvUnlock socket_lock_]).
  { unfold bind, emit, ret, TEMP_FAILURE_RETRY. simpl.
    rewrite <- app_assoc. simpl.
    destruct (kernel (trace w ++ [EvLock socket_lock_; EvWritev (clientSock ns) iov]))
      as [r0 e0].
    intros H. injection H as <- <-. simpl. rewrite <- app_assoc. auto. }
  destruct (kIsDebugBuild cfg).
  - destruct (NetState_IsConnected ns).
    + intros H. destruct (Hbody H) as [Hr Ht]. auto.
    + discriminate.
  - intros H. destruct (Hbody H) as [Hr Ht].
    split; [exact Hr|]. split; [exact Ht | discriminate].
Qed.

(** X14. Every write of WritePacket and of WriteBufferedPacket is made
    while socket_lock_ is held: when either returns, what it added to the
    trace takes the lock before its write, makes at most one write, and
    has released the lock at the end. *)
Theorem write_paths_hold_socket_lock (cfg : BuildConfig) (kernel : Kernel)
    (ns : JdwpNetStateBase) (pReply : ExpandBuf) (length : Z)
    (iov : list iovec) (r : Z) (w w' : World) :
  WritePacket cfg kernel ns pReply length w = Returned r w' \/
  WriteBufferedPacket cfg kernel ns iov w = Returned r w' ->
  exists t,
    trace w' = trace w ++ t /\
    socket_lock_respected false t = true /\
    (List.length (writes_of t) <= 1)%nat.
Proof.
  intros [H|H].
  - apply WritePacket_trace in H as [(_ & _ & ->)|(_ & _ & Ht)].
    + eexists. split; [reflexivity|]. split; [reflexivity | simpl; lia].
    + eexists. split; [exact Ht|]. split; [reflexivity | simpl; lia].
  - apply WriteBufferedPacket_trace in H as (_ & Ht & _).
    eexists. split; [exact Ht|]. split; [reflexivity | simpl; lia].
Qed.

Lemma write_paths_hold_socket_lock_witness :
  exists t,
    trace {| trace := [EvLock socket_lock_; EvWrite 7 packet11 11;
                       EvUnlock socket_lock_]; errno := 0 |} = trace world0 ++ t /\
    socket_lock_respected false t = true /\
    (List.length (writes_of t) <= 1)%nat.
Proof.
  apply (write_paths_hold_socket_lock release_build kernel_complete connected_net
           packet11 11 [] 11 world0).
  left. reflexivity.
Defined.

Lemma WritePacket_whole_buffer (cfg : BuildConfig) (kernel : Kernel)
    (ns : JdwpNetStateBase) (pReq : ExpandBuf) (w : World) :
  NetState_IsConnected ns = true ->
  exists r w',
    WritePacket cfg kernel ns pReq (expandBufGetLength pReq) w = Returned r w' /\
    r = fst (kernel (trace w ++ [EvLock socket_lock_;
                                 EvWrite (clientSock ns) pReq (expandBufGetLength pReq)])) /\
    trace w' = trace w ++ [EvLock socket_lock_;
                           EvWrite (clientSock ns) pReq (expandBufGetLength pReq);
                           EvUnlock socket_lock_].
Proof.
  intros Hc.
  unfold WritePacket, DCHECK, CHECK. rewrite Hc, Z.leb_refl.
  assert (Hdcheck : (if kIsDebugBuild cfg then @ret unit tt else ret tt) = ret tt)
    by (destruct (kIsDebugBuild cfg); reflexivity).
  rewrite Hdcheck.
  unfold bind, emit, ret, TEMP_FAILURE_RETRY, expandBufGetBuffer. simpl.
  rewrite <- app_assoc. simpl.
  destruct (kernel (trace w ++ [EvLock socket_lock_;
                                EvWrite (clientSock ns) pReq (expandBufGetLength pReq)]))
    as [r e].
  do 2 eexists. split; [reflexivity|]. split; [reflexivity|].
  simpl. rewrite <- app_assoc. reflexivity.
Qed.

Lemma WriteBufferedPacket_connected (cfg : BuildConfig) (kernel : Kernel)
    (ns : JdwpNetStateBase) (iov : list iovec) (w : World) :
  NetState_IsConnected ns = true ->
  exists r w',
    WriteBufferedPacket cfg kernel ns iov w = Returned r w' /\
    r = fst (kernel (trace w ++ [EvLock socket_lock_; EvWritev (clientSock ns) iov])) /\
    trace w' = trace w ++ [EvLock socket_lock_; EvWritev (clientSock ns) iov;
                           EvUnlock socket_lock_].
Proof.
  intros Hc.
  unfold WriteBufferedPacket, WriteBufferedPacketLocked, DCHECK, CHECK. rewrite Hc.
  assert (Hdcheck : (if kIsDebugBuild cfg then @ret unit tt else ret tt) = ret tt)
    by (destruct (kIsDebugBuild cfg); reflexivity).
  rewrite Hdcheck.
  unfold bind, emit, ret, TEMP_FAILURE_RETRY. simpl.
  rewrite <- app_assoc. simpl.
  destruct (kernel (trace w ++ [EvLock socket_lock_; EvWritev (clientSock ns) iov]))
    as [r e].
  do 2 eexists. split; [reflexivity|]. split; [reflexivity|].
  simpl. rewrite <- app_assoc. reflexivity.
Qed.

(** A log line after a computation adds no write. *)
Lemma writes_of_then_plog (t : list event) (b : bool) (sev : LogSeverity)
    (msg : string) (w : World) (st : JdwpState) :
  exists w',
    ((if b then PLOG sev msg else ret tt) ;; ret st) w = Returned st w' /\
    writes_of (trace w') = writes_of (trace w) /\
    (trace w' = trace w ++ if b then [EvPLog sev msg] else []).
Proof.
  destruct b; unfold bind, PLOG, emit, ret; eexists;
    (split; [reflexivity|]); cbn [trace].
  - split; [|reflexivity].
    rewrite writes_of_app. unfold writes_of at 2. cbn [filter is_write].
    apply app_nil_r.
  - split; [reflexivity|]. symmetry. apply app_nil_r.
Qed.

(** X15. With a debugger connected, SendRequest and SendBufferedRequest
    return in every build, leave the controller as it is, and make exactly
    one write: of the whole buffer, or of the whole vector, on the client
    socket. *)
Theorem send_with_connection (cfg : BuildConfig) (kernel : Kernel)
    (pReq : ExpandBuf) (type : Z) (iov : list iovec) (st : JdwpState) (w : World) :
  IsConnected st = true ->
  exists ns w1 w2,
    netState st = Some ns /\
    SendRequest cfg kernel pReq st w = Returned st w1 /\
    writes_of (trace w1) =
      writes_of (trace w) ++ [EvWrite (clientSock ns) pReq (expandBufGetLength pReq)] /\
    SendBufferedRequest cfg kernel type iov st w = Returned st w2 /\
    writes_of (trace w2) = writes_of (trace w) ++ [EvWritev (clientSock ns) iov].
Proof.
  intros Hc. pose proof Hc as Hc'. unfold IsConnected in Hc'.
  destruct (netState st) as [ns|] eqn:Hns; [|discriminate].
  exists ns.
  set (w0 := {| trace := trace w; errno := 0 |}).
  destruct (WritePacket_whole_buffer cfg kernel ns pReq w0 Hc') as (r1 & wa & Hrun1 & _ & Ht1).
  destruct (WriteBufferedPacket_connected cfg kernel ns iov w0 Hc') as (r2 & wb & Hrun2 & _ & Ht2).
  assert (H1 : exists w1,
            SendRequest cfg kernel pReq st w = Returned st w1 /\
            writes_of (trace w1) = writes_of (trace w) ++
              [EvWrite (clientSock ns) pReq (expandBufGetLength pReq)]).
  { unfold SendRequest. rewrite Hc, Hns. cbn [negb].
    unfold bind at 1. unfold set_errno at 1. fold w0.
    unfold bind at 1. rewrite Hrun1.
    match goal with
    | |- context [(if ?b then PLOG ?sev ?msg else ret tt) ;; ret st] =>
        destruct (writes_of_then_plog [] b sev msg wa st) as (w1 & Hs1 & Hw1 & _)
    end.
    exists w1. split; [exact Hs1|].
    rewrite Hw1, Ht1, writes_of_app. reflexivity. }
  assert (H2 : exists w2,
            SendBufferedRequest cfg kernel type iov st w = Returned st w2 /\
            writes_of (trace w2) = writes_of (trace w) ++
              [EvWritev (clientSock ns) iov]).
  { unfold SendBufferedRequest. rewrite Hc, Hns. cbn [negb].
    unfold bind at 1. unfold set_errno at 1. fold w0.
    unfold bind at 1. rewrite Hrun2.
    match goal with
    | |- context [(if ?b then PLOG ?sev ?msg else ret tt) ;; ret st] =>
        destruct (writes_of_then_plog [] b sev msg wb st) as (w2 & Hs2 & Hw2 & _)
    end.
    exists w2. split; [exact Hs2|].
    rewrite Hw2, Ht2, writes_of_app. reflexivity. }
  destruct H1 as (w1 & Hs1 & Hw1). destruct H2 as (w2 & Hs2 & Hw2).
  exists w1, w2. auto.
Qed.

Lemma send_with_connection_witness :
  exists ns w1 w2,
    netState connected_state = Some ns /\
    SendRequest debug_build kernel_ebadf packet11 connected_state world0
      = Returned connected_state w1 /\
    writes_of (trace w1) =
      writes_of (trace world0) ++ [EvWrite (clientSock ns) packet11
                                     (expandBufGetLength packet11)] /\
    SendBufferedRequest debug_build kernel_ebadf 0 [] connected_state world0
      = Returned connected_state w2 /\
    writes_of (trace w2) = writes_of (trace world0) ++ [EvWritev (clientSock ns) []].
Proof.
  apply (send_with_connection debug_build kernel_ebadf packet11 0 []
           connected_state world0).
  reflexivity.
Defined.

Lemma to_size_t_of_write_result (cfg : BuildConfig) (r len : Z) :
  0 <= len <= SSIZE_MAX cfg -> -1 <= r <= len ->
  (to_size_t cfg r =? len) = (r =? len).
Proof.
  unfold SSIZE_MAX, to_size_t, to_unsigned.
  destruct (data_model cfg); unfold word_bits; intros Hlen Hr.
  - change (2 ^ (32 - 1) - 1) with 2147483647 in Hlen.
    change (2 ^ 32) with 4294967296.
    destruct (Z.eq_dec r (-1)) as [->|Hne].
    + change ((-1) mod 4294967296) with 4294967295.
      destruct (Z.eqb_spec (-1) len) as [Hbad|_]; [lia|].
      apply Z.eqb_neq. lia.
    + rewrite Z.mod_small by lia. reflexivity.
  - change (2 ^ (64 - 1) - 1) with 9223372036854775807 in Hlen.
    change (2 ^ 64) with 18446744073709551616.
    destruct (Z.eq_dec r (-1)) as [->|Hne].
    + change ((-1) mod 18446744073709551616) with 18446744073709551615.
      destruct (Z.eqb_spec (-1) len) as [Hbad|_]; [lia|].
      apply Z.eqb_neq. lia.
    + rewrite Z.mod_small by lia. reflexivity.
Qed.

(** X16. With a debugger connected and a write that returns -1 or a number
    of bytes up to the length asked for, SendRequest logs an error exactly
    when not all the bytes were written; the error line carries both
    numbers. *)
Theorem SendRequest_reports_short_write (cfg : BuildConfig) (kernel : Kernel)
    (pReq : ExpandBuf) (st : JdwpState) (ns : JdwpNetStateBase) (w : World) :
  let len := expandBufGetLength pReq in
  let call := trace w ++ [EvLock socket_lock_; EvWrite (clientSock ns) pReq len] in
  let r := fst (kernel call) in
  netState st = Some ns ->
  NetState_IsConnected ns = true ->
  len <= SSIZE_MAX cfg ->
  -1 <= r <= len ->
  exists w',
    SendRequest cfg kernel pReq st w = Returned st w' /\
    trace w' =
      call ++ [EvUnlock socket_lock_] ++
      (if r =? len then []
       else [EvPLog ERROR ("Failed to send JDWP packet to debugger ("
                           ++ string_of_Z r ++ " of " ++ string_of_Z len ++ ")")%string]).
Proof.
  intros len call r Hns Hc Hlen Hr.
  set (w0 := {| trace := trace w; errno := 0 |}).
  destruct (WritePacket_whole_buffer cfg kernel ns pReq w0 Hc) as (r1 & wa & Hrun & Hr1 & Ht).
  change (trace w0) with (trace w) in Hr1, Ht. fold len in Hr1, Ht, Hrun.
  fold call in Hr1. fold r in Hr1. subst r1.
  unfold SendRequest, IsConnected. rewrite Hns, Hc. cbn [negb].
  unfold bind at 1. unfold set_errno at 1. fold w0.
  unfold bind at 1. fold len. rewrite Hrun.
  rewrite (to_size_t_of_write_result cfg r len) by (unfold len, expandBufGetLength in *; lia).
  match goal with
  | |- context [(if ?b then PLOG ?sev ?msg else ret tt) ;; ret st] =>
      destruct (writes_of_then_plog [] b sev msg wa st) as (w' & Hs & _ & Hw)
  end.
  exists w'. split; [exact Hs|].
  rewrite Hw, Ht. unfold call.
  rewrite <- !app_assoc. simpl app.
  destruct (r =? len); reflexivity.
Qed.

Lemma SendRequest_reports_short_write_witness :
  exists w',
    SendRequest release_build kernel_ebadf packet11 connected_state world0
      = Returned connected_state w' /\
    trace w' =
      [EvLock socket_lock_; EvWrite 7 packet11 11; EvUnlock socket_lock_;
       EvPLog ERROR "Failed to send JDWP packet to debugger (-1 of 11)"].
Proof.
  apply (SendRequest_reports_short_write release_build kernel_ebadf packet11
           connected_state connected_net world0).
  - reflexivity.
  - reflexivity.
  - unfold SSIZE_MAX, expandBufGetLength. simpl. lia.
  - unfold expandBufGetLength. simpl. lia.
Defined.

(** * Further properties of HandlePacket *)

(** ConsumeBytes returns the same state in every world, or aborts in
    every world. *)
Lemma ConsumeBytes_cases (n : Z) (ns : JdwpNetStateBase) :
  (0 < n <= input_count_ ns ->
     exists ns',
       (forall w, ConsumeBytes n ns w = Returned ns' w) /\
       input_count_ ns' = input_count_ ns - n) /\
  (n <= 0 \/ input_count_ ns < n ->
     exists msg,
       forall w, ConsumeBytes n ns w = Aborted (log_event (EvLog FATAL msg) w)).
Proof.
  unfold ConsumeBytes, bind, CHECK, ret. split.
  - intros [Hpos Hle].
    destruct (Z.ltb_spec 0 n) as [_|Hbad]; [|lia].
    destruct (Z.leb_spec n (input_count_ ns)) as [_|Hbad]; [|lia].
    destruct (Z.eqb_spec n (input_count_ ns)) as [Heq|Hne]; eexists;
      (split; [intros w; reflexivity|]); simpl; lia.
  - intros Hbad.
    destruct (Z.ltb_spec 0 n) as [Hpos|Hnonpos].
    + destruct (Z.leb_spec n (input_count_ ns)) as [Hle|Hgt]; [lia|].
      eexists. intros w. reflexivity.
    + eexists. intros w. reflexivity.
Qed.


(** HandlePacket, once the request has been processed and the reply sent
    or skipped. *)
Lemma HandlePacket_steps (cfg : BuildConfig) (kernel : Kernel)
    (ProcessRequest :
       Request -> ExpandBuf -> JdwpState -> M (Z * bool * ExpandBuf * JdwpState))
    (st st1 : JdwpState) (ns ns1 : JdwpNetStateBase)
    (replyLength cc : Z) (skip_reply : bool) (pReply : ExpandBuf)
    (w w1 w2 : World) :
  let request := {| request_bytes := input_buffer_ ns;
                    request_available := input_count_ ns |} in
  let w0 := log_event (EvUnlock shutdown_lock_) (log_event (EvLock shutdown_lock_) w) in
  let st2 := set_jdwp_token_owner st1 0 in
  let w3 := log_event (EvBroadcast jdwp_token_cond_) w2 in
  netState st = Some ns ->
  ProcessRequest request [] (set_processing_request st true) w0 =
    Returned (replyLength, skip_reply, pReply, st1) w1 ->
  netState st1 = Some ns1 ->
  HandlePacket_reply cfg kernel ns1 pReply replyLength skip_reply w1 = Returned cc w2 ->
  HandlePacket cfg kernel ProcessRequest st w =
    if negb (cc =? to_ssize_t cfg replyLength) then
      Returned (false, st2)
        (log_event (EvPLog ERROR "Failed sending reply to debugger") w3)
    else
      match ConsumeBytes (Request_GetLength request) ns1 w3 with
      | Returned ns' w4 =>
          Returned (true, set_processing_request (set_netState st2 (Some ns')) false)
                   (request_done w4)
      | Aborted w4 => Aborted w4
      end.
Proof.
  intros request w0 st2 w3 Hns Hpr Hns1 Hreply.
  unfold HandlePacket.
  unfold bind at 1. unfold emit at 1.
  unfold bind at 1. unfold emit at 1.
  unfold bind at 1. unfold CHECK at 1.
  change (netState (set_processing_request st true)) with (netState st).
  rewrite Hns. unfold ret at 1.
  unfold bind at 1.
  change {| trace := trace {| trace := trace w ++ [EvLock shutdown_lock_];
                              errno := errno w |} ++ [EvUnlock shutdown_lock_];
            errno := errno {| trace := trace w ++ [EvLock shutdown_lock_];
                              errno := errno w |} |} with w0.
  fold request. rewrite Hpr.
  rewrite Hns1.
  unfold bind at 1. rewrite Hreply.
  unfold bind at 1. unfold ReleaseJdwpTokenForCommand.
  unfold bind at 1. unfold emit at 1. unfold ret at 1.
  fold st2.
  change {| trace := trace w2 ++ [EvBroadcast jdwp_token_cond_];
            errno := errno w2 |} with w3.
  destruct (negb (cc =? to_ssize_t cfg replyLength)); [reflexivity|].
  change (netState st2) with (netState st1). rewrite Hns1.
  unfold bind at 1.
  destruct (ConsumeBytes (Request_GetLength request) ns1 w3) as [ns' w4|w4];
    [|reflexivity].
  unfold bind, emit, ret, request_done. simpl.
  rewrite <- !app_assoc. reflexivity.
Qed.

(** X17. If the connection is closed by the time the reply is to be sent,
    HandlePacket makes no write, releases the token, logs the failure and
    returns false; the request stays in the input buffer and
    processing_request_ is left as ProcessRequest left it. *)
Theorem HandlePacket_reply_on_closed_connection (cfg : BuildConfig) (kernel : Kernel)
    (ProcessRequest :
       Request -> ExpandBuf -> JdwpState -> M (Z * bool * ExpandBuf * JdwpState))
    (st st1 : JdwpState) (ns ns1 : JdwpNetStateBase)
    (replyLength : Z) (pReply : ExpandBuf) (w w1 : World) :
  let request := {| request_bytes := input_buffer_ ns;
                    request_available := input_count_ ns |} in
  let w0 := log_event (EvUnlock shutdown_lock_) (log_event (EvLock shutdown_lock_) w) in
  netState st = Some ns ->
  ProcessRequest request [] (set_processing_request st true) w0 =
    Returned (replyLength, false, pReply, st1) w1 ->
  netState st1 = Some ns1 ->
  clientSock ns1 < 0 ->
  0 <= replyLength <= expandBufGetLength pReply ->
  replyLength <= SSIZE_MAX cfg ->
  exists w',
    HandlePacket cfg kernel ProcessRequest st w =
      Returned (false, set_jdwp_token_owner st1 0) w' /\
    trace w' = trace w1 ++
      [EvLog WARNING "Connection with debugger is closed";
       EvBroadcast jdwp_token_cond_;
       EvPLog ERROR "Failed sending reply to debugger"] /\
    writes_of (trace w') = writes_of (trace w1) /\
    netState (set_jdwp_token_owner st1 0) = Some ns1 /\
    processing_request_ (set_jdwp_token_owner st1 0) = processing_request_ st1.
Proof.
  intros request w0 Hns Hpr Hns1 Hfd Hlen Hmax.
  assert (Hreply : HandlePacket_reply cfg kernel ns1 pReply replyLength false w1 =
            Returned (-1)
              (log_event (EvLog WARNING "Connection with debugger is closed") w1)).
  { unfold HandlePacket_reply. cbn [negb].
    rewrite WritePacket_disconnected by exact Hfd.
    destruct (Z.leb_spec replyLength (expandBufGetLength pReply)) as [_|Hbad]; [|lia].
    rewrite andb_false_r. reflexivity. }
  rewrite (HandlePacket_steps cfg kernel ProcessRequest st st1 ns ns1 replyLength (-1)
             false pReply w w1 _ Hns Hpr Hns1 Hreply).
  rewrite to_ssize_t_small by lia.
  destruct (Z.eqb_spec (-1) replyLength) as [Hbad|_]; [lia|].
  cbn [negb].
  eexists. split; [reflexivity|].
  split; [unfold log_event; cbn [trace]; rewrite <- !app_assoc; reflexivity|].
  split; [|split; [exact Hns1 | reflexivity]].
  unfold log_event. cbn [trace].
  rewrite !writes_of_app. unfold writes_of at 2 3 4. cbn [filter is_write].
  rewrite !app_nil_r. reflexivity.
Qed.

Lemma HandlePacket_reply_on_closed_connection_witness :
  exists w',
    HandlePacket release_build kernel_complete reply11
      (set_netState (JdwpState_new default_options)
                    (Some (JdwpNetStateBase_new packet11))) world0 =
      Returned (false,
                set_jdwp_token_owner
                  (set_processing_request
                     (set_netState (JdwpState_new default_options)
                                   (Some (JdwpNetStateBase_new packet11))) true) 0) w' /\
    writes_of (trace w') = [].
Proof.
  edestruct (HandlePacket_reply_on_closed_connection release_build kernel_complete
               reply11
               (set_netState (JdwpState_new default_options)
                             (Some (JdwpNetStateBase_new packet11))))
    with (w := world0) as (w' & Hrun & _ & Hwr & _).
  - reflexivity.
  - reflexivity.
  - reflexivity.
  - reflexivity.
  - unfold expandBufGetLength. simpl. lia.
  - unfold SSIZE_MAX. simpl. lia.
  - exists w'. split; [exact Hrun | exact Hwr].
Defined.

(** X18. When ProcessRequest sets skip_reply, HandlePacket writes nothing.
    With a reply length of 0 it calls ConsumeBytes with the length of the
    request: it consumes the request and returns true when that length is
    positive and within input_count_, and aborts on the CHECK of
    ConsumeBytes otherwise. With another reply length a debug build aborts
    on its check, and a build without DCHECK returns false and leaves the
    request in the buffer. *)
Theorem HandlePacket_skipped_reply (cfg : BuildConfig) (kernel : Kernel)
    (ProcessRequest :
       Request -> ExpandBuf -> JdwpState -> M (Z * bool * ExpandBuf * JdwpState))
    (st st1 : JdwpState) (ns ns1 : JdwpNetStateBase)
    (replyLength : Z) (pReply : ExpandBuf) (w w1 : World) :
  let request := {| request_bytes := input_buffer_ ns;
                    request_available := input_count_ ns |} in
  let w0 := log_event (EvUnlock shutdown_lock_) (log_event (EvLock shutdown_lock_) w) in
  let result := HandlePacket cfg kernel ProcessRequest st w in
  netState st = Some ns ->
  ProcessRequest request [] (set_processing_request st true) w0 =
    Returned (replyLength, true, pReply, st1) w1 ->
  netState st1 = Some ns1 ->
  0 <= replyLength <= SSIZE_MAX cfg ->
  writes_of (trace (final_world result)) = writes_of (trace w1) /\
  (replyLength = 0 -> 0 < Request_GetLength request <= input_count_ ns1 ->
     exists ns' w',
       ConsumeBytes (Request_GetLength request) ns1 w1 = Returned ns' w1 /\
       result = Returned (true, set_processing_request
                                  (set_netState (set_jdwp_token_owner st1 0) (Some ns'))
                                  false) w') /\
  (replyLength <> 0 -> kIsDebugBuild cfg = false ->
     exists w',
       result = Returned (false, set_jdwp_token_owner st1 0) w' /\
       netState (set_jdwp_token_owner st1 0) = Some ns1) /\
  (replyLength <> 0 -> kIsDebugBuild cfg = true ->
     result = Aborted (log_event (EvLog FATAL "Check failed: replyLength == 0U") w1)) /\
  (replyLength = 0 ->
   Request_GetLength request <= 0 \/ input_count_ ns1 < Request_GetLength request ->
     exists msg,
       result = Aborted (log_event (EvLog FATAL msg)
                           (log_event (EvBroadcast jdwp_token_cond_) w1))).
Proof.
  intros request w0 result Hns Hpr Hns1 Hlen.
  assert (Hconsume : forall w3,
            (exists ns', ConsumeBytes (Request_GetLength request) ns1 w3 = Returned ns' w3) \/
            (exists msg, ConsumeBytes (Request_GetLength request) ns1 w3 =
                         Aborted (log_event (EvLog FATAL msg) w3))).
  { intros w3. unfold ConsumeBytes, bind, CHECK, ret.
    destruct (0 <? Request_GetLength request); [|right; eexists; reflexivity].
    destruct (Request_GetLength request <=? input_count_ ns1);
      [|right; eexists; reflexivity].
    destruct (Request_GetLength request =? input_count_ ns1); left; eexists; reflexivity. }
  assert (Hsteps : forall cc w2,
            HandlePacket_reply cfg kernel ns1 pReply replyLength true w1 = Returned cc w2 ->
            result =
              if negb (cc =? replyLength) then
                Returned (false, set_jdwp_token_owner st1 0)
                  (log_event (EvPLog ERROR "Failed sending reply to debugger")
                     (log_event (EvBroadcast jdwp_token_cond_) w2))
              else
                match ConsumeBytes (Request_GetLength request) ns1
                        (log_event (EvBroadcast jdwp_token_cond_) w2) with
                | Returned ns' w4 =>
                    Returned (true, set_processing_request
                                      (set_netState (set_jdwp_token_owner st1 0) (Some ns'))
                                      false)
                             (request_done w4)
                | Aborted w4 => Aborted w4
                end).
  { intros cc w2 Hreply. unfold result.
    rewrite (HandlePacket_steps cfg kernel ProcessRequest st st1 ns ns1 replyLength cc
               true pReply w w1 w2 Hns Hpr Hns1 Hreply).
    rewrite to_ssize_t_small by exact Hlen. reflexivity. }
  assert (Hreply : HandlePacket_reply cfg kernel ns1 pReply replyLength true w1 =
            if kIsDebugBuild cfg && negb (replyLength =? 0)
            then Aborted (log_event (EvLog FATAL "Check failed: replyLength == 0U") w1)
            else Returned 0 w1).
  { unfold HandlePacket_reply, DCHECK, CHECK. cbn [negb].
    destruct (kIsDebugBuild cfg); [|reflexivity].
    destruct (replyLength =? 0); reflexivity. }
  assert (Habort : kIsDebugBuild cfg && negb (replyLength =? 0) = true ->
            result = Aborted (log_event (EvLog FATAL "Check failed: replyLength == 0U") w1)).
  { intros Hd. unfold result, HandlePacket.
    unfold bind at 1. unfold emit at 1.
    unfold bind at 1. unfold emit at 1.
    unfold bind at 1. unfold CHECK at 1.
    change (netState (set_processing_request st true)) with (netState st).
    rewrite Hns. unfold ret at 1. unfold bind at 1.
    change {| trace := trace {| trace := trace w ++ [EvLock shutdown_lock_];
                                errno := errno w |} ++ [EvUnlock shutdown_lock_];
              errno := errno {| trace := trace w ++ [EvLock shutdown_lock_];
                                errno := errno w |} |} with w0.
    fold request. rewrite Hpr, Hns1.
    unfold bind at 1. rewrite Hreply, Hd. reflexivity. }
  split; [|split; [|split; [|split]]].
  - destruct (kIsDebugBuild cfg && negb (replyLength =? 0)) eqn:Hd.
    + rewrite (Habort eq_refl). apply writes_of_log. reflexivity.
    + rewrite Hreply in Hsteps. rewrite (Hsteps 0 w1 eq_refl).
      destruct (negb (0 =? replyLength)).
      * cbn [final_world]. rewrite !writes_of_log by reflexivity. reflexivity.
      * destruct (Hconsume (log_event (EvBroadcast jdwp_token_cond_) w1))
          as [[ns' Hc]|[msg Hc]]; rewrite Hc; cbn [final_world].
        -- unfold request_done. cbn [trace]. rewrite writes_of_app.
           unfold writes_of at 2. cbn [filter is_write]. rewrite app_nil_r.
           apply writes_of_log. reflexivity.
        -- rewrite !writes_of_log by reflexivity. reflexivity.
  - intros Hzero Hcount.
    assert (Hd : kIsDebugBuild cfg && negb (replyLength =? 0) = false).
    { rewrite Hzero. apply andb_false_r. }
    rewrite Hd in Hreply. rewrite (Hsteps 0 w1 Hreply), Hzero. cbn [Z.eqb negb].
    assert (Hruns : forall w3, exists ns',
              ConsumeBytes (Request_GetLength request) ns1 w3 = Returned ns' w3).
    { intros w3. unfold ConsumeBytes, bind, CHECK, ret.
      destruct (Z.ltb_spec 0 (Request_GetLength request)) as [_|Hbad]; [|lia].
      destruct (Z.leb_spec (Request_GetLength request) (input_count_ ns1)) as [_|Hbad];
        [|lia].
      destruct (Request_GetLength request =? input_count_ ns1); eexists; reflexivity. }
    assert (Hsame : forall wa wb ns',
              ConsumeBytes (Request_GetLength request) ns1 wa = Returned ns' wa ->
              ConsumeBytes (Request_GetLength request) ns1 wb = Returned ns' wb).
    { intros wa wb ns'. unfold ConsumeBytes, bind, CHECK, ret.
      destruct (0 <? Request_GetLength request); [|discriminate].
      destruct (Request_GetLength request <=? input_count_ ns1); [|discriminate].
      destruct (Request_GetLength request =? input_count_ ns1);
        intros H; injection H as <-; reflexivity. }
    destruct (Hruns (log_event (EvBroadcast jdwp_token_cond_) w1)) as [ns' Hc].
    exists ns'. eexists. split; [exact (Hsame _ w1 ns' Hc)|].
    rewrite Hc. reflexivity.
  - intros Hnz Hrel.
    rewrite Hrel in Hreply. cbn [andb] in Hreply.
    rewrite (Hsteps 0 w1 Hreply).
    destruct (Z.eqb_spec 0 replyLength) as [Hbad|_]; [lia|].
    cbn [negb]. eexists. split; [reflexivity | exact Hns1].
  - intros Hnz Hdbg. apply Habort. rewrite Hdbg.
    destruct (Z.eqb_spec replyLength 0) as [Hbad|_]; [contradiction | reflexivity].
  - intros Hzero Hbad.
    assert (Hd : kIsDebugBuild cfg && negb (replyLength =? 0) = false).
    { rewrite Hzero. apply andb_false_r. }
    rewrite Hd in Hreply. rewrite (Hsteps 0 w1 Hreply), Hzero. cbn [Z.eqb negb].
    destruct (proj2 (ConsumeBytes_cases (Request_GetLength request) ns1) Hbad)
      as [msg Hab].
    rewrite Hab. exists msg. reflexivity.
Qed.

Lemma HandlePacket_skipped_reply_witness :
  exists ns' w',
    HandlePacket debug_build kernel_complete no_reply connected_state world0 =
      Returned (true, set_processing_request
                        (set_netState
                           (set_jdwp_token_owner
                              (set_processing_request connected_state true) 0)
                           (Some ns')) false) w'.
Proof.
  edestruct (HandlePacket_skipped_reply debug_build kernel_complete no_reply
               connected_state) with (w := world0) as (_ & H & _).
  - reflexivity.
  - reflexivity.
  - reflexivity.
  - unfold SSIZE_MAX. simpl. lia.
  - destruct H as (ns' & w' & _ & Hrun).
    + reflexivity.
    + vm_compute. split; [reflexivity | discriminate].
    + exists ns', w'. exact Hrun.
Defined.

(** * Further properties of the controller *)

Lemma mod_eq_close (a b m : Z) :
  0 < m -> a < b < a + m -> a mod m <> b mod m.
Proof.
  intros Hm Hab Heq.
  pose proof (Z.div_mod a m ltac:(lia)) as Ha.
  pose proof (Z.div_mod b m ltac:(lia)) as Hb.
  assert (Hd : b - a = m * (b / m - a / m)) by lia.
  assert (Hq : b / m - a / m = 0 \/ b / m - a / m >= 1 \/ b / m - a / m <= -1) by lia.
  destruct Hq as [Hq|[Hq|Hq]]; nia.
Qed.

(** X19. The serial numbers of any 2^32 successive calls are pairwise
    different: calls number j and k return different request serials, and
    different event serials, when 0 < k - j < 2^32. *)
Theorem serials_distinct (st : JdwpState) (j k : N) :
  0 <= request_serial_ st < 2 ^ 32 ->
  0 <= event_serial_ st < 2 ^ 32 ->
  (j < k)%N -> (k < j + 4294967296)%N ->
  fst (request_serial_calls j st) <> fst (request_serial_calls k st) /\
  fst (event_serial_calls j st) <> fst (event_serial_calls k st).
Proof.
  intros Hr He Hjk Hwin.
  rewrite (proj1 (request_serial_calls_value j st Hr)).
  rewrite (proj1 (request_serial_calls_value k st Hr)).
  rewrite (proj1 (event_serial_calls_value j st He)).
  rewrite (proj1 (event_serial_calls_value k st He)).
  change (2 ^ 32) with 4294967296.
  split; apply mod_eq_close; lia.
Qed.

Lemma serials_distinct_witness :
  fst (request_serial_calls 5 (JdwpState_new default_options))
    <> fst (request_serial_calls 9 (JdwpState_new default_options)).
Proof.
  refine (proj1 (serials_distinct (JdwpState_new default_options) 5 9 _ _ _ _)).
  - simpl. lia.
  - simpl. lia.
  - reflexivity.
  - reflexivity.
Defined.

(** X20. With a last activity time that is not negative, LastDebuggerActivity
    returns -1 exactly when no debugger is active and otherwise a number
    from 0 up; it aborts exactly when a debugger is active, the last
    activity time is not 0, and the clock, read as an int64_t, is before
    it. *)
Theorem LastDebuggerActivity_range (Dbg_IsDebuggerActive : World -> bool)
    (MilliTime : World -> Z) (st : JdwpState) (w : World) :
  let last := last_activity_time_ms_ st in
  let w1 := log_event (EvAtomicLoad SequentiallyConsistent) w in
  let result := LastDebuggerActivity Dbg_IsDebuggerActive MilliTime st w in
  0 <= last ->
  (forall v w', result = Returned v w' ->
     (Dbg_IsDebuggerActive w = false /\ v = -1) \/
     (Dbg_IsDebuggerActive w = true /\ 0 <= v < 2 ^ 63)) /\
  ((exists w', result = Aborted w') <->
     Dbg_IsDebuggerActive w = true /\ last <> 0 /\ to_int64 (MilliTime w1) < last).
Proof.
  intros last w1 result Hlast.
  assert (Hnow : - 2 ^ 63 <= to_int64 (MilliTime w1) < 2 ^ 63).
  { unfold to_int64, to_signed. change (64 - 1) with 63.
    pose proof (Z.mod_pos_bound (MilliTime w1 + 2 ^ 63) (2 ^ 64) ltac:(lia)). lia. }
  set (now := to_int64 (MilliTime w1)) in *.
  assert (Hres : result =
            if negb (Dbg_IsDebuggerActive w) then
              Returned (-1) (log_event (EvLog WARNING "no active debugger") w)
            else if last =? 0 then
              Returned 0 (log_event (EvLog VERBOSE "+++ last=busy") w1)
            else if last <=? now then
              Returned (to_int64 (now - last))
                (log_event (EvLog VERBOSE ("+++ debugger interval="
                                           ++ string_of_Z (to_int64 (now - last)))%string)
                           w1)
            else
              Aborted (log_event (EvLog FATAL "Check failed: now >= last") w1)).
  { unfold result, LastDebuggerActivity.
    destruct (Dbg_IsDebuggerActive w); cbn [negb]; [|reflexivity].
    unfold bind at 1. unfold emit at 1. fold w1. fold last.
    destruct (last =? 0); [reflexivity|].
    cbv beta zeta. unfold CHECK.
    change {| trace := trace w ++ [EvAtomicLoad SequentiallyConsistent];
              errno := errno w |} with w1.
    fold now.
    destruct (last <=? now); reflexivity. }
  rewrite Hres. clear Hres.
  destruct (Dbg_IsDebuggerActive w) eqn:Hact; cbn [negb].
  - destruct (Z.eqb_spec last 0) as [Hz|Hnz].
    + split.
      * intros v w' H. injection H as <- _. right. split; [reflexivity | lia].
      * split; [intros [w' H]; discriminate | intros (_ & Hbad & _); contradiction].
    + destruct (Z.leb_spec last now) as [Hle|Hgt].
      * split.
        -- intros v w' H. injection H as <- _. right. split; [reflexivity|].
           rewrite to_int64_small; lia.
        -- split; [intros [w' H]; discriminate | intros (_ & _ & Hbad); lia].
      * split.
        -- intros v w' H. discriminate.
        -- split; [intros _; auto | intros _; eexists; reflexivity].
  - split.
    + intros v w' H. injection H as <- _. left. auto.
    + split; [intros [w' H]; discriminate | intros (Hbad & _); discriminate].
Qed.

Lemma LastDebuggerActivity_range_witness :
  exists w',
    LastDebuggerActivity (fun _ => true) (fun _ => 1000)
      {| options_ := default_options; debug_thread_started_ := true;
         debug_thread_id_ := 1; run := true; netState := Some connected_net;
         last_activity_time_ms_ := 2000; request_serial_ := 268435456;
         event_serial_ := 536870912; jdwp_token_owner_thread_id_ := 0;
         ddm_is_active_ := false; should_exit_ := false; exit_status_ := 0;
         processing_request_ := false |} world0 = Aborted w'.
Proof.
  refine (proj2 (proj2 (LastDebuggerActivity_range (fun _ => true) (fun _ => 1000)
                          _ world0 _)) _).
  - simpl. lia.
  - split; [reflexivity|]. split; [simpl; discriminate | vm_compute; reflexivity].
Defined.

(** X21. The equality operators decide equality of all the fields: on
    JdwpLocation, operator== holds exactly for equal records and
    operator!= is its negation; on JdwpOptions, where the same object is
    first tested for, operator== holds exactly for equal records. *)
Theorem equality_operators (a b : JdwpLocation) (same_object : bool)
    (lhs rhs : JdwpOptions) :
  (same_object = true -> lhs = rhs) ->
  (JdwpLocation_eq a b = true <-> a = b) /\
  (JdwpLocation_ne a b = true <-> a <> b) /\
  (JdwpOptions_eq same_object lhs rhs = true <-> lhs = rhs).
Proof.
  intros Hsame.
  assert (Hloc : JdwpLocation_eq a b = true <-> a = b).
  { unfold JdwpLocation_eq. rewrite !andb_true_iff, !Z.eqb_eq.
    destruct a, b; simpl. split.
    - intros [[[-> ->] ->] ->]. reflexivity.
    - intros H. injection H as -> -> -> ->. auto. }
  split; [exact Hloc|]. split.
  - unfold JdwpLocation_ne. rewrite negb_true_iff.
    destruct (JdwpLocation_eq a b) eqn:He.
    + split; [discriminate | intros Hne; elim Hne; apply Hloc; reflexivity].
    + split; [intros _ Heq; apply Hloc in Heq; discriminate | reflexivity].
  - unfold JdwpOptions_eq. destruct same_object.
    + split; [intros _; apply Hsame; reflexivity | reflexivity].
    + rewrite !andb_true_iff, Z.eqb_eq, String.eqb_eq, !Bool.eqb_true_iff,
        transport_eqb_eq.
      destruct lhs, rhs; simpl. split.
      * intros [[[[-> ->] ->] ->] ->]. reflexivity.
      * intros H. injection H as -> -> -> -> ->. auto.
Qed.

Lemma equality_operators_witness :
  JdwpOptions_eq true default_options default_options = true <->
  default_options = default_options.
Proof.
  apply (equality_operators {| type_tag := 1; class_id := 2; method_id := 3; dex_pc := 4 |}
           {| type_tag := 1; class_id := 2; method_id := 3; dex_pc := 5 |}
           true default_options default_options).
  reflexivity.
Defined.

(** * The handshake and the first packet *)

Lemma nth_firstn_lt {A : Type} (i n : nat) (l : list A) (d : A) :
  (i < n)%nat -> nth i (firstn n l) d = nth i l d.
Proof.
  revert i l. induction n as [|n IH]; intros i l Hi; [lia|].
  destruct l as [|x l]; [reflexivity|].
  destruct i as [|i]; [reflexivity|]. simpl. apply IH. lia.
Qed.

Lemma Get4BE_firstn (n : nat) (l : list Byte.byte) :
  (4 <= n)%nat -> Get4BE (firstn n l) = Get4BE l.
Proof.
  intros Hn. unfold Get4BE, byte_at.
  rewrite !nth_firstn_lt by lia. reflexivity.
Qed.

(** X22. The end of the handshake: when HaveFullPacket holds during the
    handshake, ConsumeBytes of the 14 bytes of the handshake returns, and
    after SetAwaitingHandshake(false) a full packet is buffered exactly
    when at least 4 bytes followed the handshake and at least as many as
    the length they begin with. *)
Theorem framing_after_handshake (ns : JdwpNetStateBase) (w : World) :
  buffer_ok ns ->
  awaiting_handshake_ ns = true ->
  HaveFullPacket ns = true ->
  exists ns1,
    ConsumeBytes kMagicHandshakeLen ns w = Returned ns1 w /\
    (HaveFullPacket (SetAwaitingHandshake false ns1) = true <->
       4 <= input_count_ ns - 14 /\
       Get4BE (skipn 14 (input_buffer_ ns)) <= input_count_ ns - 14).
Proof.
  intros Hok Hhs Hfull.
  unfold HaveFullPacket in Hfull. rewrite Hhs in Hfull.
  change kMagicHandshakeLen with 14 in *. apply Z.leb_le in Hfull.
  assert (Hrun : exists ns1, ConsumeBytes 14 ns w = Returned ns1 w).
  { unfold ConsumeBytes, bind, CHECK, ret. cbn [Z.ltb Z.compare].
    destruct (Z.leb_spec 14 (input_count_ ns)) as [_|Hbad]; [|lia].
    destruct (14 =? input_count_ ns); eexists; reflexivity. }
  destruct Hrun as [ns1 Hrun]. exists ns1. split; [exact Hrun|].
  destruct (ConsumeBytes_pending 14 ns ns1 w w Hok Hrun) as (_ & _ & Hc & _ & Hp).
  unfold HaveFullPacket, SetAwaitingHandshake. cbn [awaiting_handshake_ input_count_ input_buffer_].
  rewrite Hc.
  destruct (Z.ltb_spec (input_count_ ns - 14) 4) as [Hlt|Hge].
  - split; [discriminate | lia].
  - rewrite Z.leb_le.
    assert (Hget : Get4BE (input_buffer_ ns1) = Get4BE (skipn 14 (input_buffer_ ns))).
    { rewrite <- (Get4BE_firstn (Z.to_nat (input_count_ ns1)) (input_buffer_ ns1)) by lia.
      fold (pending ns1). rewrite Hp. unfold pending.
      change (Z.to_nat 14) with 14%nat.
      replace (Z.to_nat (input_count_ ns)) with (14 + Z.to_nat (input_count_ ns - 14))%nat
        by lia.
      rewrite <- firstn_skipn_comm.
      apply Get4BE_firstn. lia. }
    rewrite Hget. split; [intros H; split; [exact Hge | exact H] | intros [_ H]; exact H].
Qed.

Lemma framing_after_handshake_witness :
  exists ns1,
    ConsumeBytes kMagicHandshakeLen handshake_net world0 = Returned ns1 world0 /\
    HaveFullPacket (SetAwaitingHandshake false ns1) = true.
Proof.
  destruct (framing_after_handshake handshake_net world0) as (ns1 & Hrun & Hiff).
  - unfold buffer_ok. simpl. lia.
  - reflexivity.
  - reflexivity.
  - exists ns1. split; [exact Hrun|].
    apply Hiff. vm_compute. split; discriminate.
Defined.

(** * The address option, for every value *)





(** * HandlePacket, for every reply and every request length *)

(** C3, as stated, fails: all the bytes of the reply are written, and
    HandlePacket does not return true. The length field of the request is
    0, which HaveFullPacket lets through, and the CHECK of ConsumeBytes
    aborts the process. *)
Lemma HandlePacket_zero_length_aborts :
  HaveFullPacket zero_length_net = true /\
  HandlePacket release_build kernel_complete reply11 zero_length_state world0 =
    Aborted
      {| trace := [EvLock shutdown_lock_; EvUnlock shutdown_lock_;
                   EvLock socket_lock_; EvWrite 7 packet11 11; EvUnlock socket_lock_;
                   EvBroadcast jdwp_token_cond_;
                   EvLog FATAL "Check failed: count > 0U"];
         errno := 0 |}.
Proof. split; reflexivity. Qed.

(** The reply step of HandlePacket, case by case. *)
Lemma HandlePacket_reply_cases (cfg : BuildConfig) (kernel : Kernel)
    (ns1 : JdwpNetStateBase) (pReply : ExpandBuf) (replyLength : Z)
    (skip_reply : bool) (w1 : World) :
  let call := trace w1 ++ [EvLock socket_lock_;
                           EvWrite (clientSock ns1) pReply replyLength] in
  let cc := if skip_reply then 0
            else if NetState_IsConnected ns1 then fst (kernel call) else -1 in
  let sent := if skip_reply then trace w1
              else if NetState_IsConnected ns1 then call ++ [EvUnlock socket_lock_]
              else trace w1 ++ [EvLog WARNING "Connection with debugger is closed"] in
  let dcheck_fails :=
    kIsDebugBuild cfg &&
    negb (if skip_reply then replyLength =? 0
          else replyLength <=? expandBufGetLength pReply) in
  (dcheck_fails = true ->
     exists msg,
       HandlePacket_reply cfg kernel ns1 pReply replyLength skip_reply w1 =
         Aborted (log_event (EvLog FATAL msg) w1)) /\
  (dcheck_fails = false ->
     exists w2,
       HandlePacket_reply cfg kernel ns1 pReply replyLength skip_reply w1 =
         Returned cc w2 /\
       trace w2 = sent).
Proof.
  intros call cc sent dcheck_fails.
  unfold dcheck_fails, cc, sent, HandlePacket_reply, WritePacket, DCHECK, CHECK.
  destruct skip_reply; cbn [negb].
  - destruct (kIsDebugBuild cfg); cbn [andb].
    + destruct (replyLength =? 0); cbn [negb]; split; try discriminate; intros _.
      * exists w1. split; reflexivity.
      * eexists. reflexivity.
    + split; [discriminate|]. intros _. exists w1. split; reflexivity.
  - assert (Hbody : exists w2,
              (if negb (NetState_IsConnected ns1)
               then LOG WARNING "Connection with debugger is closed";; ret (-1)
               else emit (EvLock socket_lock_);;
                    r <- TEMP_FAILURE_RETRY kernel
                           (EvWrite (clientSock ns1) (expandBufGetBuffer pReply)
                                    replyLength);;
                    emit (EvUnlock socket_lock_);; ret r) w1 =
              Returned (if NetState_IsConnected ns1 then fst (kernel call) else -1) w2 /\
              trace w2 = (if NetState_IsConnected ns1 then call ++ [EvUnlock socket_lock_]
                          else trace w1 ++
                               [EvLog WARNING "Connection with debugger is closed"])).
    { destruct (NetState_IsConnected ns1); cbn [negb].
      - unfold bind, emit, ret, TEMP_FAILURE_RETRY, expandBufGetBuffer. cbn [trace errno].
        rewrite <- app_assoc. cbn [app]. fold call.
        destruct (kernel call) as [r e].
        eexists. split; [reflexivity|]. reflexivity.
      - eexists. split; reflexivity. }
    destruct (kIsDebugBuild cfg); cbn [andb].
    + destruct (replyLength <=? expandBufGetLength pReply); cbn [negb];
        split; try discriminate; intros _.
      * exact Hbody.
      * eexists. reflexivity.
    + split; [discriminate|]. intros _. exact Hbody.
Qed.

(** An abort of the reply step is an abort of HandlePacket. *)
Lemma HandlePacket_reply_abort (cfg : BuildConfig) (kernel : Kernel)
    (ProcessRequest :
       Request -> ExpandBuf -> JdwpState -> M (Z * bool * ExpandBuf * JdwpState))
    (st st1 : JdwpState) (ns ns1 : JdwpNetStateBase)
    (replyLength : Z) (skip_reply : bool) (pReply : ExpandBuf)
    (w w1 w2 : World) :
  let request := {| request_bytes := input_buffer_ ns;
                    request_available := input_count_ ns |} in
  let w0 := log_event (EvUnlock shutdown_lock_) (log_event (EvLock shutdown_lock_) w) in
  netState st = Some ns ->
  ProcessRequest request [] (set_processing_request st true) w0 =
    Returned (replyLength, skip_reply, pReply, st1) w1 ->
  netState st1 = Some ns1 ->
  HandlePacket_reply cfg kernel ns1 pReply replyLength skip_reply w1 = Aborted w2 ->
  HandlePacket cfg kernel ProcessRequest st w = Aborted w2.
Proof.
  intros request w0 Hns Hpr Hns1 Hreply.
  unfold HandlePacket.
  unfold bind at 1. unfold emit at 1.
  unfold bind at 1. unfold emit at 1.
  unfold bind at 1. unfold CHECK at 1.
  change (netState (set_processing_request st true)) with (netState st).
  rewrite Hns. unfold ret at 1. unfold bind at 1.
  change {| trace := trace {| trace := trace w ++ [EvLock shutdown_lock_];
                              errno := errno w |} ++ [EvUnlock shutdown_lock_];
            errno := errno {| trace := trace w ++ [EvLock shutdown_lock_];
                              errno := errno w |} |} with w0.
  fold request. rewrite Hpr, Hns1.
  unfold bind at 1. rewrite Hreply. reflexivity.
Qed.

(** C3, amended. Let cc be the number of bytes written for the reply: 0
    when the reply is skipped, -1 when the connection is closed, and
    otherwise what the write of the reply returns. After releasing the
    JDWP token, HandlePacket returns false when cc differs from the reply
    length as an ssize_t, and leaves the request in the input buffer.
    Otherwise it calls ConsumeBytes with the length of the request: when
    that length is positive and within input_count_, it then sets
    processing_request_ to false under shutdown_lock_, broadcasts
    shutdown_cond_ and returns true; when the length is 0 or above
    input_count_, the CHECK of ConsumeBytes aborts. A failed debug check of
    the reply length aborts before anything is written. *)
Theorem HandlePacket_outcome (cfg : BuildConfig) (kernel : Kernel)
    (ProcessRequest :
       Request -> ExpandBuf -> JdwpState -> M (Z * bool * ExpandBuf * JdwpState))
    (st st1 : JdwpState) (ns ns1 : JdwpNetStateBase)
    (replyLength : Z) (skip_reply : bool) (pReply : ExpandBuf) (w w1 : World) :
  let request := {| request_bytes := input_buffer_ ns;
                    request_available := input_count_ ns |} in
  let w0 := log_event (EvUnlock shutdown_lock_) (log_event (EvLock shutdown_lock_) w) in
  let st2 := set_jdwp_token_owner st1 0 in
  let len := Request_GetLength request in
  let call := trace w1 ++ [EvLock socket_lock_;
                           EvWrite (clientSock ns1) pReply replyLength] in
  let cc := if skip_reply then 0
            else if NetState_IsConnected ns1 then fst (kernel call) else -1 in
  let sent := if skip_reply then trace w1
              else if NetState_IsConnected ns1 then call ++ [EvUnlock socket_lock_]
              else trace w1 ++ [EvLog WARNING "Connection with debugger is closed"] in
  let dcheck_fails :=
    kIsDebugBuild cfg &&
    negb (if skip_reply then replyLength =? 0
          else replyLength <=? expandBufGetLength pReply) in
  let result := HandlePacket cfg kernel ProcessRequest st w in
  netState st = Some ns ->
  ProcessRequest request [] (set_processing_request st true) w0 =
    Returned (replyLength, skip_reply, pReply, st1) w1 ->
  netState st1 = Some ns1 ->
  (dcheck_fails = true ->
     exists msg, result = Aborted (log_event (EvLog FATAL msg) w1)) /\
  (dcheck_fails = false -> cc <> to_ssize_t cfg replyLength ->
     exists w',
       result = Returned (false, st2) w' /\
       trace w' = sent ++ [EvBroadcast jdwp_token_cond_;
                           EvPLog ERROR "Failed sending reply to debugger"] /\
       netState st2 = Some ns1 /\
       jdwp_token_owner_thread_id_ st2 = 0) /\
  (dcheck_fails = false -> cc = to_ssize_t cfg replyLength ->
   0 < len <= input_count_ ns1 ->
     exists ns' w',
       ConsumeBytes len ns1 w1 = Returned ns' w1 /\
       input_count_ ns' = input_count_ ns1 - len /\
       result = Returned (true, set_processing_request
                                  (set_netState st2 (Some ns')) false) w' /\
       trace w' = sent ++ [EvBroadcast jdwp_token_cond_;
                           EvLock shutdown_lock_; EvBroadcast shutdown_cond_;
                           EvUnlock shutdown_lock_]) /\
  (dcheck_fails = false -> cc = to_ssize_t cfg replyLength ->
   len <= 0 \/ input_count_ ns1 < len ->
     exists msg w',
       result = Aborted w' /\
       trace w' = sent ++ [EvBroadcast jdwp_token_cond_; EvLog FATAL msg]) /\
  (0 <= replyLength <= SSIZE_MAX cfg -> to_ssize_t cfg replyLength = replyLength).
Proof.
  intros request w0 st2 len call cc sent dcheck_fails result Hns Hpr Hns1.
  destruct (HandlePacket_reply_cases cfg kernel ns1 pReply replyLength skip_reply w1)
    as [Habort Hreturn].
  fold call in Habort, Hreturn. fold cc in Hreturn. fold sent in Hreturn.
  fold dcheck_fails in Habort, Hreturn.
  assert (Hsteps : dcheck_fails = false ->
            exists w2, trace w2 = sent /\
            result =
              if negb (cc =? to_ssize_t cfg replyLength) then
                Returned (false, st2)
                  (log_event (EvPLog ERROR "Failed sending reply to debugger")
                     (log_event (EvBroadcast jdwp_token_cond_) w2))
              else
                match ConsumeBytes len ns1 (log_event (EvBroadcast jdwp_token_cond_) w2) with
                | Returned ns' w4 =>
                    Returned (true, set_processing_request
                                      (set_netState st2 (Some ns')) false)
                             (request_done w4)
                | Aborted w4 => Aborted w4
                end).
  { intros Hd. destruct (Hreturn Hd) as (w2 & Hreply & Ht).
    exists w2. split; [exact Ht|].
    exact (HandlePacket_steps cfg kernel ProcessRequest st st1 ns ns1 replyLength cc
             skip_reply pReply w w1 w2 Hns Hpr Hns1 Hreply). }
  destruct (ConsumeBytes_cases len ns1) as [Hconsume Hcheck].
  split; [|split; [|split; [|split]]].
  - intros Hd. destruct (Habort Hd) as [msg Hreply]. exists msg.
    exact (HandlePacket_reply_abort cfg kernel ProcessRequest st st1 ns ns1 replyLength
             skip_reply pReply w w1 _ Hns Hpr Hns1 Hreply).
  - intros Hd Hne. destruct (Hsteps Hd) as (w2 & Ht & Hres).
    apply Z.eqb_neq in Hne. rewrite Hne in Hres. cbn [negb] in Hres.
    eexists. split; [exact Hres|].
    split; [|split; [exact Hns1 | reflexivity]].
    unfold log_event. cbn [trace]. rewrite Ht, <- app_assoc. reflexivity.
  - intros Hd Heq Hlen. destruct (Hsteps Hd) as (w2 & Ht & Hres).
    apply Z.eqb_eq in Heq. rewrite Heq in Hres. cbn [negb] in Hres.
    destruct (Hconsume Hlen) as (ns' & Hrun & Hcount).
    rewrite Hrun in Hres.
    exists ns'. eexists.
    split; [apply Hrun|]. split; [exact Hcount|]. split; [exact Hres|].
    unfold request_done, log_event. cbn [trace]. rewrite Ht, <- app_assoc. reflexivity.
  - intros Hd Heq Hlen. destruct (Hsteps Hd) as (w2 & Ht & Hres).
    apply Z.eqb_eq in Heq. rewrite Heq in Hres. cbn [negb] in Hres.
    destruct (Hcheck Hlen) as (msg & Hrun).
    rewrite Hrun in Hres.
    exists msg. eexists. split; [exact Hres|].
    unfold log_event. cbn [trace]. rewrite Ht, <- app_assoc. reflexivity.
  - apply to_ssize_t_small.
Qed.

Lemma HandlePacket_outcome_witness :
  exists ns' w',
    input_count_ ns' = 11 - 11 /\
    HandlePacket release_build kernel_complete reply11 connected_state world0 =
      Returned (true, set_processing_request
                        (set_netState
                           (set_jdwp_token_owner
                              (set_processing_request connected_state true) 0)
                           (Some ns')) false) w' /\
    trace w' = [EvLock shutdown_lock_; EvUnlock shutdown_lock_;
                EvLock socket_lock_; EvWrite 7 packet11 11; EvUnlock socket_lock_;
                EvBroadcast jdwp_token_cond_;
                EvLock shutdown_lock_; EvBroadcast shutdown_cond_;
                EvUnlock shutdown_lock_].
Proof.
  edestruct (HandlePacket_outcome release_build kernel_complete reply11
               connected_state) with (w := world0) as (_ & _ & H & _).
  - reflexivity.
  - reflexivity.
  - reflexivity.
  - destruct H as (ns' & w' & Hc & Hn & Hrun & Ht).
    + reflexivity.
    + reflexivity.
    + vm_compute. split; [reflexivity | discriminate].
    + exists ns', w'. split; [exact Hn|].
      split; [exact Hrun | exact Ht].
Defined.

(** ** The attach notification of the JDWP thread *)


Lemma tick_ok env wk : worker_ok env wk -> worker_ok env (tick wk).
Proof. intros H. exact H. Qed.







Section JdwpThreadProperties.
Variable env : Collaborators.
Variable cfg : BuildConfig.
Hypothesis thread_id_not_null : forall t, Dbg_GetThreadSelfId env t <> 0.
Hypothesis ProcessIncoming_keeps_id :
  forall t st,
    debug_thread_id_ (snd (ProcessIncoming env t st)) = debug_thread_id_ st.



End JdwpThreadProperties.

Lemma Create_wait_cases h i j id r :
  Create_wait h i j = Some (id, r) ->
  exists si sj,
    nth_error h i = Some si /\ nth_error h j = Some sj /\
    (i <= j)%nat /\
    holds attach_lock_ (firstn (S i) h) = false /\
    id = debug_thread_id_ (snap_state si) /\ id <> 0 /\
    r = (if IsActive (snap_state sj) then Some (snap_state sj) else None).
Proof.
  unfold Create_wait. intros H.
  destruct (nth_error h i) as [si|]; [|discriminate].
  destruct (nth_error h j) as [sj|]; [|discriminate].
  destruct (i <=? j)%nat eqn:Hij; [|discriminate].
  destruct (holds attach_lock_ (firstn (S i) h)) eqn:Hl; [discriminate|].
  destruct (debug_thread_id_ (snap_state si) =? 0) eqn:Hz; [discriminate|].
  cbn [andb negb] in H. injection H as <- <-.
  exists si, sj. repeat split; try reflexivity.
  - apply Nat.leb_le. exact Hij.
  - apply Z.eqb_neq. exact Hz.
Qed.


Lemma Create_wait_none h :
  Forall (fun s => debug_thread_id_ (snap_state s) = 0) h ->
  forall i j, Create_wait h i j = None.
Proof.
  intros H i j.
  destruct (Create_wait h i j) as [[id r]|] eqn:E; [|reflexivity].
  apply Create_wait_cases in E.
  destruct E as (si & sj & Hi & _ & _ & _ & Hid & Hnz & _).
  rewrite Forall_forall in H.
  specialize (H si (nth_error_In _ _ Hi)). congruence.
Qed.




(** In server mode a failed Accept ends the loop of Run at once:
    debug_thread_id_ stays 0 and attach_cond_ is not broadcast, so a
    caller of Create with suspend=y never finds a point at which it
    leaves its wait. *)
Example Run_accept_fails_without_broadcast :
  let r := Run dropping_transport release_build 5 (created server_options) in
  let h := wk_history (snd r) in
  fst r = RunFinished /\
  forallb (fun s => (debug_thread_id_ (snap_state s) =? 0) &&
                    match snap_event s with
                    | Some (EvBroadcast attach_cond_) => false
                    | _ => true
                    end) h = true /\
  forall i j, Create_wait h i j = None.
Proof.
  split; [vm_compute; reflexivity|].
  split; [vm_compute; reflexivity|].
  apply Create_wait_none. vm_compute.
  repeat (constructor; [reflexivity|]). constructor.
Qed.
